(** * Categorical aggregation and reporting: the demographics scripts

    A shallow embedding of the Python scripts under [src/demographics]
    ([clientByLocation.py], [clientByPayerType.py],
    [clientByLocationAndPayer.py], [telemedPercentage.py],
    [telemedSort.py]) and the properties of their aggregation, sorting
    and rendering code.

    Conventions of the embedding.
    - A Python [str] is a [string]; a character stands for a code point
      below 256 (what the Latin-1 fallback of [get_csv_data] yields).
      Ordinal comparison of strings is [String.compare].
    - A row of [csv.DictReader] is a finite map from field names to
      values, where a value is [Some s] or Python's [None] (the filler
      of a short row). The list that [DictReader] files under the key
      [None] for a long row is never read by the scripts and left out.
    - A Python [set] of strings is a [gset string]; a Python [dict]
      keeps its keys in insertion order and is an association list.
    - An exception ends a call: a function that can raise returns an
      [option] ([None] for the [AttributeError] of [None.strip()]) or a
      type of endings of its own.
    - Integers are unbounded ([nat], [Z]). A percentage is the exact
      rational [n / total * 100] in lowest terms; Python holds the double
      obtained by one rounded division and one rounded product, which is
      the same number whenever the rational is 0, 25, 50, 75 or 100.
    - The clock and the formatting of a float with one decimal are
      parameters of the report generators. *)

From Stdlib Require Import ZArith QArith Qreduction Lia Lqa Ascii String DecimalString.
From stdpp Require Import base option list sorting gmap sets strings.

Local Open Scope Z_scope.
Local Open Scope nat_scope.
Local Open Scope stdpp_scope.

(** ** Python strings *)

Module Py.

(** [str.isspace] on one code point below 256. *)
Definition isspace (c : ascii) : bool :=
  let n := nat_of_ascii c in
  ((9 <=? n) && (n <=? 13)) || ((28 <=? n) && (n <=? 32))
  || (n =? 133) || (n =? 160).

Fixpoint lstrip (s : string) : string :=
  match s with
  | EmptyString => EmptyString
  | String c t => if isspace c then lstrip t else s
  end.

Definition rstrip (s : string) : string :=
  String.rev (lstrip (String.rev s)).

(** [s.strip()] *)
Definition strip (s : string) : string := rstrip (lstrip s).

(** [len(s)] *)
Definition len (s : string) : nat := String.length s.

(** Truth value of a string: [bool(s)]. *)
Definition truthy (s : string) : bool :=
  match s with EmptyString => false | _ => true end.

(** [c.lower()] on one code point below 256: the letters A-Z and the
    Latin-1 capitals 192-222 (without the multiplication sign 215). *)
Definition lower_char (c : ascii) : ascii :=
  let n := nat_of_ascii c in
  if ((65 <=? n) && (n <=? 90))
     || ((192 <=? n) && (n <=? 222) && negb (n =? 215))
  then ascii_of_nat (n + 32) else c.

Fixpoint lower (s : string) : string :=
  match s with
  | EmptyString => EmptyString
  | String c t => String (lower_char c) (lower t)
  end.

(** [s.upper()]: a-z and the Latin-1 small letters 224-254 (without the
    division sign 247) move down by 32, the sharp s (223) becomes "SS".
    Python sends the micro sign (181) and y-diaeresis (255) to code
    points above 255; they are left in place here, which agrees with
    Python on every comparison of the result with an ASCII string. *)
Fixpoint upper (s : string) : string :=
  match s with
  | EmptyString => EmptyString
  | String c t =>
      let n := nat_of_ascii c in
      if ((97 <=? n) && (n <=? 122))
         || ((224 <=? n) && (n <=? 254) && negb (n =? 247))
      then String (ascii_of_nat (n - 32)) (upper t)
      else if n =? 223 then String "S" (String "S" (upper t))
      else String c (upper t)
  end.

(** [sub in s] *)
Fixpoint contains (sub s : string) : bool :=
  String.prefix sub s
  || match s with
     | EmptyString => false
     | String _ t => contains sub t
     end.

(** [c * n] for a one-character string. *)
Fixpoint repeat_char (c : ascii) (n : nat) : string :=
  match n with
  | O => EmptyString
  | S k => String c (repeat_char c k)
  end.

(** [f"{s:<w}"]: pad on the right up to width [w], never cut. *)
Definition ljust (w : nat) (s : string) : string :=
  s +:+ repeat_char " " (w - len s).

(** [f"{s:>w}"]: pad on the left up to width [w], never cut. *)
Definition rjust (w : nat) (s : string) : string :=
  repeat_char " " (w - len s) +:+ s.

(** [s[:n]] *)
Definition take (n : nat) (s : string) : string := String.substring 0 n s.

(** [sep.join(l)] *)
Fixpoint join (sep : string) (l : list string) : string :=
  match l with
  | [] => EmptyString
  | [x] => x
  | x :: t => x +:+ sep +:+ join sep t
  end.

End Py.

(** [str(n)] for a non-negative integer. *)
Definition str_of_nat (n : nat) : string :=
  DecimalString.NilZero.string_of_uint (Nat.to_uint n).

(** ** Rows of the decoded table *)

(** A value stored under a key of a row: [Some s] for a string, [None]
    for Python's [None]. *)
Abbreviation row := (gmap string (option string)).

Module Row.

(** [row.get(k)]: [None] when the key is missing or holds [None]. *)
Definition get (r : row) (k : string) : option string := mjoin (r !! k).

(** [row.get(k, '')]: the default replaces a missing key only; a stored
    [None] comes back as [None]. *)
Definition get_or_empty (r : row) (k : string) : option string :=
  default (Some EmptyString) (r !! k).

(** [row.get(k, '').strip()]: [None] is the [AttributeError] of
    [None.strip()]. *)
Definition get_strip (r : row) (k : string) : option string :=
  Py.strip <$> get_or_empty r k.

End Row.

(** [not v] for a value that is a string or [None]. *)
Definition py_not (v : option string) : bool :=
  match v with
  | Some s => negb (Py.truthy s)
  | None => true
  end.

(** ** Insertion-ordered dictionaries *)

Module Dict.
Section Dict.
Context {V : Type}.

Definition t := list (string * V).

(** [d.get(k)] *)
Fixpoint get (k : string) (d : t) : option V :=
  match d with
  | [] => None
  | (k', v) :: rest => if decide (k = k') then Some v else get k rest
  end.

(** [k in d] *)
Definition mem (k : string) (d : t) : bool :=
  match get k d with Some _ => true | None => false end.

(** [d[k] = v]: an existing key keeps its place, a new key goes last. *)
Fixpoint set (k : string) (v : V) (d : t) : t :=
  match d with
  | [] => [(k, v)]
  | (k', v') :: rest =>
      if decide (k = k') then (k', v) :: rest else (k', v') :: set k v rest
  end.

(** In-place update of the object stored under [k] (which is there
    whenever the scripts do this). *)
Fixpoint alter (f : V → V) (k : string) (d : t) : t :=
  match d with
  | [] => []
  | (k', v') :: rest =>
      if decide (k = k') then (k', f v') :: rest
      else (k', v') :: alter f k rest
  end.

(** [if k not in d: d[k] = v0] *)
Definition setdefault (k : string) (v0 : V) (d : t) : t :=
  if mem k d then d else set k v0 d.

Definition keys (d : t) : list string := d.*1.
Definition values (d : t) : list V := d.*2.
Definition items (d : t) : list (string * V) := d.

(** The keys of a Python dictionary are distinct. *)
Definition wf (d : t) : Prop := NoDup (keys d).
End Dict.
Arguments t : clear implicits.

(** Dict comprehension [{k: f(v) for k, v in d.items()}]. *)
Definition map_values {V W} (f : V → W) (d : t V) : t W :=
  prod_map id f <$> d.

End Dict.

(** ** Grouping aggregator *)

(** [if k not in d: d[k] = set()] followed by [d[k].add(patient)]. *)
Definition group_add (k patient : string) (d : Dict.t (gset string))
    : Dict.t (gset string) :=
  Dict.alter (λ s, s ∪ {[patient]}) k (Dict.setdefault k ∅ d).

(** [process_client_by_location] of clientByLocation.py and
    [process_client_by_payor] of clientByPayerType.py are the same text up
    to the name of the dimension field, here [field]. *)
Definition group_step (field : string)
    (location_patients : Dict.t (gset string)) (r : row)
    : Dict.t (gset string) :=
  let location := Row.get r field in
  let patient := Row.get r "Patient" in
  if py_not location || py_not (Py.strip <$> location)
     || py_not patient || py_not (Py.strip <$> patient)
  then location_patients
  else
    match location, patient with
    | Some location, Some patient =>
        let location := Py.strip location in
        let patient := Py.strip patient in
        let location_patients :=
          Dict.setdefault location ∅ location_patients in
        Dict.alter (λ s, s ∪ {[patient]}) location location_patients
    | _, _ => location_patients
    end.

Definition group_patients (field : string) (data : list row)
    : Dict.t (gset string) :=
  fold_left (group_step field) data [].

Definition process_client_by (field : string) (data : list row)
    : Dict.t nat :=
  Dict.map_values size (group_patients field data).

Definition process_client_by_location : list row → Dict.t nat :=
  process_client_by "Location".

Definition process_client_by_payor : list row → Dict.t nat :=
  process_client_by "Payor".

(** [all([a, b, c])] on values that are strings or [None]. *)
Definition py_all (l : list (option string)) : bool :=
  forallb (λ v, negb (py_not v)) l.

(** [process_client_by_location_and_payer] of
    clientByLocationAndPayer.py. *)
Definition group2_step
    (location_payer_patients : Dict.t (Dict.t (gset string))) (r : row)
    : Dict.t (Dict.t (gset string)) :=
  let location := Row.get r "Location" in
  let payor := Row.get r "Payor" in
  let patient := Row.get r "Patient" in
  if negb (py_all [location; payor; patient])
     || negb (py_all [Py.strip <$> location; Py.strip <$> payor;
                      Py.strip <$> patient])
  then location_payer_patients
  else
    match location, payor, patient with
    | Some location, Some payor, Some patient =>
        let location := Py.strip location in
        let payor := Py.strip payor in
        let patient := Py.strip patient in
        let d := Dict.setdefault location [] location_payer_patients in
        let d := Dict.alter (Dict.setdefault payor ∅) location d in
        Dict.alter (Dict.alter (λ s, s ∪ {[patient]}) payor) location d
    | _, _, _ => location_payer_patients
    end.

Definition process_client_by_location_and_payer (data : list row)
    : Dict.t (Dict.t (gset string)) :=
  fold_left group2_step data [].

(** ** [sorted] and the comparison of keys *)

(** [sorted(l, key=key)]: Python's sort is stable and decides only with
    [<] on the keys. The insertion sort below puts an element before the
    first element of the sorted tail that is not smaller, so elements
    with equal keys keep the order they have in [l]. *)
Section PySorted.
Context {A K : Type} (lt : K → K → bool) (key : A → K).

Fixpoint sorted_insert (x : A) (l : list A) : list A :=
  match l with
  | [] => [x]
  | y :: t => if lt (key y) (key x) then y :: sorted_insert x t else x :: y :: t
  end.

Fixpoint py_sorted (l : list A) : list A :=
  match l with
  | [] => []
  | x :: t => sorted_insert x (py_sorted t)
  end.
End PySorted.

(** [a < b] on two-element tuples: the first components decide unless
    they are equal. *)
Definition tuple_lt {A B : Type} (eqA ltA : A → A → bool)
    (ltB : B → B → bool) (x y : A * B) : bool :=
  if eqA x.1 y.1 then ltB x.2 y.2 else ltA x.1 y.1.

Definition Q_ltb (a b : Q) : bool := negb (Qle_bool b a).

(** [sorted(s)] for a set of strings. *)
Definition sorted_strings (s : gset string) : list string :=
  py_sorted String.ltb id (elements s).

(** A cell handed to [csv.writer]: a string or an integer. *)
Inductive cell : Type :=
  | CStr (s : string)
  | CInt (n : nat).

(** What a report generator leaves behind: the string it returns (shown
    on the console by [main]), the lines joined into the .txt file and
    the rows written to the .csv file. *)
Record report : Type := Report {
  returned : string;
  txt_file : list string;
  csv_file : list (list cell)
}.

Definition nl : string := String "010" EmptyString.
Definition tab : string := String "009" EmptyString.

(** [n / total * 100] on integers, as a rational in lowest terms. *)
Definition ratio_pct (n total : nat) : Q :=
  Qred (inject_Z (Z.of_nat n) / inject_Z (Z.of_nat total) * 100)%Q.

(** [(n / total * 100) if total > 0 else 0] *)
Definition percent_of (n total : nat) : Q :=
  if 0 <? total then ratio_pct n total else 0%Q.

(** [v and v.strip()] as a truth value, for a string or [None]. *)
Definition py_present (v : option string) : bool :=
  negb (py_not v) && negb (py_not (Py.strip <$> v)).

(** [l[-n:]] *)
Definition last_n {A : Type} (n : nat) (l : list A) : list A :=
  drop (length l - n) l.

(** [body[:18] + '..' if len(body) > 20 else body] *)
Definition display_limited (body : string) : string :=
  if 20 <? Py.len body then Py.take 18 body +:+ ".." else body.

(** ** clientByLocation.py and clientByPayerType.py *)

Module ClientByLocation.
Section Report.
(** [field] is 'Location' (clientByLocation.py) or 'Payor'
    (clientByPayerType.py), [FIELD] the same word in capitals;
    [generated] is the rendered clock reading and [title] is [str.title]. *)
Variables (field FIELD : string) (generated : string) (title : string → string).

(** The sort of [generate_report], lines 84-90. *)
Definition sorted_items (location_count : Dict.t nat) (sort_by : string)
    : list (string * nat) :=
  if String.eqb sort_by "count"
  then py_sorted (tuple_lt Z.eqb Z.ltb String.ltb)
         (λ x, (- Z.of_nat x.2, x.1)%Z) (Dict.items location_count)
  else py_sorted (tuple_lt String.eqb String.ltb Nat.ltb) id
         (Dict.items location_count).

Definition count_line (location : string) (count : nat) : string :=
  Py.ljust 30 location +:+ " " +:+ Py.rjust 15 (str_of_nat count).

(** The body of the loop at lines 115-124, on the console lines, the
    file lines, the csv rows and the running total. *)
Definition add_row
    (acc : list string * list string * list (list cell) * nat)
    (item : string * nat) : list string * list string * list (list cell) * nat :=
  let '(report, txt_lines, csv_rows, total_unique_patients) := acc in
  let '(location, count) := item in
  let line := count_line location count in
  (report ++ [line], txt_lines ++ [line],
   csv_rows ++ [[CStr location; CInt count]], total_unique_patients + count).

(** [generate_report]; an empty dictionary returns at once and writes no
    file. *)
Definition generate_report (location_count : Dict.t nat) (sort_by : string)
    : report :=
  match location_count with
  | [] => Report "No client data found." [] []
  | _ =>
    let sorted_items := sorted_items location_count sort_by in
    let banner := "UNIQUE PATIENT COUNT BY " +:+ FIELD +:+ " REPORT" in
    let heading := Py.ljust 30 field +:+ " " +:+ Py.rjust 15 "Unique Patients" in
    let report :=
      [nl +:+ Py.repeat_char "=" 50; banner; Py.repeat_char "=" 50;
       heading; Py.repeat_char "-" 50] in
    let txt_lines :=
      [Py.repeat_char "=" 50; banner; "Generated: " +:+ generated;
       "Sort Order: " +:+ ("By " +:+ title sort_by);
       Py.repeat_char "=" 50; heading; Py.repeat_char "-" 50] in
    let csv_rows := [[CStr field; CStr "Unique_Patients"]] in
    let '(report, txt_lines, csv_rows, total_unique_patients) :=
      fold_left add_row sorted_items (report, txt_lines, csv_rows, 0) in
    let total_line :=
      Py.ljust 30 "TOTAL" +:+ " " +:+ Py.rjust 15 (str_of_nat total_unique_patients) in
    let report := report ++ [Py.repeat_char "-" 50; total_line; Py.repeat_char "=" 50] in
    let txt_lines := txt_lines ++ [Py.repeat_char "-" 50; total_line; Py.repeat_char "=" 50] in
    let csv_rows := csv_rows ++ [[CStr "TOTAL"; CInt total_unique_patients]] in
    Report (Py.join nl report) txt_lines csv_rows
  end.
End Report.

(** The loop state of [analyze_data_gaps]. *)
Record gaps_state : Type := GapsState {
  has_payor_no_location : gset string;
  has_location_no_payor : gset string;
  has_both : nat;
  has_neither : nat
}.

Definition gaps_init : gaps_state := GapsState ∅ ∅ 0 0.

(** One turn of the loop at lines 172-186; [None] when a [.strip()]
    meets [None]. *)
Definition gaps_step (st : gaps_state) (r : row) : option gaps_state :=
  location ← Row.get_strip r "Location";
  payor ← Row.get_strip r "Payor";
  patient ← Row.get_strip r "Patient";
  Some
    (if Py.truthy payor && negb (Py.truthy location) then
       if Py.truthy patient
       then GapsState (has_payor_no_location st ∪ {[patient]})
              (has_location_no_payor st) (has_both st) (has_neither st)
       else st
     else if Py.truthy location && negb (Py.truthy payor) then
       if Py.truthy patient
       then GapsState (has_payor_no_location st)
              (has_location_no_payor st ∪ {[patient]}) (has_both st) (has_neither st)
       else st
     else if Py.truthy location && Py.truthy payor then
       GapsState (has_payor_no_location st) (has_location_no_payor st)
         (S (has_both st)) (has_neither st)
     else
       GapsState (has_payor_no_location st) (has_location_no_payor st)
         (has_both st) (S (has_neither st))).

Fixpoint gaps_loop (data : list row) (st : gaps_state) : option gaps_state :=
  match data with
  | [] => Some st
  | r :: rest => st' ← gaps_step st r; gaps_loop rest st'
  end.

(** The dictionary [gaps_summary]; its keys 'has_both' and 'has_neither'
    are the fields [has_both_count] and [has_neither_count]. *)
Record gaps_summary : Type := GapsSummary {
  total_records : nat;
  has_both_count : nat;
  has_both_pct : Q;
  payor_no_location : nat;
  payor_no_location_pct : Q;
  location_no_payor : nat;
  location_no_payor_pct : Q;
  has_neither_count : nat;
  has_neither_pct : Q;
  patients_payor_no_location : list string;
  patients_location_no_payor : list string
}.

Definition summarize (total_records : nat) (st : gaps_state) : gaps_summary :=
  {| total_records := total_records;
     has_both_count := has_both st;
     has_both_pct := percent_of (has_both st) total_records;
     payor_no_location := size (has_payor_no_location st);
     payor_no_location_pct :=
       percent_of (size (has_payor_no_location st)) total_records;
     location_no_payor := size (has_location_no_payor st);
     location_no_payor_pct :=
       percent_of (size (has_location_no_payor st)) total_records;
     has_neither_count := has_neither st;
     has_neither_pct := percent_of (has_neither st) total_records;
     patients_payor_no_location := sorted_strings (has_payor_no_location st);
     patients_location_no_payor := sorted_strings (has_location_no_payor st) |}.

(** [analyze_data_gaps], lines 157-201 and the [return] of line 248: the
    summary it computes, or [None] when the loop raises. *)
Definition analyze_data_gaps (data : list row) : option gaps_summary :=
  let total_records := length data in
  st ← gaps_loop data gaps_init;
  Some (summarize total_records st).

End ClientByLocation.

(** ** clientByLocationAndPayer.py *)

Module ClientByLocationAndPayer.

(** [len(location_payer_data[location].get(payor, set()))]; [location]
    always comes from the keys of the dictionary. *)
Definition cell_count (location_payer_data : Dict.t (Dict.t (gset string)))
    (location payor : string) : nat :=
  size (default ∅
          (Dict.get payor (default [] (Dict.get location location_payer_data)))).

(** Lines 137-139: the union of the payor keys of every location. *)
Definition all_payors (location_payer_data : Dict.t (Dict.t (gset string)))
    : gset string :=
  fold_left (λ acc payors, acc ∪ list_to_set (Dict.keys payors))
    (Dict.values location_payer_data) ∅.

Definition sorted_payors (d : Dict.t (Dict.t (gset string))) : list string :=
  sorted_strings (all_payors d).

Definition sorted_locations (d : Dict.t (Dict.t (gset string))) : list string :=
  py_sorted String.ltb id (Dict.keys d).

(** Lines 198-204: the running sum of one row of the matrix. *)
Definition location_total (d : Dict.t (Dict.t (gset string)))
    (location : string) : nat :=
  fold_left (λ total payor, total + cell_count d location payor)
    (sorted_payors d) 0.

(** Lines 218-219. *)
Definition payor_total (d : Dict.t (Dict.t (gset string)))
    (payor : string) : nat :=
  sum_list ((λ loc, cell_count d loc payor) <$> sorted_locations d).

(** Lines 215-222: the running sum of the totals row. *)
Definition grand_total (d : Dict.t (Dict.t (gset string))) : nat :=
  fold_left (λ total payor, total + payor_total d payor) (sorted_payors d) 0.

(** Lines 187-193: the console line of one location, cut after five
    payors. *)
Definition console_row (d : Dict.t (Dict.t (gset string)))
    (location : string) : string :=
  fold_left (λ row payor,
               row +:+ Py.rjust 13 (str_of_nat (cell_count d location payor)))
    (take 5 (sorted_payors d)) (Py.ljust 20 location)
  +:+ (if 5 <? length (sorted_payors d) then "  ..." else "").

(** Lines 196-206: the file line of one location, every payor. *)
Definition txt_row (d : Dict.t (Dict.t (gset string)))
    (location : string) : string :=
  fold_left (λ txt_row payor,
               txt_row +:+ str_of_nat (cell_count d location payor) +:+ tab)
    (sorted_payors d) (location +:+ tab)
  +:+ str_of_nat (location_total d location).

(** Lines 197-207: the csv row of one location. *)
Definition csv_row (d : Dict.t (Dict.t (gset string)))
    (location : string) : list cell :=
  [CStr location]
  ++ ((λ payor, CInt (cell_count d location payor)) <$> sorted_payors d)
  ++ [CInt (location_total d location)].

(** The body of the loop at lines 185-209. *)
Definition add_location (d : Dict.t (Dict.t (gset string)))
    (acc : list string * list string * list (list cell)) (location : string)
    : list string * list string * list (list cell) :=
  let '(report, txt_report, csv_rows) := acc in
  (report ++ [console_row d location], txt_report ++ [txt_row d location],
   csv_rows ++ [csv_row d location]).

(** Lines 213-225: the totals row of the csv file. *)
Definition csv_totals (d : Dict.t (Dict.t (gset string))) : list cell :=
  [CStr "TOTAL"] ++ ((λ payor, CInt (payor_total d payor)) <$> sorted_payors d)
  ++ [CInt (grand_total d)].

Section Summary.
Variable generated : string.

Definition generate_summary_report
    (location_payer_data : Dict.t (Dict.t (gset string))) : report :=
  let d := location_payer_data in
  let banner := "SUMMARY MATRIX: Unique Patients by Location and Payor" in
  let report := [nl +:+ nl +:+ Py.repeat_char "=" 70; banner; Py.repeat_char "=" 70] in
  let txt_report :=
    [Py.repeat_char "=" 70; banner; "Generated: " +:+ generated;
     Py.repeat_char "=" 70] in
  let txt_header :=
    fold_left (λ h payor, h +:+ payor +:+ tab) (sorted_payors d)
      ("Location" +:+ tab)
    +:+ "Total" in
  let txt_report := txt_report ++ [txt_header; Py.repeat_char "-" 70] in
  let header :=
    fold_left (λ h payor, h +:+ Py.rjust 13 (Py.take 12 payor))
      (take 5 (sorted_payors d)) (Py.ljust 20 "Location")
    +:+ (if 5 <? length (sorted_payors d) then "  ..." else "") in
  let report := report ++ [header; Py.repeat_char "-" 70] in
  let csv_rows :=
    [[CStr "Location"] ++ (CStr <$> sorted_payors d) ++ [CStr "Total"]] in
  let '(report, txt_report, csv_rows) :=
    fold_left (add_location d) (sorted_locations d)
      (report, txt_report, csv_rows) in
  let totals_row :=
    fold_left (λ totals_row payor,
                 totals_row +:+ str_of_nat (payor_total d payor) +:+ tab)
      (sorted_payors d) ("TOTAL" +:+ tab)
    +:+ str_of_nat (grand_total d) in
  Report (Py.join nl report)
    (txt_report ++ [Py.repeat_char "-" 70; totals_row])
    (csv_rows ++ [csv_totals d]).
End Summary.

(** The loop state of [analyze_data_gaps], lines 257-265. *)
Record gaps_state : Type := GapsState {
  has_payor_no_location : gset string;
  has_location_no_payor : gset string;
  has_both : nat;
  has_neither : nat;
  payor_only_by_payor : Dict.t (gset string);
  location_only_by_location : Dict.t (gset string)
}.

Definition gaps_init : gaps_state := GapsState ∅ ∅ 0 0 [] [].

(** One turn of the loop at lines 267-287. *)
Definition gaps_step (st : gaps_state) (r : row) : option gaps_state :=
  location ← Row.get_strip r "Location";
  payor ← Row.get_strip r "Payor";
  patient ← Row.get_strip r "Patient";
  Some
    (if Py.truthy payor && negb (Py.truthy location) then
       if Py.truthy patient
       then GapsState (has_payor_no_location st ∪ {[patient]})
              (has_location_no_payor st) (has_both st) (has_neither st)
              (group_add payor patient (payor_only_by_payor st))
              (location_only_by_location st)
       else st
     else if Py.truthy location && negb (Py.truthy payor) then
       if Py.truthy patient
       then GapsState (has_payor_no_location st)
              (has_location_no_payor st ∪ {[patient]}) (has_both st) (has_neither st)
              (payor_only_by_payor st)
              (group_add location patient (location_only_by_location st))
       else st
     else if Py.truthy location && Py.truthy payor then
       GapsState (has_payor_no_location st) (has_location_no_payor st)
         (S (has_both st)) (has_neither st)
         (payor_only_by_payor st) (location_only_by_location st)
     else
       GapsState (has_payor_no_location st) (has_location_no_payor st)
         (has_both st) (S (has_neither st))
         (payor_only_by_payor st) (location_only_by_location st)).

Fixpoint gaps_loop (data : list row) (st : gaps_state) : option gaps_state :=
  match data with
  | [] => Some st
  | r :: rest => st' ← gaps_step st r; gaps_loop rest st'
  end.

(** Lines 317 and 323: [sorted(groups.items(), key=lambda x: -len(x[1]))[:5]],
    the groups the console summary shows. *)
Definition console_groups (groups : Dict.t (gset string))
    : list (string * gset string) :=
  take 5 (py_sorted Z.ltb (λ x, (- Z.of_nat (size x.2))%Z) (Dict.items groups)).

(** Lines 348 and 356: [sorted(groups.items())], the groups of the persisted
    breakdown. Tuples are compared; two sets compare by strict
    inclusion. *)
Definition file_groups (groups : Dict.t (gset string))
    : list (string * gset string) :=
  py_sorted (tuple_lt String.eqb String.ltb (λ a b, bool_decide (a ⊂ b))) id
    (Dict.items groups).

Section Gaps.
(** [fmt1 x] is [f"{x:.1f}"]; [generated] is the rendered clock reading. *)
Variables (fmt1 : Q → string) (generated : string).

Definition pct_text (n total_records : nat) : string :=
  " (" +:+ fmt1 (percent_of n total_records) +:+ "%)".

Definition line_total (total_records : nat) : string :=
  "Total Records: " +:+ str_of_nat total_records.

Definition line_both (total_records : nat) (st : gaps_state) : string :=
  "Records with both Location and Payor: " +:+ str_of_nat (has_both st)
  +:+ pct_text (has_both st) total_records.

Definition line_payor_only (total_records : nat) (st : gaps_state) : string :=
  "Records with Payor but NO Location: "
  +:+ str_of_nat (size (has_payor_no_location st))
  +:+ pct_text (size (has_payor_no_location st)) total_records.

Definition line_location_only (total_records : nat) (st : gaps_state) : string :=
  "Records with Location but NO Payor: "
  +:+ str_of_nat (size (has_location_no_payor st))
  +:+ pct_text (size (has_location_no_payor st)) total_records.

Definition line_neither (total_records : nat) (st : gaps_state) : string :=
  "Records with neither: " +:+ str_of_nat (has_neither st)
  +:+ pct_text (has_neither st) total_records.

Definition console_group_line (g : string * gset string) : string :=
  "  " +:+ g.1 +:+ ": " +:+ str_of_nat (size g.2) +:+ " patients".

(** The calls of [print], lines 305-326, one entry per call. *)
Definition printed (total_records : nat) (st : gaps_state) : list string :=
  [nl +:+ Py.repeat_char "=" 70;
   "DATA QUALITY ANALYSIS - COMPREHENSIVE REPORT"; Py.repeat_char "=" 70]
  ++ [line_total total_records; line_both total_records st;
      line_payor_only total_records st; line_location_only total_records st;
      line_neither total_records st]
  ++ (match payor_only_by_payor st with
      | [] => []
      | groups =>
          (nl +:+ "Payors with patients missing location data:")
          :: (console_group_line <$> console_groups groups)
      end)
  ++ (match location_only_by_location st with
      | [] => []
      | groups =>
          (nl +:+ "Locations with patients missing payor data:")
          :: (console_group_line <$> console_groups groups)
      end)
  ++ [Py.repeat_char "=" 70].

Definition file_group_lines (g : string * gset string) : list string :=
  (nl +:+ g.1 +:+ " (" +:+ str_of_nat (size g.2) +:+ " patients):" +:+ nl)
  :: ((λ patient, "  - " +:+ patient +:+ nl) <$> sorted_strings g.2).

(** The calls of [f.write] in the block of lines 332-359, one entry per
    call: the text of the persisted breakdown. *)
Definition written (total_records : nat) (st : gaps_state) : list string :=
  ["DATA QUALITY ANALYSIS - LOCATION AND PAYOR COMBINED" +:+ nl;
   "Generated: " +:+ generated +:+ nl;
   Py.repeat_char "=" 70 +:+ nl +:+ nl;
   "OVERALL SUMMARY" +:+ nl; Py.repeat_char "-" 50 +:+ nl]
  ++ [line_total total_records +:+ nl; line_both total_records st +:+ nl;
      line_payor_only total_records st +:+ nl;
      line_location_only total_records st +:+ nl;
      line_neither total_records st +:+ nl +:+ nl]
  ++ (match payor_only_by_payor st with
      | [] => []
      | groups =>
          ["BREAKDOWN: PAYORS WITH PATIENTS MISSING LOCATION" +:+ nl;
           Py.repeat_char "-" 50 +:+ nl]
          ++ concat (file_group_lines <$> file_groups groups)
      end)
  ++ (match location_only_by_location st with
      | [] => []
      | groups =>
          [nl +:+ nl +:+ "BREAKDOWN: LOCATIONS WITH PATIENTS MISSING PAYOR" +:+ nl;
           Py.repeat_char "-" 50 +:+ nl]
          ++ concat (file_group_lines <$> file_groups groups)
      end).

(** How a call of [analyze_data_gaps] ends. The script imports
    [datetime] only inside [generate_summary_report] (line 134), so at
    line 329, outside any [try], the name is unbound: once the loop has
    gone through and the console summary is printed the call raises
    [NameError], the block that writes the file is not reached and
    nothing is returned. Before that, the loop raises [AttributeError]
    on a cell that holds [None]. *)
Inductive gaps_end : Type :=
  | AttributeError
  | NameError (final_state : gaps_state) (console_output : list string).

Definition analyze_data_gaps (data : list row) : gaps_end :=
  let total_records := length data in
  match gaps_loop data gaps_init with
  | None => AttributeError
  | Some st => NameError st (printed total_records st)
  end.
End Gaps.

End ClientByLocationAndPayer.

(** ** telemedPercentage.py *)

Module TelemedPercentage.

(** The per-patient dictionary built at lines 49-55. *)
Record stats : Type := Stats {
  total_visits : nat;
  telemed_visits : nat;
  percentage : Q;
  payors : gset string;
  services : gset string
}.

Definition add_visit (s : stats) : stats :=
  Stats (S (total_visits s)) (telemed_visits s) (percentage s) (payors s) (services s).

Definition add_telemed (s : stats) : stats :=
  Stats (total_visits s) (S (telemed_visits s)) (percentage s) (payors s) (services s).

Definition add_payor (payor : string) (s : stats) : stats :=
  Stats (total_visits s) (telemed_visits s) (percentage s)
    (payors s ∪ {[payor]}) (services s).

Definition add_service (service : string) (s : stats) : stats :=
  Stats (total_visits s) (telemed_visits s) (percentage s)
    (payors s) (services s ∪ {[service]}).

(** The test of line 47. *)
Definition in_scope (location patient : string) : bool :=
  String.eqb (Py.upper location) "OKC" && Py.truthy patient.

(** The test of line 61. *)
Definition is_telemed (service : string) : bool :=
  Py.contains "telemedicine" (Py.lower service).

(** One turn of the loop at lines 41-69; the payor is read only for a
    row in scope. *)
Definition okc_step (patient_stats : Dict.t stats) (r : row)
    : option (Dict.t stats) :=
  location ← Row.get_strip r "Location";
  patient ← Row.get_strip r "Patient";
  service ← Row.get_strip r "Service";
  if in_scope location patient then
    let d := Dict.setdefault patient (Stats 0 0 0%Q ∅ ∅) patient_stats in
    let d := Dict.alter add_visit patient d in
    let d := if is_telemed service then Dict.alter add_telemed patient d else d in
    payor ← Row.get_strip r "Payor";
    let d := if Py.truthy payor then Dict.alter (add_payor payor) patient d else d in
    let d := if Py.truthy service then Dict.alter (add_service service) patient d else d in
    Some d
  else Some patient_stats.

Fixpoint okc_loop (data : list row) (patient_stats : Dict.t stats)
    : option (Dict.t stats) :=
  match data with
  | [] => Some patient_stats
  | r :: rest => d ← okc_step patient_stats r; okc_loop rest d
  end.

(** Lines 72-74. *)
Definition set_percentage (s : stats) : stats :=
  if 0 <? total_visits s
  then Stats (total_visits s) (telemed_visits s)
         (ratio_pct (telemed_visits s) (total_visits s)) (payors s) (services s)
  else s.

Definition process_okc_telemedicine_percentage (data : list row)
    : option (Dict.t stats) :=
  d ← okc_loop data [];
  Some (Dict.map_values set_percentage d).

(** The usage tiers counted at lines 109-112. *)
Definition is_high (p : Q) : bool := Qle_bool 75%Q p.
Definition is_medium (p : Q) : bool :=
  Qle_bool 25%Q p && Q_ltb p 75%Q.
Definition is_low (p : Q) : bool := Q_ltb 0%Q p && Q_ltb p 25%Q.
Definition is_none (p : Q) : bool := Qeq_bool p 0%Q.

(** [sum(1 for stats in patient_stats.values() if cond(stats['percentage']))] *)
Definition count_tier (cond : Q → bool) (patient_stats : Dict.t stats) : nat :=
  length (filter (λ s, cond (percentage s)) (Dict.values patient_stats)).

(** Lines 88-89: the key is the tuple (-percentage, -telemed_visits, name). *)
Definition sort_key (x : string * stats) : Q * (Z * string) :=
  ((- percentage x.2)%Q, ((- Z.of_nat (telemed_visits x.2))%Z, x.1)).

Definition sorted_patients (patient_stats : Dict.t stats) : list (string * stats) :=
  py_sorted (tuple_lt Qeq_bool Q_ltb (tuple_lt Z.eqb Z.ltb String.ltb))
    sort_key (Dict.items patient_stats).

Section Report.
(** [fmt1 x] is [f"{x:.1f}"]; [generated] is the rendered clock reading. *)
Variables (fmt1 : Q → string) (generated : string).

Definition payors_str (s : stats) : string :=
  Py.join ", " (sorted_strings (payors s)).

(** Line 142, under the comment "Full line for file". *)
Definition detail_line (patient : string) (s : stats) : string :=
  let pct_str := Py.rjust 11 (fmt1 (percentage s)) +:+ "%" in
  Py.ljust 30 patient +:+ " " +:+ Py.rjust 8 (str_of_nat (total_visits s))
  +:+ " " +:+ Py.rjust 8 (str_of_nat (telemed_visits s))
  +:+ " " +:+ pct_str +:+ " " +:+ Py.ljust 20 (display_limited (payors_str s)).

(** Line 146. *)
Definition csv_row (patient : string) (s : stats) : list cell :=
  [CStr patient; CInt (total_visits s); CInt (telemed_visits s);
   CStr (fmt1 (percentage s)); CStr (payors_str s)].

(** Lines 92-125: the lines before the patient table. The sign of
    "greater or equal" in the source text is written out in UTF-8. *)
Definition heading_lines (patient_stats : Dict.t stats) : list string :=
  let total_visits_all := sum_list (total_visits <$> Dict.values patient_stats) in
  let total_telemed_all := sum_list (telemed_visits <$> Dict.values patient_stats) in
  let overall_percentage := percent_of total_telemed_all total_visits_all in
  [Py.repeat_char "=" 80;
   "TELEMEDICINE USAGE PERCENTAGE REPORT - OKC LOCATION";
   "Generated: " +:+ generated;
   Py.repeat_char "=" 80;
   nl +:+ "Total OKC Patients: " +:+ str_of_nat (length patient_stats);
   "Total OKC Visits: " +:+ str_of_nat total_visits_all;
   "Total Telemedicine Visits: " +:+ str_of_nat total_telemed_all;
   "Overall Telemedicine Usage: " +:+ fmt1 overall_percentage +:+ "%";
   nl +:+ "Usage Distribution:";
   "  High (≥75%): " +:+ str_of_nat (count_tier is_high patient_stats) +:+ " patients";
   "  Medium (25-74%): " +:+ str_of_nat (count_tier is_medium patient_stats) +:+ " patients";
   "  Low (1-24%): " +:+ str_of_nat (count_tier is_low patient_stats) +:+ " patients";
   "  None (0%): " +:+ str_of_nat (count_tier is_none patient_stats) +:+ " patients";
   nl +:+ Py.repeat_char "-" 80;
   "PATIENT DETAILS";
   Py.repeat_char "-" 80;
   Py.ljust 30 "Patient" +:+ " " +:+ Py.rjust 8 "Total" +:+ " "
     +:+ Py.rjust 8 "Telemed" +:+ " " +:+ Py.rjust 12 "Percentage" +:+ " "
     +:+ Py.ljust 20 "Payors";
   Py.repeat_char "-" 80].

Definition generate_telemedicine_percentage_report
    (patient_stats : Dict.t stats) : report :=
  let sorted_patients := sorted_patients patient_stats in
  let report_lines := heading_lines patient_stats in
  let csv_rows :=
    [[CStr "Patient"; CStr "Total_Visits"; CStr "Telemed_Visits";
      CStr "Percentage"; CStr "Payors"]] in
  let console_lines := report_lines in
  let '(report_lines, csv_rows) :=
    fold_left
      (λ '(report_lines, csv_rows) '(patient, s),
         (report_lines ++ [detail_line patient s],
          csv_rows ++ [csv_row patient s]))
      sorted_patients (report_lines, csv_rows) in
  let report_lines :=
    report_lines ++ [Py.repeat_char "-" 80; Py.repeat_char "=" 80] in
  let shown :=
    if 40 <? length console_lines
    then take 40 console_lines ++ [nl +:+ "... (see full report in file)"]
         ++ last_n 3 report_lines
    else console_lines ++ last_n 3 report_lines in
  Report (Py.join nl shown) report_lines csv_rows.
End Report.

End TelemedPercentage.

(** ** telemedSort.py *)

Module TelemedSort.

(** The per-patient dictionary built at lines 58-62. *)
Record details : Type := Details {
  count : nat;
  locations : gset string;
  payors : gset string
}.

Definition add_count (d : details) : details :=
  Details (S (count d)) (locations d) (payors d).

Definition add_location (location : string) (d : details) : details :=
  Details (count d) (locations d ∪ {[location]}) (payors d).

Definition add_payor (payor : string) (d : details) : details :=
  Details (count d) (locations d) (payors d ∪ {[payor]}).

(** The four results of [process_telemedicine_data]. *)
Record telemed_state : Type := TelemedState {
  total_count : nat;
  patient_details : Dict.t details;
  location_summary : Dict.t nat;
  payor_summary : Dict.t nat
}.

(** [d[k] = d.get(k, 0) + 1] *)
Definition bump (k : string) (d : Dict.t nat) : Dict.t nat :=
  Dict.set k (default 0 (Dict.get k d) + 1) d.

(** [v.strip()] once [v and v.strip()] has been found true. *)
Definition stripped (v : option string) : string :=
  Py.strip (default EmptyString v).

(** One turn of the loop at lines 44-78; [service.lower()] raises on
    [None]. *)
Definition telemed_step (st : telemed_state) (r : row) : option telemed_state :=
  let patient := Row.get_or_empty r "Patient" in
  let location := Row.get_or_empty r "Location" in
  let payor := Row.get_or_empty r "Payor" in
  service ← Row.get_or_empty r "Service";
  Some
    (if Py.contains "telemedicine" (Py.lower service) then
       let total_count := S (total_count st) in
       let patient_details :=
         if py_present patient then
           let patient := stripped patient in
           let d :=
             Dict.setdefault patient (Details 0 ∅ ∅) (patient_details st) in
           let d := Dict.alter add_count patient d in
           let d :=
             if py_present location
             then Dict.alter (add_location (stripped location)) patient d
             else d in
           if py_present payor
           then Dict.alter (add_payor (stripped payor)) patient d
           else d
         else patient_details st in
       let location_summary :=
         if py_present location
         then bump (stripped location) (location_summary st)
         else location_summary st in
       let payor_summary :=
         if py_present payor
         then bump (stripped payor) (payor_summary st)
         else payor_summary st in
       TelemedState total_count patient_details location_summary payor_summary
     else st).

Fixpoint telemed_loop (data : list row) (st : telemed_state)
    : option telemed_state :=
  match data with
  | [] => Some st
  | r :: rest => st' ← telemed_step st r; telemed_loop rest st'
  end.

Definition process_telemedicine_data (data : list row) : option telemed_state :=
  telemed_loop data (TelemedState 0 [] [] []).

(** The sort of lines 107, 117 (on counts) and 128 (on patients): by the
    tuple (-count, name). *)
Definition by_count_then_name {V : Type} (count_of : V → nat)
    (d : Dict.t V) : list (string * V) :=
  py_sorted (tuple_lt Z.eqb Z.ltb String.ltb)
    (λ x, ((- Z.of_nat (count_of x.2))%Z, x.1)) (Dict.items d).

Section Report.
Variable generated : string.

Definition summary_line (x : string * nat) : string :=
  Py.ljust 30 x.1 +:+ " " +:+ Py.rjust 15 (str_of_nat x.2).

Definition locations_str (d : details) : string :=
  Py.join ", " (sorted_strings (locations d)).

Definition payors_str (d : details) : string :=
  Py.join ", " (sorted_strings (payors d)).

(** Lines 137-141. *)
Definition detail_line (x : string * details) : string :=
  let loc_display := display_limited (locations_str x.2) in
  let pay_display := display_limited (payors_str x.2) in
  Py.ljust 25 x.1 +:+ " " +:+ Py.rjust 8 (str_of_nat (count x.2)) +:+ " "
  +:+ Py.ljust 20 loc_display +:+ " " +:+ Py.ljust 20 pay_display.

(** Line 144, under the comment "Full data for CSV". *)
Definition csv_row (x : string * details) : list cell :=
  [CStr x.1; CInt (count x.2); CStr (locations_str x.2); CStr (payors_str x.2)].

Definition generate_telemedicine_report (st : telemed_state) : report :=
  let sorted_patients := by_count_then_name count (patient_details st) in
  let report_lines :=
    [Py.repeat_char "=" 70; "TELEMEDICINE SERVICE REPORT";
     "Generated: " +:+ generated; Py.repeat_char "=" 70;
     nl +:+ "TOTAL TELEMEDICINE SERVICES: " +:+ str_of_nat (total_count st);
     "UNIQUE PATIENTS USING TELEMEDICINE: "
       +:+ str_of_nat (length (patient_details st));
     nl +:+ Py.repeat_char "-" 50; "TELEMEDICINE BY LOCATION";
     Py.repeat_char "-" 50;
     Py.ljust 30 "Location" +:+ " " +:+ Py.rjust 15 "Count";
     Py.repeat_char "-" 50]
    ++ (summary_line <$> by_count_then_name id (location_summary st))
    ++ [nl +:+ Py.repeat_char "-" 50; "TELEMEDICINE BY PAYOR";
        Py.repeat_char "-" 50;
        Py.ljust 30 "Payor" +:+ " " +:+ Py.rjust 15 "Count";
        Py.repeat_char "-" 50]
    ++ (summary_line <$> by_count_then_name id (payor_summary st))
    ++ [nl +:+ Py.repeat_char "-" 50; "PATIENT TELEMEDICINE USAGE DETAILS";
        Py.repeat_char "-" 50;
        Py.ljust 25 "Patient" +:+ " " +:+ Py.rjust 8 "Count" +:+ " "
          +:+ Py.ljust 20 "Location(s)" +:+ " " +:+ Py.ljust 20 "Payor(s)";
        Py.repeat_char "-" 70]
    ++ (detail_line <$> sorted_patients)
    ++ [Py.repeat_char "-" 70; Py.repeat_char "=" 70] in
  let csv_rows :=
    [CStr "Patient"; CStr "Telemedicine_Count"; CStr "Locations"; CStr "Payors"]
    :: (csv_row <$> sorted_patients) in
  Report (Py.join nl (take 50 report_lines)) report_lines csv_rows.
End Report.

End TelemedSort.

(** ** Reference notions used in the statements *)

(** The normalised value of a field: the trimmed string, or nothing when
    the field is missing, holds [None], or is blank after trimming. *)
Definition normalize (v : option string) : option string :=
  match v with
  | Some s => if Py.truthy (Py.strip s) then Some (Py.strip s) else None
  | None => None
  end.

(** The trimmed patients of the rows filed under [key], in row order,
    repetitions included. *)
Definition observed (field key : string) (data : list row) : list string :=
  omap (λ r,
          match normalize (Row.get r field), normalize (Row.get r "Patient") with
          | Some k, Some p => if decide (k = key) then Some p else None
          | _, _ => None
          end) data.

Definition observed2 (location payor : string) (data : list row) : list string :=
  omap (λ r,
          match normalize (Row.get r "Location"), normalize (Row.get r "Payor"),
                normalize (Row.get r "Patient") with
          | Some l, Some y, Some p =>
              if decide (l = location ∧ y = payor) then Some p else None
          | _, _, _ => None
          end) data.

(** The number of distinct members of a list of observations; no entry
    at all when nothing was observed. *)
Definition count_distinct (l : list string) : option nat :=
  match l with
  | [] => None
  | _ => Some (length (remove_dups l))
  end.

(** What a key holds after the observations [l] are added to what it held
    before: nothing if there was nothing and nothing was observed. *)
Definition merged (o : option (gset string)) (l : list string)
    : option (gset string) :=
  match o, l with
  | None, [] => None
  | _, _ => Some (default ∅ o ∪ list_to_set l)
  end.

(** The set stored for a pair of keys of a nested dictionary. *)
Definition lookup2 (d : Dict.t (Dict.t (gset string))) (location payor : string)
    : option (gset string) :=
  Dict.get location d ≫= Dict.get payor.

(** A field counts as absent when it is missing, holds [None], or is
    blank after trimming. *)
Definition absent (v : option string) : bool :=
  match v with
  | Some s => bool_decide (Py.strip s = EmptyString)
  | None => true
  end.

(** A row none of whose cells holds [None]: every line of the table had
    at least as many cells as the header. *)
Definition row_full (r : row) : Prop := ∀ k : string, r !! k ≠ Some None.

(** What one in-scope visit does to the record of its patient in
    [TelemedPercentage.okc_step]. *)
Definition visit_update (service payor : string)
    (s : TelemedPercentage.stats) : TelemedPercentage.stats :=
  (if Py.truthy service then TelemedPercentage.add_service service else id)
    ((if Py.truthy payor then TelemedPercentage.add_payor payor else id)
       ((if TelemedPercentage.is_telemed service
         then TelemedPercentage.add_telemed else id)
          (TelemedPercentage.add_visit s))).

(** A row is a visit of [patient] in the scope of the ratio classifier. *)
Definition okc_visit (patient : string) (r : row) : Prop :=
  ∃ location : string,
    Row.get_strip r "Location" = Some location
    ∧ Row.get_strip r "Patient" = Some patient
    ∧ TelemedPercentage.in_scope location patient = true.

(** The invariant of the loop of the ratio classifier: the keys are
    distinct, and every record counts at least one visit, no more
    telemedicine visits than visits, still has the initial percentage,
    and belongs to a patient whom some row of [all] references in scope. *)
Definition okc_inv (all : list row) (d : Dict.t TelemedPercentage.stats) : Prop :=
  Dict.wf d
  ∧ ∀ p s, Dict.get p d = Some s →
      1 ≤ TelemedPercentage.total_visits s
      ∧ TelemedPercentage.telemed_visits s ≤ TelemedPercentage.total_visits s
      ∧ TelemedPercentage.percentage s = 0%Q
      ∧ ∃ r, r ∈ all ∧ okc_visit p r.

(** Python's ordering protocol on a type of keys: [ltb] is [<], and
    [a < b] fails exactly when [b <= a] in a total preorder [le]. *)
Class KeyOrder {K : Type} (ltb : K → K → bool) (le : K → K → Prop) : Prop := {
  ltb_false_le : ∀ a b, ltb a b = false ↔ le b a;
  key_le_trans : ∀ a b c, le a b → le b c → le a c;
  key_le_total : ∀ a b, le a b ∨ le b a
}.

(** The order of two-element tuples. *)
Definition lex_le {A B : Type} (leA : A → A → Prop) (leB : B → B → Prop)
    (x y : A * B) : Prop :=
  (x.1 ≠ y.1 ∧ leA x.1 y.1) ∨ (x.1 = y.1 ∧ leB x.2 y.2).

(** Ordinal order of strings, strict. *)
Definition str_lt (a b : string) : Prop := String.ltb a b = true.

(** A listing of (name, count) entries in descending order of count,
    names ascending among equal counts. *)
Definition count_desc_name_asc (x y : string * nat) : Prop :=
  y.2 < x.2 ∨ (x.2 = y.2 ∧ str_lt x.1 y.1).

(** The parts of the one-dimension report around its data lines. *)
Definition report_banner (FIELD : string) : string :=
  "UNIQUE PATIENT COUNT BY " +:+ FIELD +:+ " REPORT".

Definition report_heading (field : string) : string :=
  Py.ljust 30 field +:+ " " +:+ Py.rjust 15 "Unique Patients".

Definition report_foot (total : nat) : list string :=
  [Py.repeat_char "-" 50;
   Py.ljust 30 "TOTAL" +:+ " " +:+ Py.rjust 15 (str_of_nat total);
   Py.repeat_char "=" 50].

(** The number of rows of a table in one of the four presence classes of
    the fields Location and Payor. *)
Definition rows_with (location_present payor_present : bool) (data : list row)
    : nat :=
  length
    (filter (λ r, negb (absent (Row.get r "Location")) = location_present
                  ∧ negb (absent (Row.get r "Payor")) = payor_present) data).

(** ** Sample inputs *)

(** A row whose cells all hold strings. *)
Definition mk_row (cells : list (string * string)) : row :=
  list_to_map (prod_map id Some <$> cells).

Module Samples.

(** Three rows for one patient at one location, spelled with different
    surrounding blanks, then a row without patient and one without
    location. *)
Definition duplicates : list row :=
  [mk_row [("Location", "OKC"); ("Payor", "Medicare"); ("Patient", "Smith, A")];
   mk_row [("Location", " OKC "); ("Payor", "Medicare"); ("Patient", "Smith, A ")];
   mk_row [("Location", "OKC"); ("Payor", "Medicare"); ("Patient", "  Smith, A")];
   mk_row [("Location", "OKC"); ("Payor", "Medicare"); ("Patient", "   ")];
   mk_row [("Location", ""); ("Payor", "Medicare"); ("Patient", "Jones, B")]].

Definition blank_patient : row :=
  mk_row [("Location", "OKC"); ("Payor", "Medicare"); ("Patient", "   ")].

(** A one-dimension result with two equal counts. *)
Definition counts : Dict.t nat := [("OKC", 2); ("Tulsa", 5); ("Ardmore", 2)].

(** Two rows of one patient, payor known and location blank, then one
    such row without a patient name. *)
Definition payor_only_rows : list row :=
  [mk_row [("Location", ""); ("Payor", "Medicare"); ("Patient", "Smith, A")];
   mk_row [("Location", ""); ("Payor", "Medicare"); ("Patient", "Smith, A")];
   mk_row [("Location", ""); ("Payor", "Medicare"); ("Patient", "")]].

(** The example of the specification: a row without location and with
    payor, and a row with both, each naming a patient. *)
Definition one_gap : list row :=
  [mk_row [("Location", ""); ("Payor", "Medicare"); ("Patient", "Smith, A")];
   mk_row [("Location", "OKC"); ("Payor", "Medicare"); ("Patient", "Jones, B")]].

(** Rows without location: one patient each for Medicare and Aetna (in
    this order), two for Zenith. *)
Definition gap_groups : list row :=
  [mk_row [("Location", ""); ("Payor", "Medicare"); ("Patient", "Smith, A")];
   mk_row [("Location", ""); ("Payor", "Aetna"); ("Patient", "Jones, B")];
   mk_row [("Location", ""); ("Payor", "Zenith"); ("Patient", "Young, C")];
   mk_row [("Location", ""); ("Payor", "Zenith"); ("Patient", "Adams, D")]].

(** A row of the visit table. *)
Definition visit (location patient service payor : string) : row :=
  mk_row [("Location", location); ("Patient", patient); ("Service", service);
          ("Payor", payor)].

(** The three visits of the example in the specification, then a visit
    elsewhere, two visits of a patient who never used telemedicine and
    the only visit of a patient who did. *)
Definition visits : list row :=
  [visit "OKC" "Smith, A" "Telemedicine Visit" "";
   visit "OKC" "Smith, A" "Office Visit" "";
   visit "OKC" "Smith, A" "Telemedicine Visit" "";
   visit "ARDMORE" "Jones, B" "Telemedicine Visit" "";
   visit "okc" "Young, C" "Office Visit" "Medicare";
   visit "Okc " "Young, C" "Lab" "BCBS";
   visit "OKC" "Adams, D" "TELEMEDICINE" "BCBS"].

(** Two patients at OKC, each with half of the visits by telemedicine:
    one of two for Adams, two of four for Baker. *)
Definition tied_visits : list row :=
  [visit "OKC" "Adams, A" "Telemedicine" "";
   visit "OKC" "Adams, A" "Office Visit" "";
   visit "OKC" "Baker, B" "Telemedicine" "";
   visit "OKC" "Baker, B" "Telemedicine" "";
   visit "OKC" "Baker, B" "Office Visit" "";
   visit "OKC" "Baker, B" "Office Visit" ""].

(** Two telemedicine visits of one patient under two payors whose names
    together are longer than twenty characters. *)
Definition long_payors : list row :=
  [visit "OKC" "Smith, A" "Telemedicine" "Blue Cross Blue Shield";
   visit "OKC" "Smith, A" "Telemedicine" "Medicare"].

End Samples.

(** ** Further functions of the scripts *)

(** [str(i)] for an integer of either sign. *)
Definition str_of_Z (i : Z) : string :=
  if (i <? 0)%Z then "-" +:+ str_of_nat (Z.to_nat (- i))
  else str_of_nat (Z.to_nat i).

(** [v.strip()] for a cell already found to hold a string. *)
Definition py_stripped (v : option string) : string :=
  Py.strip (default EmptyString v).

(** [v and v.strip().upper() == target.upper()] as a truth value: the
    case-insensitive match of a cell with a target. Both sides go through
    [Py.upper], which differs from Python's [upper] by a one-to-one
    renaming of two characters only, so the equality test is the same. *)
Definition py_matches (v : option string) (target : string) : bool :=
  negb (py_not v) && String.eqb (Py.upper (py_stripped v)) (Py.upper target).

(** [f"{i:4d}. {patient}"] for the entries of [enumerate(l, 1)]. *)
Definition numbered_lines (l : list string) : list string :=
  imap (λ i patient, Py.rjust 4 (str_of_nat (S i)) +:+ ". " +:+ patient) l.

(** *** [print_unique_client_list] of clientByLocation.py and
    clientByPayerType.py *)

Module ClientList.
Section ClientList.
(** [field] is 'Location' or 'Payor'; [none_found] and [total_label]
    are the two sentences that differ between the scripts. *)
Variables (field : string) (none_found total_label : string → string).

(** Lines 260-266. *)
Definition unique_step (target : string) (unique_patients : gset string)
    (r : row) : gset string :=
  let location := Row.get r field in
  let patient := Row.get r "Patient" in
  if py_matches location target && py_present patient
  then unique_patients ∪ {[py_stripped patient]}
  else unique_patients.

Definition unique_patients (data : list row) (target : string) : gset string :=
  fold_left (unique_step target) data ∅.

(** Line 269. *)
Definition sorted_patients (data : list row) (target : string) : list string :=
  sorted_strings (unique_patients data target).

(** The calls of [print], lines 272-284, one entry per call. *)
Definition print_unique_client_list (data : list row) (target : string)
    : list string :=
  let sorted_patients := sorted_patients data target in
  [nl +:+ nl +:+ Py.repeat_char "=" 50;
   "UNIQUE CLIENTS/PATIENTS FROM " +:+ Py.upper target;
   Py.repeat_char "=" 50]
  ++ (match sorted_patients with
      | [] => [none_found target]
      | _ => numbered_lines sorted_patients
      end)
  ++ [Py.repeat_char "-" 50;
      total_label target +:+ str_of_nat (length sorted_patients);
      Py.repeat_char "=" 50].
End ClientList.

(** clientByLocation.py, with the default target 'ARDMORE' of [main]. *)
Definition by_location : list row → string → list string :=
  print_unique_client_list "Location"
    (λ t, "No patients found at " +:+ t +:+ " location.")
    (λ t, "Total unique clients at " +:+ t +:+ ": ").

(** clientByPayerType.py, called with 'Medicare' by [main]. *)
Definition by_payor : list row → string → list string :=
  print_unique_client_list "Payor"
    (λ t, "No patients found with " +:+ t +:+ " payor.")
    (λ t, "Total unique clients with " +:+ t +:+ ": ").

End ClientList.

(** *** [print_unique_client_list] of clientByLocationAndPayer.py *)

Module ClientList2.

(** Lines 378-396; [target_payor] is a string or [None]. *)
Definition unique_step (target_location : string) (target_payor : option string)
    (unique_patients : gset string) (r : row) : gset string :=
  let location := Row.get r "Location" in
  let payor := Row.get r "Payor" in
  let patient := Row.get r "Patient" in
  if py_not patient || py_not (Py.strip <$> patient) then unique_patients
  else
    let location_match := py_matches location target_location in
    if negb (py_not target_payor) then
      let payor_match := py_matches payor (default EmptyString target_payor) in
      if location_match && payor_match
      then unique_patients ∪ {[py_stripped patient]}
      else unique_patients
    else
      if location_match
      then unique_patients ∪ {[py_stripped patient]}
      else unique_patients.

Definition unique_patients (data : list row) (target_location : string)
    (target_payor : option string) : gset string :=
  fold_left (unique_step target_location target_payor) data ∅.

Definition sorted_patients (data : list row) (target_location : string)
    (target_payor : option string) : list string :=
  sorted_strings (unique_patients data target_location target_payor).

(** The calls of [print], lines 402-417. *)
Definition print_unique_client_list (data : list row) (target_location : string)
    (target_payor : option string) : list string :=
  let sorted_patients := sorted_patients data target_location target_payor in
  [nl +:+ nl +:+ Py.repeat_char "=" 50;
   (if negb (py_not target_payor)
    then "UNIQUE CLIENTS FROM " +:+ Py.upper target_location +:+ " - "
         +:+ Py.upper (default EmptyString target_payor)
    else "UNIQUE CLIENTS FROM " +:+ Py.upper target_location +:+ " - ALL PAYORS");
   Py.repeat_char "=" 50]
  ++ (match sorted_patients with
      | [] => ["No patients found with specified criteria."]
      | _ => numbered_lines sorted_patients
      end)
  ++ [Py.repeat_char "-" 50;
      "Total unique clients: " +:+ str_of_nat (length sorted_patients);
      Py.repeat_char "=" 50].

End ClientList2.

(** *** [generate_hierarchical_report] of clientByLocationAndPayer.py *)

Module Hierarchical.

(** [sum(len(patients) for patients in payors.values())] *)
Definition payors_total (payors : Dict.t (gset string)) : nat :=
  sum_list (size <$> Dict.values payors).

(** Lines 80-83. *)
Definition location_totals (location_payer_data : Dict.t (Dict.t (gset string)))
    : Dict.t nat :=
  fold_left (λ totals '(location, payors),
               Dict.set location (payors_total payors) totals)
    (Dict.items location_payer_data) [].

(** Lines 86-89. *)
Definition sorted_locations (location_payer_data : Dict.t (Dict.t (gset string)))
    (sort_by : string) : list (string * nat) :=
  ClientByLocation.sorted_items (location_totals location_payer_data) sort_by.

(** Line 108: the payors of one location by (-len, name). *)
Definition sorted_payors (payor_data : Dict.t (gset string))
    : list (string * gset string) :=
  py_sorted (tuple_lt Z.eqb Z.ltb String.ltb)
    (λ x, ((- Z.of_nat (size x.2))%Z, x.1)) (Dict.items payor_data).

(** Lines 101-112: the lines of one location. *)
Definition location_block (location_payer_data : Dict.t (Dict.t (gset string)))
    (entry : string * nat) : list string :=
  let '(location, location_total) := entry in
  [nl +:+ location +:+ " (Total: " +:+ str_of_nat location_total
     +:+ " unique patients)";
   Py.repeat_char "-" 60;
   "  " +:+ Py.ljust 35 "Payor" +:+ " " +:+ Py.rjust 20 "Unique Patients";
   "  " +:+ Py.repeat_char "-" 55]
  ++ ((λ x, "  " +:+ Py.ljust 35 x.1 +:+ " "
            +:+ Py.rjust 20 (str_of_nat (size x.2)))
        <$> sorted_payors (default [] (Dict.get location location_payer_data))).

(** Lines 97-114: the running sum over the listed locations. *)
Definition grand_total (location_payer_data : Dict.t (Dict.t (gset string)))
    (sort_by : string) : nat :=
  fold_left (λ total entry, total + entry.2)
    (sorted_locations location_payer_data sort_by) 0.

(** The list [report] before it is joined. *)
Definition report_lines (location_payer_data : Dict.t (Dict.t (gset string)))
    (sort_by : string) : list string :=
  [nl +:+ Py.repeat_char "=" 70;
   "UNIQUE PATIENT COUNT BY LOCATION AND PAYOR REPORT";
   Py.repeat_char "=" 70]
  ++ concat (location_block location_payer_data
               <$> sorted_locations location_payer_data sort_by)
  ++ [nl +:+ Py.repeat_char "=" 70;
      Py.ljust 45 "GRAND TOTAL (All Locations)" +:+ " "
        +:+ Py.rjust 20 (str_of_nat (grand_total location_payer_data sort_by));
      Py.repeat_char "=" 70].

Definition generate_hierarchical_report
    (location_payer_data : Dict.t (Dict.t (gset string))) (sort_by : string)
    : string :=
  match location_payer_data with
  | [] => "No client data found."
  | _ => Py.join nl (report_lines location_payer_data sort_by)
  end.

End Hierarchical.

(** *** names_deduplication_script.py *)

Module Names.

(** [s.split('\n')]: the pieces between line feeds, empty pieces kept. *)
Fixpoint split_lines (s : string) : list string :=
  match s with
  | EmptyString => [EmptyString]
  | String c t =>
      if Ascii.eqb c "010" then EmptyString :: split_lines t
      else match split_lines t with
           | [] => [String c EmptyString]
           | piece :: rest => String c piece :: rest
           end
  end.

(** Lines 12-15: the list [names]. *)
Definition names (names_text : string) : list string :=
  omap (λ line, if Py.truthy (Py.strip line) then Some (Py.strip line) else None)
    (split_lines (Py.strip names_text)).

(** [process_names]: the set and its size. *)
Definition process_names (names_text : string) : gset string * nat :=
  let unique_names : gset string := list_to_set (names names_text) in
  (unique_names, size unique_names).

(** [any(notation in name for notation in [...])], line 36. *)
Definition has_notation (name : string) : bool :=
  existsb (λ notation, Py.contains notation name)
    ["INS/MED"; "MED/INS"; "BCBS/MED"].

(** [f"{i}. {name}"] for the entries of [enumerate(l, start)]. *)
Definition enumerated (start : Z) (l : list string) : list string :=
  imap (λ i name, str_of_Z (start + Z.of_nat i) +:+ ". " +:+ name) l.

(** What [analyze_names] prints (one entry per call of [print]) and the
    list it returns. *)
Definition analyze_names (names_text : string) : list string * list string :=
  let '(unique_names, total_unique) := process_names names_text in
  let sorted_names := sorted_strings unique_names in
  let names_with_notation := filter (λ name, has_notation name) (elements unique_names) in
  (["Total number of unique names: " +:+ str_of_nat total_unique;
    "Number of names with medical/insurance notations: "
      +:+ str_of_nat (length names_with_notation);
    nl +:+ "First 10 unique names (alphabetically):"]
   ++ enumerated 1 (take 10 sorted_names)
   ++ [nl +:+ "Last 10 unique names (alphabetically):"]
   ++ enumerated (Z.of_nat (length sorted_names) - 9) (last_n 10 sorted_names),
   sorted_names).

End Names.

(** *** Console summaries of the telemedicine scripts *)

(** [sorted(l, key=key, reverse=True)] on integer keys: descending, and
    entries with equal keys keep the order they have in [l]. *)
Definition py_sorted_reverse {A : Type} (key : A → nat) (l : list A) : list A :=
  py_sorted (λ a b, Nat.ltb b a) key l.

Module TelemedConsole.
Section TelemedConsole.
(** [fmt1 x] is [f"{x:.1f}"]. *)
Variable fmt1 : Q → string.

(** Line 184 of telemedSort.py. *)
Definition top_users (patient_details : Dict.t TelemedSort.details)
    : list (string * TelemedSort.details) :=
  take 5 (py_sorted_reverse (λ x, TelemedSort.count x.2)
            (Dict.items patient_details)).

(** [print_telemedicine_summary] of telemedSort.py: the calls of
    [print], lines 173-191. *)
Definition print_telemedicine_summary (total_count : nat)
    (patient_details : Dict.t TelemedSort.details) : list string :=
  [nl +:+ Py.repeat_char "=" 50; "TELEMEDICINE SERVICE SUMMARY";
   Py.repeat_char "=" 50;
   "Total Telemedicine Services: " +:+ str_of_nat total_count;
   "Unique Patients: " +:+ str_of_nat (length patient_details)]
  ++ (match patient_details with
      | [] => []
      | _ =>
          ["Average Services per Patient: "
             +:+ fmt1 (inject_Z (Z.of_nat total_count)
                       / inject_Z (Z.of_nat (length patient_details)))%Q;
           nl +:+ "Top 5 Telemedicine Users:"; Py.repeat_char "-" 50]
          ++ ((λ x, "  " +:+ x.1 +:+ ": "
                    +:+ str_of_nat (TelemedSort.count x.2) +:+ " services")
                <$> top_users patient_details)
      end)
  ++ [Py.repeat_char "=" 50].

(** Line 186 of telemedPercentage.py. *)
Definition exclusive_telemed (patient_stats : Dict.t TelemedPercentage.stats)
    : list string :=
  (filter (λ x, Qeq_bool (TelemedPercentage.percentage x.2) 100%Q = true
                ∧ 0 < TelemedPercentage.total_visits x.2)
     (Dict.items patient_stats)).*1.

(** Lines 194-196 of telemedPercentage.py. *)
Definition high_volume (patient_stats : Dict.t TelemedPercentage.stats)
    : list (string * TelemedPercentage.stats) :=
  py_sorted Z.ltb (λ x, (- Z.of_nat (TelemedPercentage.telemed_visits x.2))%Z)
    (filter (λ x, 5 ≤ TelemedPercentage.telemed_visits x.2)
       (Dict.items patient_stats)).

(** [patient_stats[patient]['total_visits']]; the patient is a key. *)
Definition visits_of (patient_stats : Dict.t TelemedPercentage.stats)
    (patient : string) : nat :=
  from_option TelemedPercentage.total_visits 0 (Dict.get patient patient_stats).

(** [print_telemedicine_insights] of telemedPercentage.py: the calls of
    [print], lines 177-201. *)
Definition print_telemedicine_insights
    (patient_stats : Dict.t TelemedPercentage.stats) : list string :=
  match patient_stats with
  | [] => [nl +:+ "No OKC patients found in the data."]
  | _ =>
      [nl +:+ Py.repeat_char "=" 50; "TELEMEDICINE USAGE INSIGHTS - OKC";
       Py.repeat_char "=" 50]
      ++ (match exclusive_telemed patient_stats with
          | [] => []
          | exclusive =>
              (nl +:+ "Patients using ONLY telemedicine: "
                 +:+ str_of_nat (length exclusive))
              :: ((λ patient,
                     let visits := visits_of patient_stats patient in
                     "  - " +:+ patient +:+ ": " +:+ str_of_nat visits
                     +:+ " visit" +:+ (if 1 <? visits then "s" else ""))
                    <$> take 5 (py_sorted String.ltb id exclusive))
          end)
      ++ (match high_volume patient_stats with
          | [] => []
          | sorted_volume =>
              (nl +:+ "High-volume telemedicine users (≥5 telemed visits):")
              :: ((λ x, "  - " +:+ x.1 +:+ ": "
                        +:+ str_of_nat (TelemedPercentage.telemed_visits x.2)
                        +:+ " telemed visits ("
                        +:+ fmt1 (TelemedPercentage.percentage x.2) +:+ "%)")
                    <$> take 5 sorted_volume)
          end)
      ++ [Py.repeat_char "=" 50]
  end.
End TelemedConsole.
End TelemedConsole.

(** ** Reference notions for the visit tables *)

(** The trimmed text of a cell; empty for a missing key and for a cell
    that holds [None]. *)
Definition cell_text (r : row) (k : string) : string :=
  default EmptyString (Row.get_strip r k).

(** A row in the scope of the ratio classifier, and a row counted for
    [patient]. *)
Definition okc_scope_row (r : row) : bool :=
  TelemedPercentage.in_scope (cell_text r "Location") (cell_text r "Patient").

Definition okc_row (patient : string) (r : row) : bool :=
  okc_scope_row r && String.eqb (cell_text r "Patient") patient.

(** A row whose service names telemedicine. *)
Definition telemed_row (r : row) : bool :=
  TelemedPercentage.is_telemed (cell_text r "Service").

(** The order of the keys (-percentage, (-telemed_visits, name)) of the
    percentage report: rationals compare by value. *)
Definition pct_key_le (x y : Q * (Z * string)) : Prop :=
  (x.1 < y.1)%Q ∨ ((x.1 == y.1)%Q ∧ lex_le Z.le String.le x.2 y.2).

(** A listing of patients in descending order of percentage, then in
    descending order of telemedicine visits, then by name. *)
Definition pct_desc_visits_desc_name_asc
    (x y : string * TelemedPercentage.stats) : Prop :=
  (TelemedPercentage.percentage y.2 < TelemedPercentage.percentage x.2)%Q
  ∨ ((TelemedPercentage.percentage x.2 == TelemedPercentage.percentage y.2)%Q
     ∧ (TelemedPercentage.telemed_visits y.2 < TelemedPercentage.telemed_visits x.2
        ∨ (TelemedPercentage.telemed_visits x.2 = TelemedPercentage.telemed_visits y.2
           ∧ str_lt x.1 y.1))).

(** A row counted by [process_telemedicine_data]: the service cell, as
    written, names telemedicine. *)
Definition service_row (r : row) : bool :=
  from_option (λ service, Py.contains "telemedicine" (Py.lower service)) false
    (Row.get_or_empty r "Service").

(** A row filed under [key] for [field] by [process_telemedicine_data]:
    the cell is present and trims to [key]. *)
Definition filed_under (field key : string) (r : row) : bool :=
  py_present (Row.get_or_empty r field)
  && String.eqb (TelemedSort.stripped (Row.get_or_empty r field)) key.

(** A counter of a dictionary of counts: no entry stands for zero. *)
Definition positive_count (n : nat) : option nat :=
  match n with
  | 0 => None
  | S _ => Some n
  end.

(** Lines 65-67 of names_deduplication_script.py: the text written to
    unique_names.txt, every name followed by a line feed. *)
Fixpoint unique_names_file (sorted_names : list string) : string :=
  match sorted_names with
  | [] => EmptyString
  | name :: rest => (name +:+ nl) +:+ unique_names_file rest
  end.

(** * Properties *)

(** ** Dictionaries *)

Module DictFacts.
Section DictFacts.
Context {V : Type}.
Implicit Types (d : Dict.t V) (k : string) (v : V).

Lemma get_set k k' v d :
  Dict.get k (Dict.set k' v d) = if decide (k = k') then Some v else Dict.get k d.
Proof.
  induction d as [|[k0 v0] d IH]; simpl.
  - by destruct (decide (k = k')).
  - destruct (decide (k' = k0)) as [->|Hne]; simpl.
    + destruct (decide (k = k0)); done.
    + destruct (decide (k = k0)) as [->|]; [|done].
      by rewrite decide_False.
Qed.

Lemma get_alter (f : V → V) k k' d :
  Dict.get k (Dict.alter f k' d)
  = if decide (k = k') then f <$> Dict.get k d else Dict.get k d.
Proof.
  induction d as [|[k0 v0] d IH]; simpl.
  - by destruct (decide (k = k')).
  - destruct (decide (k' = k0)) as [->|Hne]; simpl.
    + destruct (decide (k = k0)); done.
    + destruct (decide (k = k0)) as [->|]; [|done].
      by rewrite decide_False.
Qed.

Lemma get_setdefault k k' v d :
  Dict.get k (Dict.setdefault k' v d)
  = if decide (k = k') then Some (default v (Dict.get k d)) else Dict.get k d.
Proof.
  unfold Dict.setdefault, Dict.mem.
  destruct (Dict.get k' d) as [w|] eqn:Hk'.
  - destruct (decide (k = k')) as [->|]; [by rewrite Hk'|done].
  - rewrite get_set. destruct (decide (k = k')) as [->|]; [by rewrite Hk'|done].
Qed.

Lemma alter_alter (f g : V → V) k d :
  Dict.alter f k (Dict.alter g k d) = Dict.alter (f ∘ g) k d.
Proof.
  induction d as [|[k0 v0] d IH]; simpl; [done|].
  destruct (decide (k = k0)) as [->|Hne]; simpl.
  - by rewrite decide_True.
  - rewrite decide_False by done. by rewrite IH.
Qed.

Lemma get_map_values {W : Type} (f : V → W) k d :
  Dict.get k (Dict.map_values f d) = f <$> Dict.get k d.
Proof.
  induction d as [|[k0 v0] d IH]; simpl; [done|].
  by destruct (decide (k = k0)).
Qed.

Lemma keys_set k v d :
  Dict.keys (Dict.set k v d)
  = if Dict.mem k d then Dict.keys d else Dict.keys d ++ [k].
Proof.
  induction d as [|[k0 v0] d IH]; [done|].
  unfold Dict.mem in *. cbn [Dict.set Dict.get].
  destruct (decide (k = k0)) as [->|Hne]; [done|].
  change (Dict.keys ((k0, v0) :: Dict.set k v d)) with (k0 :: Dict.keys (Dict.set k v d)).
  rewrite IH. by destruct (Dict.get k d).
Qed.

Lemma keys_alter (f : V → V) k d : Dict.keys (Dict.alter f k d) = Dict.keys d.
Proof.
  induction d as [|[k0 v0] d IH]; [done|].
  cbn [Dict.alter]. destruct (decide (k = k0)); [done|].
  change (Dict.keys ((k0, v0) :: Dict.alter f k d))
    with (k0 :: Dict.keys (Dict.alter f k d)).
  by rewrite IH.
Qed.

Lemma mem_keys k d : Dict.mem k d = true ↔ k ∈ Dict.keys d.
Proof.
  unfold Dict.mem, Dict.keys.
  induction d as [|[k0 v0] d IH]; simpl.
  - split; [done|]. by intros ?%elem_of_nil.
  - destruct (decide (k = k0)) as [->|Hne].
    + split; [intros _; apply list_elem_of_here|done].
    + rewrite IH. split; [apply list_elem_of_further|].
      intros [?|?]%elem_of_cons; done.
Qed.

Lemma get_items k v d : Dict.get k d = Some v → (k, v) ∈ Dict.items d.
Proof.
  unfold Dict.items.
  induction d as [|[k0 v0] d IH]; simpl; [done|].
  destruct (decide (k = k0)) as [->|Hne].
  - intros [= ->]. apply list_elem_of_here.
  - intros ?. apply list_elem_of_further. auto.
Qed.

Lemma items_get k v d :
  NoDup (Dict.keys d) → (k, v) ∈ Dict.items d → Dict.get k d = Some v.
Proof.
  unfold Dict.items, Dict.keys.
  induction d as [|[k0 v0] d IH]; simpl.
  - by intros _ ?%elem_of_nil.
  - intros [Hk0 Hnd]%NoDup_cons [Heq|Hin]%elem_of_cons.
    + injection Heq as -> ->. by rewrite decide_True.
    + destruct (decide (k = k0)) as [->|Hne]; [|by auto].
      destruct Hk0. change k0 with ((k0, v).1).
      by apply list_elem_of_fmap_2.
Qed.

Lemma alter_id k d : Dict.alter id k d = d.
Proof.
  induction d as [|[k0 v0] d IH]; simpl; [done|].
  destruct (decide (k = k0)) as [->|]; [done|by rewrite IH].
Qed.

Lemma alter_if (b : bool) (f : V → V) k d :
  (if b then Dict.alter f k d else d) = Dict.alter (if b then f else id) k d.
Proof. destruct b; [done|by rewrite alter_id]. Qed.

Lemma wf_nil : Dict.wf ([] : Dict.t V).
Proof. apply NoDup_nil_2. Qed.

Lemma wf_set k v d : Dict.wf d → Dict.wf (Dict.set k v d).
Proof.
  unfold Dict.wf. rewrite keys_set.
  destruct (Dict.mem k d) eqn:Hmem; [done|].
  intros Hd. apply NoDup_app. split_and!; [done| |apply NoDup_singleton].
  intros x Hx ->%list_elem_of_singleton.
  apply mem_keys in Hx. congruence.
Qed.

Lemma wf_alter (f : V → V) k d : Dict.wf d → Dict.wf (Dict.alter f k d).
Proof. unfold Dict.wf. by rewrite keys_alter. Qed.

Lemma wf_setdefault k v d : Dict.wf d → Dict.wf (Dict.setdefault k v d).
Proof.
  unfold Dict.setdefault. destruct (Dict.mem k d); [done|apply wf_set].
Qed.

Lemma keys_map_values {W : Type} (f : V → W) d :
  Dict.keys (Dict.map_values f d) = Dict.keys d.
Proof.
  unfold Dict.keys, Dict.map_values. rewrite <- list_fmap_compose.
  apply list_fmap_ext. by intros ? [].
Qed.

Lemma values_get v d :
  Dict.wf d → v ∈ Dict.values d → ∃ k, Dict.get k d = Some v.
Proof.
  intros Hwf ([k v'] & -> & Hin)%list_elem_of_fmap.
  exists k. by apply items_get.
Qed.

End DictFacts.
End DictFacts.

(** ** Grouping aggregator *)

Section GroupingFacts.
Import DictFacts.

Lemma py_skip_normalize (v : option string) :
  py_not v || py_not (Py.strip <$> v) = bool_decide (normalize v = None).
Proof.
  destruct v as [[|c s]|]; [done| |done].
  simpl. unfold normalize.
  by destruct (Py.truthy (Py.strip (String c s))).
Qed.

Lemma py_skip_Some (v : option string) (s : string) :
  normalize v = Some s → ∃ raw, v = Some raw ∧ s = Py.strip raw.
Proof.
  destruct v as [raw|]; [|done]. unfold normalize.
  destruct (Py.truthy (Py.strip raw)); [|done].
  intros [= <-]. eauto.
Qed.

Lemma group_step_spec (field : string) (acc : Dict.t (gset string)) (r : row) :
  group_step field acc r
  = match normalize (Row.get r field), normalize (Row.get r "Patient") with
    | Some k, Some p => group_add k p acc
    | _, _ => acc
    end.
Proof.
  unfold group_step.
  rewrite <- (orb_assoc (py_not (Row.get r field) || _)), !py_skip_normalize.
  destruct (normalize (Row.get r field)) as [k|] eqn:Hk;
    [|by rewrite bool_decide_true].
  rewrite bool_decide_false by done. simpl.
  destruct (normalize (Row.get r "Patient")) as [p|] eqn:Hp;
    [|by rewrite bool_decide_true].
  rewrite bool_decide_false by done.
  apply py_skip_Some in Hk as (rk & -> & ->).
  apply py_skip_Some in Hp as (rp & -> & ->). done.
Qed.

Lemma get_group_add (key k p : string) (d : Dict.t (gset string)) :
  Dict.get key (group_add k p d)
  = if decide (key = k) then Some (default ∅ (Dict.get k d) ∪ {[p]})
    else Dict.get key d.
Proof.
  unfold group_add. rewrite get_alter, get_setdefault.
  destruct (decide (key = k)) as [->|]; done.
Qed.

Lemma merged_nil (o : option (gset string)) : merged o [] = o.
Proof.
  destruct o as [s|]; [|done]. simpl. f_equal. apply (right_id_L ∅ (∪)).
Qed.

Lemma merged_cons (o : option (gset string)) (p : string) (l : list string) :
  merged (Some (default ∅ o ∪ {[p]})) l = merged o (p :: l).
Proof.
  transitivity (Some (default ∅ o ∪ {[p]} ∪ list_to_set l)).
  - by destruct l.
  - destruct o; simpl; f_equal; symmetry; apply (assoc_L (∪)).
Qed.

Lemma merged_None (l : list string) :
  merged None l = match l with [] => None | _ => Some (list_to_set l) end.
Proof.
  destruct l as [|p l]; [done|]. unfold merged. f_equal.
  apply (left_id_L ∅ (∪)).
Qed.

Lemma get_group_fold (field key : string) (data : list row) :
  ∀ acc : Dict.t (gset string),
    Dict.get key (fold_left (group_step field) data acc)
    = merged (Dict.get key acc) (observed field key data).
Proof.
  induction data as [|r data IH]; intros acc; simpl.
  - by rewrite merged_nil.
  - rewrite IH, group_step_spec. unfold observed at 2. simpl.
    fold (observed field key data).
    destruct (normalize (Row.get r field)) as [k|]; [|done].
    destruct (normalize (Row.get r "Patient")) as [p|]; [|done].
    rewrite get_group_add.
    destruct (decide (key = k)) as [->|Hne].
    + rewrite decide_True by done. apply merged_cons.
    + rewrite decide_False by done. done.
Qed.

Lemma size_list_to_set_distinct (l : list string) :
  size (list_to_set l : gset string) = length (remove_dups l).
Proof.
  rewrite <- (size_list_to_set (C := gset string) (remove_dups l))
    by apply NoDup_remove_dups.
  f_equal. apply set_eq. intros x.
  by rewrite !elem_of_list_to_set, elem_of_remove_dups.
Qed.

Lemma group_patients_get (field key : string) (data : list row) :
  Dict.get key (group_patients field data)
  = match observed field key data with
    | [] => None
    | _ => Some (list_to_set (observed field key data))
    end.
Proof.
  unfold group_patients. rewrite get_group_fold. apply merged_None.
Qed.

Lemma process_client_by_get (field key : string) (data : list row) :
  Dict.get key (process_client_by field data)
  = count_distinct (observed field key data).
Proof.
  unfold process_client_by. rewrite get_map_values, group_patients_get.
  unfold count_distinct.
  destruct (observed field key data) as [|p l]; [done|].
  cbn [fmap option_fmap option_map]. f_equal.
  apply (size_list_to_set_distinct (p :: l)).
Qed.

Lemma group2_step_spec (acc : Dict.t (Dict.t (gset string))) (r : row) :
  group2_step acc r
  = match normalize (Row.get r "Location"), normalize (Row.get r "Payor"),
          normalize (Row.get r "Patient") with
    | Some l, Some y, Some p =>
        Dict.alter (group_add y p) l (Dict.setdefault l [] acc)
    | _, _, _ => acc
    end.
Proof.
  unfold group2_step, py_all. cbn [forallb].
  set (l := Row.get r "Location"). set (y := Row.get r "Payor").
  set (p := Row.get r "Patient").
  assert (Hskip :
    negb (negb (py_not l) && (negb (py_not y) && (negb (py_not p) && true)))
    || negb (negb (py_not (Py.strip <$> l))
             && (negb (py_not (Py.strip <$> y))
                 && (negb (py_not (Py.strip <$> p)) && true)))
    = (py_not l || py_not (Py.strip <$> l))
      || ((py_not y || py_not (Py.strip <$> y))
          || (py_not p || py_not (Py.strip <$> p)))).
  { destruct (py_not l), (py_not y), (py_not p),
      (py_not (Py.strip <$> l)), (py_not (Py.strip <$> y)),
      (py_not (Py.strip <$> p)); done. }
  rewrite Hskip, !py_skip_normalize. clear Hskip.
  destruct (normalize l) as [sl|] eqn:Hl; [|by rewrite bool_decide_true].
  rewrite bool_decide_false by done.
  destruct (normalize y) as [sy|] eqn:Hy; [|by rewrite bool_decide_true].
  rewrite bool_decide_false by done.
  destruct (normalize p) as [sp|] eqn:Hp; [|by rewrite bool_decide_true].
  rewrite bool_decide_false by done.
  apply py_skip_Some in Hl as (rl & -> & ->).
  apply py_skip_Some in Hy as (ry & -> & ->).
  apply py_skip_Some in Hp as (rp & -> & ->).
  cbn [orb]. cbv zeta. unfold group_add. by rewrite alter_alter.
Qed.

Lemma lookup2_step (location payor l y p : string)
    (d : Dict.t (Dict.t (gset string))) :
  lookup2 (Dict.alter (group_add y p) l (Dict.setdefault l [] d)) location payor
  = if decide (l = location ∧ y = payor)
    then Some (default ∅ (lookup2 d location payor) ∪ {[p]})
    else lookup2 d location payor.
Proof.
  unfold lookup2. rewrite get_alter, get_setdefault.
  destruct (decide (location = l)) as [->|Hl].
  - simpl. rewrite get_group_add.
    destruct (decide (payor = y)) as [->|Hy].
    + rewrite decide_True by done. by destruct (Dict.get l d).
    + rewrite decide_False by (intros [_ ->]; done).
      by destruct (Dict.get l d).
  - rewrite decide_False by (intros [-> _]; done). done.
Qed.

Lemma lookup2_fold (location payor : string) (data : list row) :
  ∀ acc : Dict.t (Dict.t (gset string)),
    lookup2 (fold_left group2_step data acc) location payor
    = merged (lookup2 acc location payor) (observed2 location payor data).
Proof.
  induction data as [|r data IH]; intros acc; simpl.
  - by rewrite merged_nil.
  - rewrite IH, group2_step_spec. unfold observed2 at 2. simpl.
    fold (observed2 location payor data).
    destruct (normalize (Row.get r "Location")) as [l|]; [|done].
    destruct (normalize (Row.get r "Payor")) as [y|]; [|done].
    destruct (normalize (Row.get r "Patient")) as [p|]; [|done].
    rewrite lookup2_step.
    destruct (decide (l = location ∧ y = payor)) as [[-> ->]|Hne]; [|done].
    apply merged_cons.
Qed.

Lemma process2_lookup (location payor : string) (data : list row) :
  size <$> lookup2 (process_client_by_location_and_payer data) location payor
  = count_distinct (observed2 location payor data).
Proof.
  unfold process_client_by_location_and_payer. rewrite lookup2_fold.
  change (lookup2 [] location payor) with (@None (gset string)).
  rewrite merged_None. unfold count_distinct.
  destruct (observed2 location payor data) as [|p l]; [done|].
  cbn [fmap option_fmap option_map]. f_equal.
  apply (size_list_to_set_distinct (p :: l)).
Qed.

Lemma distinct_one (l : list string) (p : string) :
  l ≠ [] → (∀ q, q ∈ l → q = p) → count_distinct l = Some 1.
Proof.
  intros Hne Hall. unfold count_distinct.
  destruct l as [|q l]; [done|]. f_equal.
  rewrite <- size_list_to_set_distinct.
  assert (list_to_set (q :: l) = ({[p]} : gset string)) as ->.
  { apply set_eq. intros x. rewrite elem_of_list_to_set, elem_of_singleton.
    split; [apply Hall|]. intros ->. rewrite <- (Hall q); [left|left]. }
  apply size_singleton.
Qed.

End GroupingFacts.

(** C1. The count the grouping aggregator reports for a key is the number
    of distinct trimmed patients observed under that key, for the
    one-dimension scripts (any dimension field) and for the
    location-and-payor script; when every row filed under a key names the
    same trimmed patient the count is 1 however many rows there are; and
    a row whose dimension field or Patient field is absent (missing or
    blank after trimming) leaves the result as if it were not there. *)
Theorem grouping_counts_distinct_entities :
  (∀ (field key : string) (data : list row),
     Dict.get key (process_client_by field data)
     = count_distinct (observed field key data))
  ∧ (∀ (location payor : string) (data : list row),
       size <$> lookup2 (process_client_by_location_and_payer data) location payor
       = count_distinct (observed2 location payor data))
  ∧ (∀ (field key p : string) (data : list row),
       observed field key data ≠ [] →
       (∀ q, q ∈ observed field key data → q = p) →
       Dict.get key (process_client_by field data) = Some 1)
  ∧ (∀ (location payor p : string) (data : list row),
       observed2 location payor data ≠ [] →
       (∀ q, q ∈ observed2 location payor data → q = p) →
       size <$> lookup2 (process_client_by_location_and_payer data) location payor
       = Some 1)
  ∧ (∀ (field : string) (r : row) (before after : list row),
       absent (Row.get r field) = true ∨ absent (Row.get r "Patient") = true →
       process_client_by field (before ++ r :: after)
       = process_client_by field (before ++ after))
  ∧ (∀ (r : row) (before after : list row),
       absent (Row.get r "Location") = true ∨ absent (Row.get r "Payor") = true
       ∨ absent (Row.get r "Patient") = true →
       process_client_by_location_and_payer (before ++ r :: after)
       = process_client_by_location_and_payer (before ++ after)).
Proof.
  assert (Habs : ∀ v, absent v = true → normalize v = None).
  { intros [s|]; [|done]. simpl. intros Hs%bool_decide_eq_true.
    unfold normalize. by rewrite Hs. }
  repeat split.
  - intros. apply process_client_by_get.
  - intros. apply process2_lookup.
  - intros field key p data Hne Hall.
    rewrite process_client_by_get. by apply distinct_one with p.
  - intros location payor p data Hne Hall.
    rewrite process2_lookup. by apply distinct_one with p.
  - intros field r before after Hr.
    unfold process_client_by, group_patients. f_equal.
    rewrite !fold_left_app. simpl. f_equal.
    rewrite group_step_spec.
    destruct Hr as [->%Habs| ->%Habs]; [done|].
    by destruct (normalize (Row.get r field)).
  - intros r before after Hr.
    unfold process_client_by_location_and_payer.
    rewrite !fold_left_app. simpl. f_equal.
    rewrite group2_step_spec.
    destruct Hr as [->%Habs|[->%Habs| ->%Habs]]; [done| |].
    + by destruct (normalize (Row.get r "Location")).
    + destruct (normalize (Row.get r "Location")); [|done].
      by destruct (normalize (Row.get r "Payor")).
Qed.

Lemma grouping_counts_distinct_entities_witness :
  Dict.get "OKC" (process_client_by "Location" Samples.duplicates) = Some 1
  ∧ size <$> lookup2 (process_client_by_location_and_payer Samples.duplicates)
               "OKC" "Medicare" = Some 1
  ∧ process_client_by "Payor" ([] ++ Samples.blank_patient :: Samples.duplicates)
    = process_client_by "Payor" ([] ++ Samples.duplicates)
  ∧ process_client_by_location_and_payer
      ([] ++ Samples.blank_patient :: Samples.duplicates)
    = process_client_by_location_and_payer ([] ++ Samples.duplicates).
Proof.
  destruct grouping_counts_distinct_entities as (_ & _ & H1 & H2 & H3 & H4).
  split; [|split; [|split]].
  - apply (H1 "Location" "OKC" "Smith, A" Samples.duplicates).
    + vm_compute. discriminate.
    + intros q. vm_compute. intros Hq.
      repeat (apply elem_of_cons in Hq as [Hq|Hq]; [exact Hq|]).
      by apply elem_of_nil in Hq.
  - apply (H2 "OKC" "Medicare" "Smith, A" Samples.duplicates).
    + vm_compute. discriminate.
    + intros q. vm_compute. intros Hq.
      repeat (apply elem_of_cons in Hq as [Hq|Hq]; [exact Hq|]).
      by apply elem_of_nil in Hq.
  - apply (H3 "Payor" Samples.blank_patient [] Samples.duplicates).
    right. vm_compute. reflexivity.
  - apply (H4 Samples.blank_patient [] Samples.duplicates).
    right. right. vm_compute. reflexivity.
Defined.

(** ** Ratio classifier *)

Section RatioFacts.
Import DictFacts TelemedPercentage.

Lemma get_strip_full (r : row) (k : string) :
  row_full r → is_Some (Row.get_strip r k).
Proof.
  intros Hr. unfold Row.get_strip, Row.get_or_empty.
  destruct (r !! k) as [[s|]|] eqn:Hk; simpl; [by eexists| |by eexists].
  by destruct (Hr k).
Qed.

Lemma okc_step_in_scope (d d' : Dict.t stats) (r : row) :
  okc_step d r = Some d' →
  d' = d
  ∨ ∃ patient service payor : string,
      okc_visit patient r
      ∧ d' = Dict.alter (visit_update service payor) patient
               (Dict.setdefault patient (Stats 0 0 0%Q ∅ ∅) d).
Proof.
  unfold okc_step.
  destruct (Row.get_strip r "Location") as [location|] eqn:Hl; [|done].
  destruct (Row.get_strip r "Patient") as [patient|] eqn:Hp; [|done].
  destruct (Row.get_strip r "Service") as [service|] eqn:Hs; [|done].
  cbn [mbind option_bind].
  destruct (in_scope location patient) eqn:Hscope; [|intros [= <-]; by left].
  destruct (Row.get_strip r "Payor") as [payor|] eqn:Hy; [|done].
  cbn [mbind option_bind]. intros [= <-]. right.
  exists patient, service, payor. split; [by exists location|].
  unfold visit_update. rewrite !alter_if, !alter_alter. done.
Qed.

Lemma okc_step_full (d : Dict.t stats) (r : row) :
  row_full r → is_Some (okc_step d r).
Proof.
  intros Hr. unfold okc_step.
  destruct (get_strip_full r "Location" Hr) as [location ->].
  destruct (get_strip_full r "Patient" Hr) as [patient ->].
  destruct (get_strip_full r "Service" Hr) as [service ->].
  destruct (get_strip_full r "Payor" Hr) as [payor ->].
  cbn [mbind option_bind].
  destruct (in_scope location patient); by eexists.
Qed.

Lemma okc_loop_full (data : list row) :
  Forall row_full data → ∀ d, is_Some (okc_loop data d).
Proof.
  induction 1 as [|r data Hr _ IH]; intros d; simpl; [by eexists|].
  destruct (okc_step_full d r Hr) as [d' ->]. apply IH.
Qed.

Lemma visit_update_counts (service payor : string) (s : stats) :
  total_visits (visit_update service payor s) = S (total_visits s)
  ∧ telemed_visits s ≤ telemed_visits (visit_update service payor s)
  ∧ telemed_visits (visit_update service payor s) ≤ S (telemed_visits s)
  ∧ percentage (visit_update service payor s) = percentage s.
Proof.
  unfold visit_update.
  destruct (Py.truthy service), (Py.truthy payor), (is_telemed service);
    simpl; repeat split; lia.
Qed.

Lemma okc_step_inv (all : list row) (d d' : Dict.t stats) (r : row) :
  r ∈ all → okc_inv all d → okc_step d r = Some d' → okc_inv all d'.
Proof.
  intros Hr [Hwf Hinv] Hstep.
  apply okc_step_in_scope in Hstep
    as [->|(patient & service & payor & Hvisit & ->)]; [done|].
  split; [by apply wf_alter, wf_setdefault|].
  intros p s. rewrite get_alter, get_setdefault.
  destruct (decide (p = patient)) as [->|Hne]; [|apply Hinv].
  cbn [fmap option_fmap option_map]. intros [= <-].
  destruct (visit_update_counts service payor
              (default (Stats 0 0 0%Q ∅ ∅) (Dict.get patient d)))
    as (-> & _ & Hle & ->).
  destruct (Dict.get patient d) as [s0|] eqn:Hs0; simpl in *.
  - destruct (Hinv _ _ Hs0) as (? & ? & ? & ?).
    split_and!; [lia|lia|done|by exists r].
  - split_and!; [lia|lia|done|by exists r].
Qed.

Lemma okc_loop_inv (all data : list row) :
  (∀ r, r ∈ data → r ∈ all) →
  ∀ d d', okc_inv all d → okc_loop data d = Some d' → okc_inv all d'.
Proof.
  induction data as [|r data IH]; intros Hsub d d' Hd; simpl.
  - by intros [= <-].
  - destruct (okc_step d r) as [d1|] eqn:Hstep; [|done].
    cbn [mbind option_bind]. apply IH.
    + intros ??. apply Hsub. by right.
    + apply okc_step_inv with d r; [apply Hsub; left|done..].
Qed.

Lemma process_okc_inv (data : list row) (patient_stats : Dict.t stats) :
  process_okc_telemedicine_percentage data = Some patient_stats →
  Dict.wf patient_stats
  ∧ ∀ p s, Dict.get p patient_stats = Some s →
      1 ≤ total_visits s ∧ telemed_visits s ≤ total_visits s
      ∧ percentage s = ratio_pct (telemed_visits s) (total_visits s)
      ∧ ∃ r, r ∈ data ∧ okc_visit p r.
Proof.
  unfold process_okc_telemedicine_percentage.
  destruct (okc_loop data []) as [d|] eqn:Hloop; [|done].
  cbn [mbind option_bind]. intros [= <-].
  destruct (okc_loop_inv data data (λ _ H, H) [] d) as [Hwf Hinv]; [|done|].
  { split; [apply wf_nil|done]. }
  split; [unfold Dict.wf; by rewrite keys_map_values|].
  intros p s. rewrite get_map_values.
  destruct (Dict.get p d) as [s0|] eqn:Hs0; [|done].
  cbn [fmap option_fmap option_map]. intros [= <-].
  destruct (Hinv _ _ Hs0) as (Hpos & Hle & _ & Hrow).
  unfold set_percentage.
  destruct (Nat.ltb_spec 0 (total_visits s0)); [|lia]. simpl.
  split_and!; done.
Qed.

Lemma process_okc_full (data : list row) :
  Forall row_full data → is_Some (process_okc_telemedicine_percentage data).
Proof.
  intros Hfull. unfold process_okc_telemedicine_percentage.
  destruct (okc_loop_full data Hfull []) as [d ->]. by eexists.
Qed.

End RatioFacts.

(** C9. Every patient in the result of the ratio classifier has at least
    one visit counted and no more telemedicine visits than visits, and is
    referenced by some in-scope row of the input: a record with no visit
    never appears. The classifier does return a result on every table
    none of whose cells is [None]. *)
Theorem ratio_counts_bounded :
  (∀ (data : list row) (patient_stats : Dict.t TelemedPercentage.stats)
     (patient : string) (s : TelemedPercentage.stats),
     TelemedPercentage.process_okc_telemedicine_percentage data
     = Some patient_stats →
     Dict.get patient patient_stats = Some s →
     1 ≤ TelemedPercentage.total_visits s
     ∧ 0 ≤ TelemedPercentage.telemed_visits s
     ∧ TelemedPercentage.telemed_visits s ≤ TelemedPercentage.total_visits s
     ∧ ∃ r, r ∈ data ∧ okc_visit patient r)
  ∧ (∀ data : list row,
       Forall row_full data →
       is_Some (TelemedPercentage.process_okc_telemedicine_percentage data)).
Proof.
  split; [|apply process_okc_full].
  intros data patient_stats patient s Hrun Hget.
  destruct (process_okc_inv data patient_stats Hrun) as [_ Hinv].
  destruct (Hinv _ _ Hget) as (? & ? & ? & ?).
  split_and!; [done|lia|done|done].
Qed.

Lemma ratio_counts_bounded_witness :
  match TelemedPercentage.process_okc_telemedicine_percentage Samples.visits with
  | Some patient_stats =>
      match Dict.get "Smith, A" patient_stats with
      | Some s =>
          1 ≤ TelemedPercentage.total_visits s
          ∧ 0 ≤ TelemedPercentage.telemed_visits s
          ∧ TelemedPercentage.telemed_visits s ≤ TelemedPercentage.total_visits s
          ∧ ∃ r, r ∈ Samples.visits ∧ okc_visit "Smith, A" r
      | None => False
      end
  | None => False
  end.
Proof.
  destruct (TelemedPercentage.process_okc_telemedicine_percentage Samples.visits)
    as [patient_stats|] eqn:Hrun; [|vm_compute in Hrun; discriminate].
  destruct (Dict.get "Smith, A" patient_stats) as [s|] eqn:Hget.
  - exact (proj1 ratio_counts_bounded Samples.visits patient_stats "Smith, A" s
             Hrun Hget).
  - revert Hget. vm_compute in Hrun. injection Hrun as <-.
    vm_compute. discriminate.
Defined.

(** ** Percentages and tiers *)

Section TierFacts.
Import DictFacts TelemedPercentage.

Lemma inject_nat_nonneg (n : nat) : (0 <= inject_Z (Z.of_nat n))%Q.
Proof. unfold Qle. simpl. lia. Qed.

Lemma ratio_pct_nonneg (n total : nat) : (0 <= ratio_pct n total)%Q.
Proof.
  unfold ratio_pct. rewrite Qred_correct.
  apply Qmult_le_0_compat; [|done].
  apply Qmult_le_0_compat; [apply inject_nat_nonneg|].
  apply Qinv_le_0_compat, inject_nat_nonneg.
Qed.

Lemma ratio_pct_all (n : nat) : 0 < n → ratio_pct n n = 100%Q.
Proof.
  intros Hn. unfold ratio_pct. transitivity (Qred 100); [|done].
  apply Qred_complete. field.
  unfold Qeq. simpl. lia.
Qed.

Lemma ratio_pct_zero (total : nat) : ratio_pct 0 total = 0%Q.
Proof.
  unfold ratio_pct. transitivity (Qred 0); [|done].
  apply Qred_complete. simpl. unfold Qdiv. ring.
Qed.

Lemma Qle_bool_reflect (x y : Q) : reflect (x <= y)%Q (Qle_bool x y).
Proof. apply iff_reflect. symmetry. apply Qle_bool_iff. Qed.

Lemma Q_ltb_reflect (x y : Q) : reflect (x < y)%Q (Q_ltb x y).
Proof.
  unfold Q_ltb. destruct (Qle_bool_reflect y x); constructor; lra.
Qed.

Lemma Qeq_bool_reflect (x y : Q) : reflect (x == y)%Q (Qeq_bool x y).
Proof. apply iff_reflect. symmetry. apply Qeq_bool_iff. Qed.

Lemma tier_thresholds (p : Q) :
  (is_high p = true ↔ (75 <= p)%Q)
  ∧ (is_medium p = true ↔ (25 <= p)%Q ∧ (p < 75)%Q)
  ∧ (is_low p = true ↔ (0 < p)%Q ∧ (p < 25)%Q)
  ∧ (is_none p = true ↔ (p == 0)%Q).
Proof.
  unfold is_high, is_medium, is_low, is_none.
  destruct (Qle_bool_reflect 75 p), (Qle_bool_reflect 25 p),
    (Q_ltb_reflect p 75), (Q_ltb_reflect 0 p), (Q_ltb_reflect p 25),
    (Qeq_bool_reflect p 0); simpl; intuition (done || lra).
Qed.

Lemma tier_exactly_one (p : Q) :
  (0 <= p)%Q →
  Nat.b2n (is_high p) + Nat.b2n (is_medium p) + Nat.b2n (is_low p)
  + Nat.b2n (is_none p) = 1.
Proof.
  intros Hp. unfold is_high, is_medium, is_low, is_none.
  destruct (Qle_bool_reflect 75 p), (Qle_bool_reflect 25 p),
    (Q_ltb_reflect p 75), (Q_ltb_reflect 0 p), (Q_ltb_reflect p 25),
    (Qeq_bool_reflect p 0); simpl; try reflexivity; exfalso; lra.
Qed.

Lemma count_partition {A : Type} (c1 c2 c3 c4 : A → bool) (l : list A) :
  (∀ x, x ∈ l →
     Nat.b2n (c1 x) + Nat.b2n (c2 x) + Nat.b2n (c3 x) + Nat.b2n (c4 x) = 1) →
  length (filter (λ x, c1 x) l) + length (filter (λ x, c2 x) l)
  + length (filter (λ x, c3 x) l) + length (filter (λ x, c4 x) l) = length l.
Proof.
  induction l as [|x l IH]; intros Hall; [done|].
  rewrite !filter_cons. specialize (Hall x (list_elem_of_here _ _)) as Hx.
  assert (IH' := IH (λ y Hy, Hall y (list_elem_of_further _ _ _ Hy))).
  destruct (c1 x), (c2 x), (c3 x), (c4 x); simpl in *; try lia;
    repeat (rewrite decide_True by done || rewrite decide_False by done);
    simpl; lia.
Qed.

End TierFacts.

(** C5. For every patient in the result of the ratio classifier the
    percentage is telemedicine visits over visits times 100; the tiers
    the report counts are cut at fixed thresholds (high from 75, medium
    from 25 up to but not 75, low above 0 and below 25, none at 0) and
    exactly one of them holds; all visits telemedicine gives exactly 100
    and high, none gives exactly 0 and none; and the four tier counts of
    the report add up to the number of patients. *)
Theorem tiers_partition_entities :
  (∀ (data : list row) (patient_stats : Dict.t TelemedPercentage.stats)
     (patient : string) (s : TelemedPercentage.stats),
     TelemedPercentage.process_okc_telemedicine_percentage data
     = Some patient_stats →
     Dict.get patient patient_stats = Some s →
     let p := TelemedPercentage.percentage s in
     p = ratio_pct (TelemedPercentage.telemed_visits s)
           (TelemedPercentage.total_visits s)
     ∧ (TelemedPercentage.is_high p = true ↔ (75 <= p)%Q)
     ∧ (TelemedPercentage.is_medium p = true ↔ (25 <= p)%Q ∧ (p < 75)%Q)
     ∧ (TelemedPercentage.is_low p = true ↔ (0 < p)%Q ∧ (p < 25)%Q)
     ∧ (TelemedPercentage.is_none p = true ↔ (p == 0)%Q)
     ∧ Nat.b2n (TelemedPercentage.is_high p)
       + Nat.b2n (TelemedPercentage.is_medium p)
       + Nat.b2n (TelemedPercentage.is_low p)
       + Nat.b2n (TelemedPercentage.is_none p) = 1
     ∧ (TelemedPercentage.telemed_visits s = TelemedPercentage.total_visits s →
        p = 100%Q ∧ TelemedPercentage.is_high p = true)
     ∧ (TelemedPercentage.telemed_visits s = 0 →
        p = 0%Q ∧ TelemedPercentage.is_none p = true))
  ∧ (∀ (data : list row) (patient_stats : Dict.t TelemedPercentage.stats),
       TelemedPercentage.process_okc_telemedicine_percentage data
       = Some patient_stats →
       TelemedPercentage.count_tier TelemedPercentage.is_high patient_stats
       + TelemedPercentage.count_tier TelemedPercentage.is_medium patient_stats
       + TelemedPercentage.count_tier TelemedPercentage.is_low patient_stats
       + TelemedPercentage.count_tier TelemedPercentage.is_none patient_stats
       = length patient_stats).
Proof.
  split.
  - intros data patient_stats patient s Hrun Hget p.
    destruct (process_okc_inv data patient_stats Hrun) as [_ Hinv].
    destruct (Hinv _ _ Hget) as (Hpos & Hle & Hp & _).
    fold p in Hp.
    destruct (tier_thresholds p) as (? & ? & ? & ?).
    split_and!; try done.
    + apply tier_exactly_one. rewrite Hp. apply ratio_pct_nonneg.
    + intros Hall. rewrite Hp, Hall, ratio_pct_all by lia. done.
    + intros Hzero. rewrite Hp, Hzero, ratio_pct_zero. done.
  - intros data patient_stats Hrun.
    destruct (process_okc_inv data patient_stats Hrun) as [Hwf Hinv].
    unfold TelemedPercentage.count_tier.
    rewrite (count_partition
               (λ s, TelemedPercentage.is_high (TelemedPercentage.percentage s))
               (λ s, TelemedPercentage.is_medium (TelemedPercentage.percentage s))
               (λ s, TelemedPercentage.is_low (TelemedPercentage.percentage s))
               (λ s, TelemedPercentage.is_none (TelemedPercentage.percentage s))).
    + unfold Dict.values. by rewrite length_fmap.
    + intros s Hs.
      destruct (DictFacts.values_get s patient_stats Hwf Hs) as [k Hk].
      destruct (Hinv _ _ Hk) as (_ & _ & -> & _).
      apply tier_exactly_one, ratio_pct_nonneg.
Qed.

Lemma tiers_partition_entities_witness :
  match TelemedPercentage.process_okc_telemedicine_percentage Samples.visits with
  | Some patient_stats =>
      match Dict.get "Adams, D" patient_stats with
      | Some s =>
          TelemedPercentage.percentage s = 100%Q
          ∧ TelemedPercentage.is_high (TelemedPercentage.percentage s) = true
      | None => False
      end
      ∧ TelemedPercentage.count_tier TelemedPercentage.is_high patient_stats
        + TelemedPercentage.count_tier TelemedPercentage.is_medium patient_stats
        + TelemedPercentage.count_tier TelemedPercentage.is_low patient_stats
        + TelemedPercentage.count_tier TelemedPercentage.is_none patient_stats
        = length patient_stats
  | None => False
  end.
Proof.
  destruct (TelemedPercentage.process_okc_telemedicine_percentage Samples.visits)
    as [patient_stats|] eqn:Hrun; [|vm_compute in Hrun; discriminate].
  split; [|exact (proj2 tiers_partition_entities _ _ Hrun)].
  destruct (Dict.get "Adams, D" patient_stats) as [s|] eqn:Hget.
  - apply (proj1 tiers_partition_entities Samples.visits patient_stats
             "Adams, D" s Hrun Hget).
    revert Hget. vm_compute in Hrun. injection Hrun as <-.
    vm_compute. by intros [= <-].
  - revert Hget. vm_compute in Hrun. injection Hrun as <-.
    vm_compute. discriminate.
Defined.

(** ** Sorting *)

Section SortingFacts.

Lemma string_ltb_leb (a b : string) : String.ltb a b = negb (String.leb b a).
Proof.
  unfold String.ltb, String.leb. rewrite (String.compare_antisym b a).
  by destruct (String.compare a b).
Qed.

Lemma str_lt_le_ne (a b : string) : str_lt a b ↔ (a ≤ b)%string ∧ a ≠ b.
Proof.
  unfold str_lt, String.le, String.ltb, String.leb.
  destruct (String.compare a b) eqn:Hc; simpl.
  - apply String.compare_eq_iff in Hc as ->.
    split; [done|]. by intros [_ []].
  - split; [|done]. intros _. split; [done|]. intros ->.
    pose proof (String.compare_antisym b b) as Ha. rewrite Hc in Ha. done.
  - split; [done|]. by intros [[] _].
Qed.

#[global] Instance string_key_order : KeyOrder String.ltb String.le.
Proof.
  split.
  - intros a b. rewrite string_ltb_leb, negb_false_iff.
    unfold String.le. by rewrite Is_true_true.
  - intros a b c ??. by etrans.
  - intros a b. apply (total (≤)%string).
Qed.

#[global] Instance Z_key_order : KeyOrder Z.ltb Z.le.
Proof. split; [intros; rewrite Z.ltb_ge; done|intros; lia|intros; lia]. Qed.

#[global] Instance nat_key_order : KeyOrder Nat.ltb le.
Proof. split; [intros; rewrite Nat.ltb_ge; done|intros; lia|intros; lia]. Qed.

#[global] Instance tuple_key_order {A B : Type}
    (eqA ltA : A → A → bool) (leA : A → A → Prop)
    (ltB : B → B → bool) (leB : B → B → Prop) :
  (∀ a b, eqA a b = true ↔ a = b) →
  (∀ a b, leA a b → leA b a → a = b) →
  KeyOrder ltA leA → KeyOrder ltB leB →
  KeyOrder (tuple_lt eqA ltA ltB) (lex_le leA leB).
Proof.
  intros Heq Hanti HA HB.
  assert (Hdec : ∀ a b : A, a = b ∨ a ≠ b).
  { intros a b. destruct (eqA a b) eqn:E; [left; by apply Heq|right].
    intros ?%Heq. congruence. }
  split.
  - intros [a1 b1] [a2 b2]. unfold tuple_lt, lex_le. simpl.
    destruct (eqA a1 a2) eqn:E.
    + apply Heq in E as ->. rewrite ltb_false_le.
      split; [by right|]. by intros [[[] _]|[_ ?]].
    + assert (a1 ≠ a2) by (intros ?%Heq; congruence).
      rewrite ltb_false_le.
      split; [by left|]. intros [[_ ?]|[? _]]; congruence.
  - intros [a1 b1] [a2 b2] [a3 b3]. unfold lex_le. simpl.
    intros [[Hne1 H1]|[-> H1]] [[Hne2 H2]|[-> H2]].
    + left. split; [|by eapply key_le_trans].
      intros ->. apply Hne1. by apply Hanti.
    + by left.
    + by left.
    + right. split; [done|by eapply key_le_trans].
  - intros [a1 b1] [a2 b2]. unfold lex_le. simpl.
    destruct (Hdec a1 a2) as [->|Hne].
    + destruct (key_le_total (le := leB) b1 b2); [left|right]; by right.
    + destruct (key_le_total (le := leA) a1 a2); [left|right]; left;
        split; done.
Qed.

Context {A K : Type} (ltb : K → K → bool) (le : K → K → Prop) (key : A → K).
Context `{!KeyOrder ltb le}.

Lemma sorted_insert_perm (x : A) (l : list A) :
  sorted_insert ltb key x l ≡ₚ x :: l.
Proof.
  induction l as [|y l IH]; simpl; [done|].
  destruct (ltb (key y) (key x)); [|done].
  rewrite IH. apply Permutation_swap.
Qed.

Lemma py_sorted_perm (l : list A) : py_sorted ltb key l ≡ₚ l.
Proof.
  induction l as [|x l IH]; simpl; [done|].
  by rewrite sorted_insert_perm, IH.
Qed.

Lemma sorted_insert_sorted (x : A) (l : list A) :
  StronglySorted (λ a b, le (key a) (key b)) l →
  StronglySorted (λ a b, le (key a) (key b)) (sorted_insert ltb key x l).
Proof.
  induction 1 as [|y l Hl IH Hy]; simpl.
  - repeat constructor.
  - destruct (ltb (key y) (key x)) eqn:Hlt.
    + constructor; [done|].
      rewrite sorted_insert_perm. constructor; [|done].
      destruct (key_le_total (le := le) (key y) (key x)) as [?|Hxy]; [done|].
      apply ltb_false_le in Hxy. congruence.
    + apply ltb_false_le in Hlt.
      constructor; [by constructor|].
      constructor; [done|].
      eapply Forall_impl; [exact Hy|]. intros z Hz. simpl in *.
      by eapply key_le_trans.
Qed.

Lemma py_sorted_sorted (l : list A) :
  StronglySorted (λ a b, le (key a) (key b)) (py_sorted ltb key l).
Proof.
  induction l as [|x l IH]; simpl; [constructor|].
  by apply sorted_insert_sorted.
Qed.

End SortingFacts.

Lemma sorted_distinct {A B : Type} (R R' : A → A → Prop) (f : A → B)
    (l : list A) :
  (∀ x y, R x y → f x ≠ f y → R' x y) →
  NoDup (f <$> l) → StronglySorted R l → StronglySorted R' l.
Proof.
  intros Himp Hnd Hs. induction Hs as [|x l Hs IH Hx]; [constructor|].
  rewrite fmap_cons in Hnd. apply NoDup_cons in Hnd as [Hx' Hnd].
  constructor; [by apply IH|].
  apply Forall_forall. intros y Hy.
  apply Himp; [by eapply Forall_forall in Hx|].
  intros Heq. apply Hx'. rewrite Heq. by apply list_elem_of_fmap_2.
Qed.

(** ** One-dimension report *)

Section ReportFacts.
Import ClientByLocation.

Lemma add_row_fold (l : list (string * nat)) :
  ∀ (report txt_lines : list string) (csv_rows : list (list cell)) (total : nat),
    fold_left add_row l (report, txt_lines, csv_rows, total)
    = (report ++ ((λ x, count_line x.1 x.2) <$> l),
       txt_lines ++ ((λ x, count_line x.1 x.2) <$> l),
       csv_rows ++ ((λ x, [CStr x.1; CInt x.2]) <$> l),
       total + sum_list l.*2).
Proof.
  induction l as [|[location count] l IH]; intros; simpl.
  - by rewrite !app_nil_r, Nat.add_0_r.
  - rewrite IH, <- !app_assoc. simpl. by rewrite Nat.add_assoc.
Qed.

Lemma generate_report_nonempty (field FIELD generated : string)
    (title : string → string) (location_count : Dict.t nat) (sort_by : string) :
  location_count ≠ [] →
  let listing := sorted_items location_count sort_by in
  let lines := (λ x, count_line x.1 x.2) <$> listing in
  let total := sum_list listing.*2 in
  generate_report field FIELD generated title location_count sort_by
  = Report
      (Py.join nl
         ([nl +:+ Py.repeat_char "=" 50; report_banner FIELD;
           Py.repeat_char "=" 50; report_heading field; Py.repeat_char "-" 50]
          ++ lines ++ report_foot total))
      ([Py.repeat_char "=" 50; report_banner FIELD; "Generated: " +:+ generated;
        "Sort Order: " +:+ ("By " +:+ title sort_by); Py.repeat_char "=" 50;
        report_heading field; Py.repeat_char "-" 50]
       ++ lines ++ report_foot total)
      ([[CStr field; CStr "Unique_Patients"]]
       ++ ((λ x, [CStr x.1; CInt x.2]) <$> listing)
       ++ [[CStr "TOTAL"; CInt total]]).
Proof.
  intros Hne listing lines total. unfold generate_report.
  destruct location_count as [|item rest]; [done|].
  fold listing. rewrite add_row_fold. fold lines. fold total.
  unfold report_foot, report_banner, report_heading.
  rewrite <- !app_assoc. done.
Qed.

Lemma sorted_items_other (location_count : Dict.t nat) (sort_by : string) :
  sort_by ≠ "count" →
  sorted_items location_count sort_by
  = py_sorted (tuple_lt String.eqb String.ltb Nat.ltb) id
      (Dict.items location_count).
Proof.
  intros Hne. unfold sorted_items.
  destruct (String.eqb_spec sort_by "count"); done.
Qed.

Lemma string_le_antisym (a b : string) :
  (a ≤ b)%string → (b ≤ a)%string → a = b.
Proof. intros. by apply (anti_symm (≤)%string). Qed.

Lemma sorted_items_alphabetical (location_count : Dict.t nat) (sort_by : string) :
  Dict.wf location_count → sort_by ≠ "count" →
  StronglySorted (λ x y, str_lt x.1 y.1) (sorted_items location_count sort_by).
Proof.
  intros Hwf Hne. rewrite sorted_items_other by done.
  pose proof (tuple_key_order String.eqb String.ltb String.le Nat.ltb le
                String.eqb_eq string_le_antisym _ _) as Hord.
  apply (sorted_distinct (lex_le String.le le) _ fst).
  - intros x y [[_ Hle]|[Heq _]] Hxy; [|done].
    by apply str_lt_le_ne.
  - rewrite (py_sorted_perm (tuple_lt String.eqb String.ltb Nat.ltb)). exact Hwf.
  - apply (py_sorted_sorted _ (lex_le String.le le) id).
Qed.

Lemma Z_le_antisym (a b : Z) : (a ≤ b)%Z → (b ≤ a)%Z → a = b.
Proof. lia. Qed.

Lemma sorted_by_count (V : Type) (count_of : V → nat) (d : Dict.t V) :
  Dict.wf d →
  StronglySorted
    (λ x y, count_of y.2 < count_of x.2
            ∨ (count_of x.2 = count_of y.2 ∧ str_lt x.1 y.1))
    (py_sorted (tuple_lt Z.eqb Z.ltb String.ltb)
       (λ x, ((- Z.of_nat (count_of x.2))%Z, x.1)) (Dict.items d)).
Proof.
  intros Hwf.
  pose proof (tuple_key_order Z.eqb Z.ltb Z.le String.ltb String.le
                Z.eqb_eq Z_le_antisym _ _) as Hord.
  apply (sorted_distinct
           (λ x y, lex_le Z.le String.le
                     ((- Z.of_nat (count_of x.2))%Z, x.1)
                     ((- Z.of_nat (count_of y.2))%Z, y.1)) _ fst).
  - intros x y [[Hc Hle]|[Hc Hle]] Hxy; simpl in *.
    + left. lia.
    + right. split; [lia|by apply str_lt_le_ne].
  - rewrite (py_sorted_perm (tuple_lt Z.eqb Z.ltb String.ltb)). exact Hwf.
  - apply (py_sorted_sorted _ (lex_le Z.le String.le)
             (λ x, ((- Z.of_nat (count_of x.2))%Z, x.1))).
Qed.

End ReportFacts.

(** C10. For a non-empty one-dimension result and any [sort_by] other
    than the string 'count', [generate_report] (of clientByLocation.py
    and clientByPayerType.py alike) does not fail: it lists the groups in
    ascending order of their key, and these are the lines and rows of the
    console text, the .txt file and the .csv file; with 'count' the
    listing is by count descending, keys ascending among equal counts. *)
Theorem unknown_sort_mode_lists_alphabetically :
  (∀ (field FIELD generated : string) (title : string → string)
     (location_count : Dict.t nat) (sort_by : string),
     location_count ≠ [] → Dict.wf location_count → sort_by ≠ "count" →
     let listing := ClientByLocation.sorted_items location_count sort_by in
     let lines := (λ x, ClientByLocation.count_line x.1 x.2) <$> listing in
     let total := sum_list listing.*2 in
     listing ≡ₚ Dict.items location_count
     ∧ StronglySorted (λ x y, str_lt x.1 y.1) listing
     ∧ ClientByLocation.generate_report field FIELD generated title
         location_count sort_by
       = Report
           (Py.join nl
              ([nl +:+ Py.repeat_char "=" 50; report_banner FIELD;
                Py.repeat_char "=" 50; report_heading field;
                Py.repeat_char "-" 50]
               ++ lines ++ report_foot total))
           ([Py.repeat_char "=" 50; report_banner FIELD;
             "Generated: " +:+ generated;
             "Sort Order: " +:+ ("By " +:+ title sort_by);
             Py.repeat_char "=" 50; report_heading field;
             Py.repeat_char "-" 50]
            ++ lines ++ report_foot total)
           ([[CStr field; CStr "Unique_Patients"]]
            ++ ((λ x, [CStr x.1; CInt x.2]) <$> listing)
            ++ [[CStr "TOTAL"; CInt total]]))
  ∧ (∀ location_count : Dict.t nat,
       Dict.wf location_count →
       StronglySorted count_desc_name_asc
         (ClientByLocation.sorted_items location_count "count")).
Proof.
  split.
  - intros field FIELD generated title location_count sort_by Hne Hwf Hsort
      listing lines total.
    split_and!.
    + unfold listing. rewrite sorted_items_other by done.
      apply py_sorted_perm.
    + by apply sorted_items_alphabetical.
    + by apply generate_report_nonempty.
  - intros location_count Hwf.
    apply (sorted_by_count nat id location_count Hwf).
Qed.

Lemma unknown_sort_mode_lists_alphabetically_witness :
  ClientByLocation.sorted_items Samples.counts "cnt"
  = [("Ardmore", 2); ("OKC", 2); ("Tulsa", 5)]
  ∧ csv_file (ClientByLocation.generate_report "Location" "LOCATION"
                "2025-01-01 00:00:00" id Samples.counts "cnt")
    = [[CStr "Location"; CStr "Unique_Patients"];
       [CStr "Ardmore"; CInt 2]; [CStr "OKC"; CInt 2]; [CStr "Tulsa"; CInt 5];
       [CStr "TOTAL"; CInt 9]].
Proof.
  assert (Hne : Samples.counts ≠ []) by done.
  assert (Hwf : Dict.wf Samples.counts).
  { unfold Dict.wf. apply (bool_decide_unpack _). vm_compute. exact I. }
  assert (Hsort : "cnt" ≠ "count") by done.
  destruct (proj1 unknown_sort_mode_lists_alphabetically "Location" "LOCATION"
              "2025-01-01 00:00:00" id Samples.counts "cnt" Hne Hwf Hsort)
    as (_ & _ & ->).
  split; vm_compute; reflexivity.
Defined.

(** ** Summary matrix *)

Section MatrixFacts.
Import ClientByLocationAndPayer.

Lemma fold_left_add {A : Type} (g : A → nat) (l : list A) (n : nat) :
  fold_left (λ total x, total + g x) l n = n + sum_list (g <$> l).
Proof.
  revert n. induction l as [|x l IH]; intros n; [simpl; lia|].
  rewrite fmap_cons. cbn [fold_left sum_list_with]. rewrite IH. unfold id. lia.
Qed.

Lemma sum_list_plus {A : Type} (g h : A → nat) (l : list A) :
  sum_list ((λ x, g x + h x) <$> l) = sum_list (g <$> l) + sum_list (h <$> l).
Proof.
  induction l as [|x l IH]; [done|].
  rewrite !fmap_cons. cbn [sum_list_with]. rewrite IH. unfold id. lia.
Qed.

Lemma sum_list_zero {A : Type} (l : list A) :
  sum_list ((λ _, 0) <$> l) = 0.
Proof. induction l as [|x l IH]; simpl; done. Qed.

Lemma sum_list_exchange {A B : Type} (f : A → B → nat)
    (la : list A) (lb : list B) :
  sum_list ((λ a, sum_list (f a <$> lb)) <$> la)
  = sum_list ((λ b, sum_list ((λ a, f a b) <$> la)) <$> lb).
Proof.
  induction la as [|a la IH].
  - simpl. by rewrite sum_list_zero.
  - rewrite fmap_cons. cbn [sum_list_with]. unfold id at 1.
    rewrite IH, <- sum_list_plus. done.
Qed.

Lemma location_total_sum (d : Dict.t (Dict.t (gset string))) (location : string) :
  location_total d location
  = sum_list (cell_count d location <$> sorted_payors d).
Proof. unfold location_total. by rewrite fold_left_add. Qed.

Lemma grand_total_columns (d : Dict.t (Dict.t (gset string))) :
  grand_total d = sum_list (payor_total d <$> sorted_payors d).
Proof. unfold grand_total. by rewrite fold_left_add. Qed.

Lemma grand_total_rows (d : Dict.t (Dict.t (gset string))) :
  grand_total d = sum_list (location_total d <$> sorted_locations d).
Proof.
  rewrite grand_total_columns. unfold payor_total.
  rewrite <- (sum_list_exchange (cell_count d)).
  f_equal. apply list_fmap_ext. intros _ location _.
  by rewrite location_total_sum.
Qed.

Lemma add_location_fold (d : Dict.t (Dict.t (gset string))) (l : list string) :
  ∀ (report txt_report : list string) (csv_rows : list (list cell)),
    fold_left (add_location d) l (report, txt_report, csv_rows)
    = (report ++ (console_row d <$> l), txt_report ++ (txt_row d <$> l),
       csv_rows ++ (csv_row d <$> l)).
Proof.
  induction l as [|location l IH]; intros; simpl.
  - by rewrite !app_nil_r.
  - by rewrite IH, <- !app_assoc.
Qed.

Lemma cell_count_lookup2 (d : Dict.t (Dict.t (gset string)))
    (location payor : string) :
  cell_count d location payor = size (default ∅ (lookup2 d location payor)).
Proof.
  unfold cell_count, lookup2. by destruct (Dict.get location d).
Qed.

End MatrixFacts.

(** C6. In the summary matrix of the location-and-payor script the rows
    written to the .csv file are one row per location (its cells, then
    its total) and a totals row (a total per payor, then the grand
    total); each cell is the number of distinct patients stored for the
    pair, each row total and each payor total is the sum of its cells,
    and the grand total equals both the sum of the row totals and the
    sum of the payor totals. *)
Theorem matrix_totals_agree (generated : string)
    (location_payer_data : Dict.t (Dict.t (gset string))) :
  let d := location_payer_data in
  let locations := ClientByLocationAndPayer.sorted_locations d in
  let payors := ClientByLocationAndPayer.sorted_payors d in
  let cell := ClientByLocationAndPayer.cell_count d in
  let row_total := ClientByLocationAndPayer.location_total d in
  let column_total := ClientByLocationAndPayer.payor_total d in
  let grand := ClientByLocationAndPayer.grand_total d in
  csv_file (ClientByLocationAndPayer.generate_summary_report generated d)
  = [[CStr "Location"] ++ (CStr <$> payors) ++ [CStr "Total"]]
    ++ ((λ location,
           [CStr location] ++ ((λ payor, CInt (cell location payor)) <$> payors)
           ++ [CInt (row_total location)]) <$> locations)
    ++ [[CStr "TOTAL"] ++ ((λ payor, CInt (column_total payor)) <$> payors)
        ++ [CInt grand]]
  ∧ (∀ location payor,
       cell location payor = size (default ∅ (lookup2 d location payor)))
  ∧ (∀ location, row_total location = sum_list (cell location <$> payors))
  ∧ (∀ payor,
       column_total payor = sum_list ((λ location, cell location payor) <$> locations))
  ∧ sum_list (row_total <$> locations) = grand
  ∧ sum_list (column_total <$> payors) = grand.
Proof.
  intros d locations payors cell row_total column_total grand.
  split_and!.
  - unfold ClientByLocationAndPayer.generate_summary_report.
    rewrite add_location_fold. cbn [csv_file]. by rewrite <- app_assoc.
  - apply cell_count_lookup2.
  - apply location_total_sum.
  - done.
  - symmetry. apply grand_total_rows.
  - symmetry. apply grand_total_columns.
Qed.

(** ** Completeness analyzer *)

(** C2. On three rows with a payor and no location, two of them naming
    the same patient and one naming none, [analyze_data_gaps] reports 3
    records in all and 0 + 1 + 0 + 0 for the four classes: the class
    "Payor but NO Location" holds the number of distinct patients, not
    the number of rows. *)
Lemma completeness_counts_miss_rows :
  ∃ summary,
    ClientByLocation.analyze_data_gaps Samples.payor_only_rows = Some summary
    ∧ ClientByLocation.total_records summary = 3
    ∧ rows_with false true Samples.payor_only_rows = 3
    ∧ ClientByLocation.payor_no_location summary = 1
    ∧ ClientByLocation.has_both_count summary
      + ClientByLocation.payor_no_location summary
      + ClientByLocation.location_no_payor summary
      + ClientByLocation.has_neither_count summary = 1.
Proof. eexists. split; [vm_compute; reflexivity|]. vm_compute. done. Qed.

(** C7. On the same three rows all of the table is in the class "Payor
    but NO Location", yet the percentage reported for it is 100/3 and not
    100: it is the number of distinct patients over the number of rows.
    On the example of the specification (both rows naming a patient) the
    counts are 1, 1, 0, 0 and the percentages 50, 50, 0, 0. *)
Lemma completeness_percentage_of_patients :
  (∃ summary,
     ClientByLocation.analyze_data_gaps Samples.payor_only_rows = Some summary
     ∧ percent_of (rows_with false true Samples.payor_only_rows)
         (length Samples.payor_only_rows) = 100%Q
     ∧ ClientByLocation.payor_no_location_pct summary = (100 # 3)%Q)
  ∧ (∃ summary,
       ClientByLocation.analyze_data_gaps Samples.one_gap = Some summary
       ∧ ClientByLocation.payor_no_location summary = 1
       ∧ ClientByLocation.has_both_count summary = 1
       ∧ ClientByLocation.location_no_payor summary = 0
       ∧ ClientByLocation.has_neither_count summary = 0
       ∧ ClientByLocation.payor_no_location_pct summary = 50%Q
       ∧ ClientByLocation.has_both_pct summary = 50%Q
       ∧ ClientByLocation.location_no_payor_pct summary = 0%Q
       ∧ ClientByLocation.has_neither_pct summary = 0%Q)
  ∧ (∃ summary,
       ClientByLocation.analyze_data_gaps [] = Some summary
       ∧ ClientByLocation.payor_no_location_pct summary = 0%Q
       ∧ ClientByLocation.has_both_pct summary = 0%Q
       ∧ ClientByLocation.location_no_payor_pct summary = 0%Q
       ∧ ClientByLocation.has_neither_pct summary = 0%Q).
Proof.
  split_and!; eexists; (split; [vm_compute; reflexivity|]); vm_compute; done.
Qed.

(** ** Listings of the telemedicine reports *)

(** C3. Two patients with the same percentage (one visit of two, two of
    four) are listed with the later name first: between the percentage
    and the name the sort key of the percentage report holds the number
    of telemedicine visits, descending. *)
Lemma percentage_ties_break_on_visits :
  ∃ patient_stats,
    TelemedPercentage.process_okc_telemedicine_percentage Samples.tied_visits
    = Some patient_stats
    ∧ TelemedPercentage.percentage <$> Dict.get "Adams, A" patient_stats = Some 50%Q
    ∧ TelemedPercentage.percentage <$> Dict.get "Baker, B" patient_stats = Some 50%Q
    ∧ Dict.keys (TelemedPercentage.sorted_patients patient_stats)
      = ["Baker, B"; "Adams, A"]
    ∧ str_lt "Adams, A" "Baker, B".
Proof. eexists. split; [vm_compute; reflexivity|]. vm_compute. done. Qed.

(** C4. For a patient whose payors read "Blue Cross Blue Shield,
    Medicare", the line written to the .txt file ends in
    "Blue Cross Blue Sh.." in both telemedicine reports, while the row
    written to the .csv file carries the payors in full. *)
Lemma persisted_text_is_display_limited (fmt1 : Q → string) (generated : string) :
  ∃ patient_stats st,
    TelemedPercentage.process_okc_telemedicine_percentage Samples.long_payors
    = Some patient_stats
    ∧ TelemedSort.process_telemedicine_data Samples.long_payors = Some st
    ∧ txt_file (TelemedPercentage.generate_telemedicine_percentage_report
                  fmt1 generated patient_stats) !! 18
      = Some (Py.ljust 30 "Smith, A" +:+ " " +:+ Py.rjust 8 "2" +:+ " "
              +:+ Py.rjust 8 "2" +:+ " " +:+ (Py.rjust 11 (fmt1 100%Q) +:+ "%")
              +:+ " " +:+ "Blue Cross Blue Sh..")
    ∧ csv_file (TelemedPercentage.generate_telemedicine_percentage_report
                  fmt1 generated patient_stats) !! 1
      = Some [CStr "Smith, A"; CInt 2; CInt 2; CStr (fmt1 100%Q);
              CStr "Blue Cross Blue Shield, Medicare"]
    ∧ txt_file (TelemedSort.generate_telemedicine_report generated st) !! 24
      = Some "Smith, A                         2 OKC                  Blue Cross Blue Sh.."
    ∧ csv_file (TelemedSort.generate_telemedicine_report generated st) !! 1
      = Some [CStr "Smith, A"; CInt 2; CStr "OKC";
              CStr "Blue Cross Blue Shield, Medicare"].
Proof.
  eexists _, _. split; [vm_compute; reflexivity|].
  split; [vm_compute; reflexivity|].
  split_and!; vm_compute; reflexivity.
Qed.

(** ** Stability of [sorted] and the breakdown listings *)

Section StabilityFacts.
Context {A K : Type} (ltb : K → K → bool) (key : A → K).
Context (P : A → Prop) `{!∀ x, Decision (P x)}.
(** [P] selects elements that [<] on keys never separates. *)
Hypothesis P_class : ∀ x y, P x → P y → ltb (key y) (key x) = false.

Lemma sorted_insert_filter (x : A) (l : list A) :
  filter P (sorted_insert ltb key x l)
  = if decide (P x) then x :: filter P l else filter P l.
Proof.
  induction l as [|y l IH]; simpl.
  - rewrite filter_cons, filter_nil. done.
  - destruct (ltb (key y) (key x)) eqn:Hlt.
    + rewrite !filter_cons, IH.
      destruct (decide (P y)) as [Hy|Hy]; [|done].
      destruct (decide (P x)) as [Hx|Hx]; [|done].
      rewrite (P_class x y Hx Hy) in Hlt. done.
    + rewrite (filter_cons _ x). done.
Qed.

Lemma py_sorted_filter (l : list A) :
  filter P (py_sorted ltb key l) = filter P l.
Proof.
  induction l as [|x l IH]; simpl; [done|].
  rewrite sorted_insert_filter, filter_cons, IH. done.
Qed.

End StabilityFacts.

Lemma strongly_sorted_weaken {A : Type} (R R' : A → A → Prop) (l : list A) :
  (∀ x y, R x y → R' x y) → StronglySorted R l → StronglySorted R' l.
Proof.
  intros Himp. induction 1 as [|x l Hs IH Hx]; constructor; [done|].
  eapply Forall_impl; [exact Hx|]. intros y. apply Himp.
Qed.

Section BreakdownFacts.
Import DictFacts ClientByLocationAndPayer.

Lemma sorted_insert_ext {A K1 K2 : Type} (lt1 : K1 → K1 → bool) (key1 : A → K1)
    (lt2 : K2 → K2 → bool) (key2 : A → K2) (x : A) (l : list A) :
  (∀ y, y ∈ l → lt1 (key1 y) (key1 x) = lt2 (key2 y) (key2 x)) →
  sorted_insert lt1 key1 x l = sorted_insert lt2 key2 x l.
Proof.
  induction l as [|y l IH]; intros Hagree; simpl; [done|].
  rewrite (Hagree y) by left.
  rewrite IH by (intros z Hz; apply Hagree; by right). done.
Qed.

Lemma file_groups_by_key (groups : Dict.t (gset string)) :
  Dict.wf groups →
  file_groups groups = py_sorted String.ltb fst (Dict.items groups).
Proof.
  unfold file_groups, Dict.wf, Dict.keys, Dict.items.
  induction groups as [|x groups IH]; [done|].
  rewrite fmap_cons. intros [Hx Hnd]%NoDup_cons. simpl.
  rewrite IH by done. apply sorted_insert_ext.
  intros y Hy. unfold tuple_lt, id.
  destruct (String.eqb_spec y.1 x.1) as [Heq|Hne]; [|done].
  destruct Hx. rewrite <- Heq. apply list_elem_of_fmap_2.
  by rewrite (py_sorted_perm String.ltb) in Hy.
Qed.

Lemma file_groups_sorted (groups : Dict.t (gset string)) :
  Dict.wf groups →
  file_groups groups ≡ₚ Dict.items groups
  ∧ StronglySorted (λ x y, str_lt x.1 y.1) (file_groups groups).
Proof.
  intros Hwf. rewrite file_groups_by_key by done.
  split; [apply py_sorted_perm|].
  apply (sorted_distinct (λ x y, (x.1 ≤ y.1)%string) _ fst).
  - intros x y Hle Hne. by apply str_lt_le_ne.
  - rewrite (py_sorted_perm String.ltb). exact Hwf.
  - apply (py_sorted_sorted String.ltb String.le fst).
Qed.

Lemma console_groups_sorted (groups : Dict.t (gset string)) :
  ∃ full,
    console_groups groups = take 5 full
    ∧ full ≡ₚ Dict.items groups
    ∧ StronglySorted (λ x y, size y.2 ≤ size x.2) full
    ∧ ∀ n, filter (λ x, size x.2 = n) full
           = filter (λ x, size x.2 = n) (Dict.items groups).
Proof.
  eexists. split; [reflexivity|]. split_and!.
  - apply py_sorted_perm.
  - eapply strongly_sorted_weaken;
      [|apply (py_sorted_sorted Z.ltb Z.le (λ x, (- Z.of_nat (size x.2))%Z))].
    intros x y. simpl. lia.
  - intros n. apply py_sorted_filter.
    intros x y Hx Hy. simpl in *. apply Z.ltb_ge. lia.
Qed.

Lemma wf_group_add (k patient : string) (d : Dict.t (gset string)) :
  Dict.wf d → Dict.wf (group_add k patient d).
Proof. intros. by apply wf_alter, wf_setdefault. Qed.

Lemma gaps_step_wf (st st' : gaps_state) (r : row) :
  gaps_step st r = Some st' →
  Dict.wf (payor_only_by_payor st) ∧ Dict.wf (location_only_by_location st) →
  Dict.wf (payor_only_by_payor st') ∧ Dict.wf (location_only_by_location st').
Proof.
  unfold gaps_step.
  destruct (Row.get_strip r "Location") as [location|]; [|done].
  destruct (Row.get_strip r "Payor") as [payor|]; [|done].
  destruct (Row.get_strip r "Patient") as [patient|]; [|done].
  cbn [mbind option_bind]. intros [= <-] [Hp Hl].
  repeat case_match; simpl; split; auto using wf_group_add.
Qed.

Lemma gaps_loop_wf (data : list row) :
  ∀ st st',
    gaps_loop data st = Some st' →
    Dict.wf (payor_only_by_payor st) ∧ Dict.wf (location_only_by_location st) →
    Dict.wf (payor_only_by_payor st') ∧ Dict.wf (location_only_by_location st').
Proof.
  induction data as [|r data IH]; intros st st'; simpl.
  - by intros [= <-].
  - destruct (gaps_step st r) as [st1|] eqn:Hstep; [|done].
    cbn [mbind option_bind]. intros Hloop Hwf.
    apply (IH _ _ Hloop). by apply (gaps_step_wf st st1 r).
Qed.

End BreakdownFacts.

Lemma split_at_third {A : Type} (a b : list A) (h : A) (m c d : list A) :
  a ++ b ++ (h :: m) ++ c ++ d = (a ++ b ++ [h]) ++ m ++ (c ++ d).
Proof. by rewrite <- !app_assoc. Qed.

Lemma split_at_fourth {A : Type} (a b c : list A) (h : A) (m d : list A) :
  a ++ b ++ c ++ (h :: m) ++ d = (a ++ b ++ c ++ [h]) ++ m ++ d.
Proof. by rewrite <- !app_assoc. Qed.

Lemma split_in_third {A : Type} (a b hs m c : list A) :
  a ++ b ++ (hs ++ m) ++ c = (a ++ b ++ hs) ++ m ++ c.
Proof. by rewrite <- !app_assoc. Qed.

Lemma split_in_fourth {A : Type} (a b c hs m : list A) :
  a ++ b ++ c ++ hs ++ m = (a ++ b ++ c ++ hs) ++ m ++ [].
Proof. by rewrite <- !app_assoc, app_nil_r. Qed.

Section BreakdownOutput.
Import ClientByLocationAndPayer.
Variables (fmt1 : Q → string) (generated : string).

Lemma analyze_data_gaps_output (data : list row) (st : gaps_state)
    (console : list string) :
  analyze_data_gaps fmt1 data = NameError st console →
  gaps_loop data gaps_init = Some st
  ∧ console = printed fmt1 (length data) st.
Proof.
  unfold analyze_data_gaps.
  destruct (gaps_loop data gaps_init) as [st'|]; [|done].
  by intros [= <- <-].
Qed.

Lemma printed_groups (total : nat) (st : gaps_state)
    (groups : Dict.t (gset string)) :
  groups = payor_only_by_payor st ∨ groups = location_only_by_location st →
  groups ≠ [] →
  ∃ before after,
    printed fmt1 total st
    = before ++ (console_group_line <$> console_groups groups) ++ after.
Proof.
  intros [->| ->] Hne; unfold printed.
  - destruct (payor_only_by_payor st) as [|g gs] eqn:Hg; [done|].
    cbv beta iota zeta. eexists _, _. apply split_at_third.
  - destruct (location_only_by_location st) as [|g gs] eqn:Hg; [done|].
    cbv beta iota zeta. eexists _, _. apply split_at_fourth.
Qed.

Lemma written_groups (total : nat) (st : gaps_state)
    (groups : Dict.t (gset string)) :
  groups = payor_only_by_payor st ∨ groups = location_only_by_location st →
  groups ≠ [] →
  ∃ before after,
    written fmt1 generated total st
    = before ++ concat (file_group_lines <$> file_groups groups) ++ after.
Proof.
  intros [->| ->] Hne; unfold written.
  - destruct (payor_only_by_payor st) as [|g gs] eqn:Hg; [done|].
    cbv beta iota zeta. eexists _, _. apply split_in_third.
  - destruct (location_only_by_location st) as [|g gs] eqn:Hg; [done|].
    cbv beta iota zeta. eexists _, _. apply split_in_fourth.
Qed.

End BreakdownOutput.

(** C8, as stated, fails. With one patient each for Medicare and Aetna
    (met in this order) and two for Zenith, the console summary prints
    Zenith, Medicare, Aetna (the tie is not in alphabetical order), and
    the block for the persisted breakdown goes through Aetna, Medicare,
    Zenith (not in descending order of count). The lines shown do not
    involve the number formatter. *)
Lemma breakdown_order_counterexample :
  ∃ st console,
    ClientByLocationAndPayer.analyze_data_gaps (λ _, "0.0") Samples.gap_groups
    = ClientByLocationAndPayer.NameError st console
    ∧ drop 8 console
      = [nl +:+ "Payors with patients missing location data:";
         "  Zenith: 2 patients"; "  Medicare: 1 patients";
         "  Aetna: 1 patients"; Py.repeat_char "=" 70]
    ∧ Dict.map_values size
        (ClientByLocationAndPayer.console_groups
           (ClientByLocationAndPayer.payor_only_by_payor st))
      = [("Zenith", 2); ("Medicare", 1); ("Aetna", 1)]
    ∧ Dict.map_values size
        (ClientByLocationAndPayer.file_groups
           (ClientByLocationAndPayer.payor_only_by_payor st))
      = [("Aetna", 1); ("Medicare", 1); ("Zenith", 2)]
    ∧ ¬ StronglySorted count_desc_name_asc
          [("Zenith", 2); ("Medicare", 1); ("Aetna", 1)]
    ∧ ¬ StronglySorted count_desc_name_asc
          [("Aetna", 1); ("Medicare", 1); ("Zenith", 2)].
Proof.
  eexists _, _. split; [vm_compute; reflexivity|].
  split; [vm_compute; reflexivity|].
  split; [vm_compute; reflexivity|].
  split; [vm_compute; reflexivity|].
  split.
  - intros Hs. apply StronglySorted_inv in Hs as [Hs _].
    apply StronglySorted_inv in Hs as [_ Hs].
    apply Forall_cons in Hs as [[Hlt|[_ Hlt]] _]; simpl in Hlt; [lia|].
    vm_compute in Hlt. discriminate.
  - intros Hs. apply StronglySorted_inv in Hs as [_ Hs].
    apply Forall_cons in Hs as [_ Hs].
    apply Forall_cons in Hs as [[Hlt|[Heq _]] _]; simpl in *; [lia|done].
Qed.

(** C8, amended. In the breakdown view of the completeness analyzer the
    console summary shows at most the first five groups of the A-only
    partition (and likewise of the B-only partition) in descending order
    of distinct-entity count, groups with equal counts staying in the
    order in which the breakdown dictionary holds them; the text of the
    persisted breakdown lists all groups in ascending alphabetical order
    of the grouping value. *)
Theorem breakdown_orders_as_built (fmt1 : Q → string) (data : list row)
    (st : ClientByLocationAndPayer.gaps_state) (console : list string)
    (groups : Dict.t (gset string)) :
  ClientByLocationAndPayer.analyze_data_gaps fmt1 data
  = ClientByLocationAndPayer.NameError st console →
  groups = ClientByLocationAndPayer.payor_only_by_payor st
  ∨ groups = ClientByLocationAndPayer.location_only_by_location st →
  (∃ full,
     ClientByLocationAndPayer.console_groups groups = take 5 full
     ∧ full ≡ₚ Dict.items groups
     ∧ StronglySorted (λ x y, size y.2 ≤ size x.2) full
     ∧ ∀ n, filter (λ x, size x.2 = n) full
            = filter (λ x, size x.2 = n) (Dict.items groups))
  ∧ (groups ≠ [] →
     ∃ before after,
       console
       = before
         ++ (ClientByLocationAndPayer.console_group_line
               <$> ClientByLocationAndPayer.console_groups groups)
         ++ after)
  ∧ ClientByLocationAndPayer.file_groups groups ≡ₚ Dict.items groups
  ∧ StronglySorted (λ x y, str_lt x.1 y.1)
      (ClientByLocationAndPayer.file_groups groups)
  ∧ (groups ≠ [] →
     ∀ generated : string,
     ∃ before after,
       ClientByLocationAndPayer.written fmt1 generated (length data) st
       = before
         ++ concat (ClientByLocationAndPayer.file_group_lines
                      <$> ClientByLocationAndPayer.file_groups groups)
         ++ after).
Proof.
  intros (Hloop & ->)%analyze_data_gaps_output Hgroups.
  assert (Hwf : Dict.wf groups).
  { apply gaps_loop_wf in Hloop as [? ?];
      [by destruct Hgroups as [->| ->]|].
    split; apply DictFacts.wf_nil. }
  split; [apply console_groups_sorted|].
  destruct (file_groups_sorted groups Hwf) as [Hperm Hsorted].
  split_and!; [|done|done|].
  - intros Hne. by apply printed_groups.
  - intros Hne generated. by apply written_groups.
Qed.

Lemma breakdown_orders_as_built_witness :
  match ClientByLocationAndPayer.analyze_data_gaps (λ _, "0.0")
          Samples.gap_groups with
  | ClientByLocationAndPayer.NameError st console =>
      StronglySorted (λ x y, str_lt x.1 y.1)
        (ClientByLocationAndPayer.file_groups
           (ClientByLocationAndPayer.payor_only_by_payor st))
  | ClientByLocationAndPayer.AttributeError => False
  end.
Proof.
  destruct (ClientByLocationAndPayer.analyze_data_gaps (λ _, "0.0")
              Samples.gap_groups) as [|st console] eqn:Hrun;
    [vm_compute in Hrun; discriminate|].
  apply (breakdown_orders_as_built (λ _, "0.0") Samples.gap_groups st console _
           Hrun (or_introl eq_refl)).
Defined.

(** ** What the completeness analyzer does count *)

Section GapsFacts.
Import ClientByLocation.

Lemma get_strip_absent (r : row) (k s : string) :
  Row.get_strip r k = Some s → absent (Row.get r k) = negb (Py.truthy s).
Proof.
  unfold Row.get_strip, Row.get_or_empty, Row.get.
  destruct (r !! k) as [[v|]|]; simpl; [|done|by intros [= <-]].
  intros [= <-]. destruct (Py.strip v); [by rewrite bool_decide_true|].
  by rewrite bool_decide_false.
Qed.

Lemma rows_with_cons (a b : bool) (r : row) (data : list row) :
  rows_with a b (r :: data)
  = (if decide (negb (absent (Row.get r "Location")) = a
                ∧ negb (absent (Row.get r "Payor")) = b)
     then 1 else 0) + rows_with a b data.
Proof. unfold rows_with. rewrite filter_cons. by case_decide. Qed.

Lemma rows_with_nil (a b : bool) : rows_with a b [] = 0.
Proof. done. Qed.

Lemma rows_with_total (data : list row) :
  rows_with true true data + rows_with false true data
  + rows_with true false data + rows_with false false data = length data.
Proof.
  induction data as [|r data IH]; [done|].
  rewrite !rows_with_cons. simpl length.
  destruct (absent (Row.get r "Location")), (absent (Row.get r "Payor"));
    simpl; repeat case_decide; try lia;
    repeat match goal with H : ¬ (_ ∧ _) |- _ => destruct H; done end;
    repeat match goal with H : _ ∧ _ |- _ => destruct H end; done.
Qed.

Lemma size_add_le (s : gset string) (p : string) : size (s ∪ {[p]}) ≤ S (size s).
Proof.
  rewrite size_union_alt.
  assert (size ({[p]} ∖ s : gset string) ≤ 1); [|lia].
  rewrite <- (size_singleton (C := gset string) p).
  apply subseteq_size, subseteq_difference_l. done.
Qed.

Lemma gaps_step_counts (st st' : gaps_state) (r : row) :
  gaps_step st r = Some st' →
  has_both st' = has_both st + rows_with true true [r]
  ∧ has_neither st' = has_neither st + rows_with false false [r]
  ∧ size (has_payor_no_location st')
    ≤ size (has_payor_no_location st) + rows_with false true [r]
  ∧ size (has_location_no_payor st')
    ≤ size (has_location_no_payor st) + rows_with true false [r].
Proof.
  unfold gaps_step. rewrite !rows_with_cons.
  destruct (Row.get_strip r "Location") as [location|] eqn:Hl; [|done].
  destruct (Row.get_strip r "Payor") as [payor|] eqn:Hy; [|done].
  destruct (Row.get_strip r "Patient") as [patient|]; [|done].
  cbn [mbind option_bind].
  rewrite (get_strip_absent _ _ _ Hl), (get_strip_absent _ _ _ Hy), !negb_involutive.
  intros [= <-].
  pose proof (size_add_le (has_payor_no_location st) patient).
  pose proof (size_add_le (has_location_no_payor st) patient).
  destruct (Py.truthy location), (Py.truthy payor), (Py.truthy patient);
    simpl; repeat case_decide; rewrite !rows_with_nil; simpl; try lia;
    repeat match goal with H : ¬ (_ ∧ _) |- _ => destruct H; done end;
    repeat match goal with H : _ ∧ _ |- _ => destruct H end; done.
Qed.

Lemma gaps_loop_counts (data : list row) :
  ∀ st st',
    gaps_loop data st = Some st' →
    has_both st' = has_both st + rows_with true true data
    ∧ has_neither st' = has_neither st + rows_with false false data
    ∧ size (has_payor_no_location st')
      ≤ size (has_payor_no_location st) + rows_with false true data
    ∧ size (has_location_no_payor st')
      ≤ size (has_location_no_payor st) + rows_with true false data.
Proof.
  induction data as [|r data IH]; intros st st'; simpl.
  - intros [= <-]. rewrite !rows_with_nil. lia.
  - destruct (gaps_step st r) as [st1|] eqn:Hstep; [|done].
    cbn [mbind option_bind]. intros Hloop.
    apply gaps_step_counts in Hstep. apply IH in Hloop.
    rewrite !(rows_with_cons _ _ r data).
    rewrite !rows_with_cons, !rows_with_nil in Hstep. lia.
Qed.

End GapsFacts.

(** X1. The both-present and neither counts of the completeness analyzer are
    row counts of their classes; the two partial counts are at most the
    row counts of theirs, so the four reported counts never exceed the
    number of records. *)
Theorem completeness_counts_bound_rows (data : list row)
    (summary : ClientByLocation.gaps_summary) :
  ClientByLocation.analyze_data_gaps data = Some summary →
  ClientByLocation.total_records summary = length data
  ∧ ClientByLocation.has_both_count summary = rows_with true true data
  ∧ ClientByLocation.has_neither_count summary = rows_with false false data
  ∧ ClientByLocation.payor_no_location summary ≤ rows_with false true data
  ∧ ClientByLocation.location_no_payor summary ≤ rows_with true false data
  ∧ rows_with true true data + rows_with false true data
    + rows_with true false data + rows_with false false data = length data
  ∧ ClientByLocation.has_both_count summary
    + ClientByLocation.payor_no_location summary
    + ClientByLocation.location_no_payor summary
    + ClientByLocation.has_neither_count summary
    ≤ ClientByLocation.total_records summary.
Proof.
  unfold ClientByLocation.analyze_data_gaps.
  destruct (ClientByLocation.gaps_loop data ClientByLocation.gaps_init)
    as [st|] eqn:Hloop; [|done].
  cbn [mbind option_bind]. intros [= <-].
  apply gaps_loop_counts in Hloop as (Hb & Hn & Hp & Hl).
  pose proof (rows_with_total data) as Htotal.
  change (size (ClientByLocation.has_payor_no_location ClientByLocation.gaps_init))
    with (size (∅ : gset string)) in Hp.
  change (size (ClientByLocation.has_location_no_payor ClientByLocation.gaps_init))
    with (size (∅ : gset string)) in Hl.
  rewrite size_empty in Hp, Hl. simpl in *. lia.
Qed.

Lemma completeness_counts_bound_rows_witness :
  match ClientByLocation.analyze_data_gaps Samples.payor_only_rows with
  | Some summary =>
      ClientByLocation.payor_no_location summary
      ≤ rows_with false true Samples.payor_only_rows
  | None => False
  end.
Proof.
  destruct (ClientByLocation.analyze_data_gaps Samples.payor_only_rows)
    as [summary|] eqn:Hrun; [|vm_compute in Hrun; discriminate].
  apply (completeness_counts_bound_rows _ _ Hrun).
Defined.

(** ** Order of the rows *)

Lemma count_distinct_perm (l l' : list string) :
  l ≡ₚ l' → count_distinct l = count_distinct l'.
Proof.
  intros Hperm. unfold count_distinct.
  destruct l as [|p l], l' as [|p' l'];
    [done|by apply Permutation_nil_cons in Hperm
     |symmetry in Hperm; by apply Permutation_nil_cons in Hperm|].
  f_equal. rewrite <- !size_list_to_set_distinct. by rewrite Hperm.
Qed.

(** X2. The counts of the grouping aggregator do not depend on the order
    of the rows. *)
Theorem grouping_ignores_row_order (data data' : list row) :
  data ≡ₚ data' →
  (∀ field key,
     Dict.get key (process_client_by field data)
     = Dict.get key (process_client_by field data'))
  ∧ (∀ location payor,
       size <$> lookup2 (process_client_by_location_and_payer data) location payor
       = size <$> lookup2 (process_client_by_location_and_payer data') location payor).
Proof.
  intros Hperm. split.
  - intros field key. rewrite !process_client_by_get.
    apply count_distinct_perm. unfold observed. by rewrite Hperm.
  - intros location payor. rewrite !process2_lookup.
    apply count_distinct_perm. unfold observed2. by rewrite Hperm.
Qed.

Lemma grouping_ignores_row_order_witness :
  Dict.get "OKC" (process_client_by "Location" Samples.duplicates)
  = Dict.get "OKC" (process_client_by "Location" (reverse Samples.duplicates)).
Proof.
  apply (grouping_ignores_row_order Samples.duplicates (reverse Samples.duplicates)).
  symmetry. apply reverse_Permutation.
Defined.

(** ** Listings of the telemedicine service report *)

Section TelemedSortFacts.
Import DictFacts TelemedSort.

Lemma telemed_step_wf (st st' : telemed_state) (r : row) :
  telemed_step st r = Some st' →
  Dict.wf (patient_details st) ∧ Dict.wf (location_summary st)
  ∧ Dict.wf (payor_summary st) →
  Dict.wf (patient_details st') ∧ Dict.wf (location_summary st')
  ∧ Dict.wf (payor_summary st').
Proof.
  unfold telemed_step.
  destruct (Row.get_or_empty r "Service") as [service|]; [|done].
  cbn [mbind option_bind]. intros [= <-] (Hd & Hl & Hp).
  destruct (Py.contains "telemedicine" (Py.lower service)); [|done].
  cbn [patient_details location_summary payor_summary].
  unfold bump.
  split_and!; repeat case_match;
    auto 7 using wf_alter, wf_setdefault, wf_set.
Qed.

Lemma telemed_loop_wf (data : list row) :
  ∀ st st',
    telemed_loop data st = Some st' →
    Dict.wf (patient_details st) ∧ Dict.wf (location_summary st)
    ∧ Dict.wf (payor_summary st) →
    Dict.wf (patient_details st') ∧ Dict.wf (location_summary st')
    ∧ Dict.wf (payor_summary st').
Proof.
  induction data as [|r data IH]; intros st st'; simpl.
  - by intros [= <-].
  - destruct (telemed_step st r) as [st1|] eqn:Hstep; [|done].
    cbn [mbind option_bind]. intros Hloop Hwf.
    apply (IH _ _ Hloop). by apply (telemed_step_wf st st1 r).
Qed.

End TelemedSortFacts.

(** X3. The three listings of the telemedicine service report (by location,
    by payor, by patient) are in descending order of count, and entries
    with equal counts are in ascending alphabetical order of their
    name. *)
Theorem service_listings_break_ties_by_name (data : list row)
    (st : TelemedSort.telemed_state) :
  TelemedSort.process_telemedicine_data data = Some st →
  StronglySorted count_desc_name_asc
    (TelemedSort.by_count_then_name id (TelemedSort.location_summary st))
  ∧ StronglySorted count_desc_name_asc
      (TelemedSort.by_count_then_name id (TelemedSort.payor_summary st))
  ∧ StronglySorted
      (λ x y, TelemedSort.count y.2 < TelemedSort.count x.2
              ∨ (TelemedSort.count x.2 = TelemedSort.count y.2
                 ∧ str_lt x.1 y.1))
      (TelemedSort.by_count_then_name TelemedSort.count
         (TelemedSort.patient_details st)).
Proof.
  intros Hrun. apply telemed_loop_wf in Hrun as (Hd & Hl & Hp);
    [|split_and!; apply DictFacts.wf_nil].
  split_and!.
  - apply (sorted_by_count nat id _ Hl).
  - apply (sorted_by_count nat id _ Hp).
  - apply (sorted_by_count _ TelemedSort.count _ Hd).
Qed.

Lemma service_listings_break_ties_by_name_witness :
  match TelemedSort.process_telemedicine_data Samples.long_payors with
  | Some st =>
      StronglySorted count_desc_name_asc
        (TelemedSort.by_count_then_name id (TelemedSort.payor_summary st))
  | None => False
  end.
Proof.
  destruct (TelemedSort.process_telemedicine_data Samples.long_payors)
    as [st|] eqn:Hrun; [|vm_compute in Hrun; discriminate].
  apply (service_listings_break_ties_by_name _ _ Hrun).
Defined.

(** * Further properties *)

(** ** Strings *)

Section StringFacts.

Lemma string_app_cons (c : ascii) (a b : string) :
  String c a +:+ b = String c (a +:+ b).
Proof. reflexivity. Qed.

Lemma string_app_nil_r (s : string) : s +:+ "" = s.
Proof.
  induction s as [|c s IH]; [done|]. by rewrite string_app_cons, IH.
Qed.

Lemma string_app_assoc (a b c : string) : (a +:+ b) +:+ c = a +:+ (b +:+ c).
Proof.
  induction a as [|x a IH]; [done|]. by rewrite !string_app_cons, IH.
Qed.

Lemma string_app_length (a b : string) :
  String.length (a +:+ b) = String.length a + String.length b.
Proof.
  induction a as [|x a IH]; [done|].
  rewrite string_app_cons. simpl. by rewrite IH.
Qed.

Lemma repeat_char_length (c : ascii) (n : nat) :
  String.length (Py.repeat_char c n) = n.
Proof. induction n as [|n IH]; [done|]. simpl. by rewrite IH. Qed.

Lemma take_length (n : nat) (s : string) :
  Py.len (Py.take n s) = n `min` Py.len s.
Proof.
  unfold Py.take, Py.len. revert s.
  induction n as [|n IH]; intros [|c s]; simpl; try done.
  by rewrite IH.
Qed.

Lemma ljust_length (w : nat) (s : string) :
  Py.len (Py.ljust w s) = w `max` Py.len s.
Proof.
  unfold Py.ljust, Py.len. rewrite string_app_length, repeat_char_length.
  unfold Py.len. lia.
Qed.

Lemma rjust_length (w : nat) (s : string) :
  Py.len (Py.rjust w s) = w `max` Py.len s.
Proof.
  unfold Py.rjust, Py.len. rewrite string_app_length, repeat_char_length.
  unfold Py.len. lia.
Qed.

Lemma rev_app_spec (s a : string) : String.rev_app s a = String.rev s +:+ a.
Proof.
  revert a. induction s as [|c s IH]; intros a; [done|].
  unfold String.rev. simpl. rewrite (IH (String c a)), (IH (String c "")).
  by rewrite string_app_assoc.
Qed.

Lemma rev_cons (c : ascii) (s : string) :
  String.rev (String c s) = String.rev s +:+ String c "".
Proof. unfold String.rev at 1. simpl. apply rev_app_spec. Qed.

Lemma rev_app_cons (v : string) (c : ascii) :
  String.rev (v +:+ String c "") = String c (String.rev v).
Proof.
  induction v as [|x v IH]; [done|].
  change (String x v +:+ String c "") with (String x (v +:+ String c "")).
  by rewrite !rev_cons, IH.
Qed.

Lemma rev_involutive (s : string) : String.rev (String.rev s) = s.
Proof.
  induction s as [|c s IH]; [done|]. by rewrite rev_cons, rev_app_cons, IH.
Qed.

(** A string that does not begin with white space. *)
Lemma lstrip_fixed (s : string) :
  match s with String c _ => Py.isspace c = false | EmptyString => True end →
  Py.lstrip s = s.
Proof. destruct s as [|c s]; [done|]. simpl. by intros ->. Qed.

Lemma lstrip_head (s : string) :
  match Py.lstrip s with
  | String c _ => Py.isspace c = false
  | EmptyString => True
  end.
Proof.
  induction s as [|c s IH]; [done|]. simpl.
  destruct (Py.isspace c) eqn:Hc; [done|]. done.
Qed.

Lemma lstrip_snoc (u : string) (c : ascii) :
  Py.isspace c = false →
  ∃ v, Py.lstrip (u +:+ String c "") = v +:+ String c "".
Proof.
  intros Hc. induction u as [|x u IH]; simpl.
  - rewrite Hc. by exists "".
  - destruct (Py.isspace x); [done|]. by exists (String x u).
Qed.

Lemma rstrip_head (s : string) :
  match s with String c _ => Py.isspace c = false | EmptyString => True end →
  match Py.rstrip s with
  | String c _ => Py.isspace c = false
  | EmptyString => True
  end.
Proof.
  destruct s as [|c s]; [done|]. intros Hc. unfold Py.rstrip.
  rewrite rev_cons. destruct (lstrip_snoc (String.rev s) c Hc) as [v ->].
  by rewrite rev_app_cons.
Qed.

Lemma strip_idempotent (s : string) : Py.strip (Py.strip s) = Py.strip s.
Proof.
  unfold Py.strip.
  rewrite (lstrip_fixed (Py.rstrip (Py.lstrip s)))
    by apply rstrip_head, lstrip_head.
  unfold Py.rstrip at 1 2. rewrite rev_involutive.
  by rewrite (lstrip_fixed _ (lstrip_head _)).
Qed.

Lemma normalize_trimmed (v : option string) (s : string) :
  normalize v = Some s → Py.strip s = s ∧ s ≠ "".
Proof.
  destruct v as [raw|]; [|done]. unfold normalize.
  destruct (Py.truthy (Py.strip raw)) eqn:Ht; [|done].
  intros [= <-]. split; [apply strip_idempotent|].
  by destruct (Py.strip raw).
Qed.

End StringFacts.

(** ** Totals of the one-dimension report *)

Lemma sorted_items_perm (location_count : Dict.t nat) (sort_by : string) :
  ClientByLocation.sorted_items location_count sort_by ≡ₚ Dict.items location_count.
Proof.
  unfold ClientByLocation.sorted_items.
  destruct (String.eqb sort_by "count"); apply py_sorted_perm.
Qed.

(** X4. [generate_report] in every sort mode: the listing holds the
    entries of the dictionary, each once; the TOTAL row of the csv file and
    the TOTAL line of the text file carry the sum of all the counts of the
    dictionary; the text file has ten lines around the listing and the csv
    file two rows. An empty dictionary gives the one sentence and no
    file. *)
Theorem report_total_sums_all_counts :
  (∀ (field FIELD generated : string) (title : string → string)
     (location_count : Dict.t nat) (sort_by : string),
     location_count ≠ [] →
     let r := ClientByLocation.generate_report field FIELD generated title
                location_count sort_by in
     let listing := ClientByLocation.sorted_items location_count sort_by in
     listing ≡ₚ Dict.items location_count
     ∧ csv_file r
       = [[CStr field; CStr "Unique_Patients"]]
         ++ ((λ x, [CStr x.1; CInt x.2]) <$> listing)
         ++ [[CStr "TOTAL"; CInt (sum_list (Dict.values location_count))]]
     ∧ last (txt_file r) = Some (Py.repeat_char "=" 50)
     ∧ txt_file r !! (length location_count + 8)
       = Some (Py.ljust 30 "TOTAL" +:+ " "
               +:+ Py.rjust 15 (str_of_nat (sum_list (Dict.values location_count))))
     ∧ length (txt_file r) = length location_count + 10
     ∧ length (csv_file r) = length location_count + 2)
  ∧ (∀ (field FIELD generated : string) (title : string → string)
       (sort_by : string),
       ClientByLocation.generate_report field FIELD generated title [] sort_by
       = Report "No client data found." [] []).
Proof.
  split; [|done].
  intros field FIELD generated title location_count sort_by Hne r listing.
  pose proof (sorted_items_perm location_count sort_by) as Hperm.
  fold listing in Hperm.
  assert (Hsum : sum_list listing.*2 = sum_list (Dict.values location_count)).
  { unfold Dict.values. by rewrite Hperm. }
  assert (Hlen : length listing = length location_count) by by rewrite Hperm.
  subst r. rewrite generate_report_nonempty by done.
  fold listing. rewrite Hsum. cbn [csv_file txt_file].
  split; [done|]. split; [done|].
  split.
  { rewrite !last_app. by cbn. }
  split.
  { rewrite lookup_app_r by (cbn; lia).
    rewrite lookup_app_r by (cbn; rewrite length_fmap; lia).
    cbn [length]. rewrite length_fmap, Hlen.
    replace (length location_count + 8 - 7 - length location_count) with 1 by lia.
    done. }
  rewrite !length_app, !length_fmap, Hlen. cbn. lia.
Qed.

Lemma report_total_sums_all_counts_witness :
  csv_file (ClientByLocation.generate_report "Location" "LOCATION"
              "2025-01-01 00:00:00" id Samples.counts "count")
  = [[CStr "Location"; CStr "Unique_Patients"];
     [CStr "Tulsa"; CInt 5]; [CStr "Ardmore"; CInt 2]; [CStr "OKC"; CInt 2];
     [CStr "TOTAL"; CInt 9]].
Proof.
  destruct report_total_sums_all_counts as [H _].
  destruct (H "Location" "LOCATION" "2025-01-01 00:00:00" id Samples.counts
              "count" ltac:(done)) as (_ & -> & _).
  reflexivity.
Defined.

(** ** What the grouping aggregator returns *)

Section GroupingResult.

Lemma elem_of_observed (field key p : string) (data : list row) :
  p ∈ observed field key data
  ↔ ∃ r, r ∈ data ∧ normalize (Row.get r field) = Some key
         ∧ normalize (Row.get r "Patient") = Some p.
Proof.
  unfold observed. rewrite list_elem_of_omap. split.
  - intros (r & Hr & Hm). exists r. split; [done|]. cbv beta in Hm. revert Hm.
    destruct (normalize (Row.get r field)) as [k|]; [|done].
    destruct (normalize (Row.get r "Patient")) as [q|]; [|done].
    destruct (decide (k = key)) as [->|]; [|done]. by intros [= ->].
  - intros (r & Hr & Hk & Hp). exists r. split; [done|]. cbv beta. rewrite Hk, Hp.
    by rewrite decide_True.
Qed.

Lemma length_omap_le {A B : Type} (f : A → option B) (l : list A) :
  length (omap f l) ≤ length l.
Proof.
  induction l as [|x l IH]; [done|]. cbn [omap list_omap].
  destruct (f x); cbn [length]; lia.
Qed.

Lemma length_remove_dups_le (l : list string) :
  length (remove_dups l) ≤ length l.
Proof.
  induction l as [|x l IH]; [done|]. cbn [remove_dups].
  destruct (decide_rel _ _ _); cbn [length]; lia.
Qed.

Lemma values_map_values {V W : Type} (f : V → W) (d : Dict.t V) :
  Dict.values (Dict.map_values f d) = f <$> Dict.values d.
Proof.
  unfold Dict.values, Dict.map_values. rewrite <- !list_fmap_compose.
  by apply list_fmap_ext; intros i [k v].
Qed.

Lemma set_new {V : Type} (k : string) (v : V) (d : Dict.t V) :
  Dict.mem k d = false → Dict.set k v d = d ++ [(k, v)].
Proof.
  unfold Dict.mem. induction d as [|[k' v'] d IH]; [done|].
  cbn [Dict.get Dict.set]. destruct (decide (k = k')); [done|].
  intros H. by rewrite (IH H).
Qed.

Lemma alter_new {V : Type} (f : V → V) (k : string) (v : V) (d : Dict.t V) :
  Dict.mem k d = false → Dict.alter f k (d ++ [(k, v)]) = d ++ [(k, f v)].
Proof.
  unfold Dict.mem. induction d as [|[k' v'] d IH].
  - intros _. cbn. by rewrite decide_True.
  - cbn [Dict.get]. rewrite <- !app_comm_cons. cbn [Dict.alter].
    destruct (decide (k = k')); [done|]. intros H. by rewrite (IH H).
Qed.

(** The two shapes of the dictionary after a member is filed. *)
Lemma group_add_shape (k p : string) (d : Dict.t (gset string)) :
  group_add k p d
  = if Dict.mem k d then Dict.alter (λ s, s ∪ {[p]}) k d else d ++ [(k, {[p]})].
Proof.
  unfold group_add, Dict.setdefault.
  destruct (Dict.mem k d) eqn:Hm; [done|].
  rewrite set_new, alter_new by done. by rewrite (left_id_L ∅ (∪)).
Qed.

Lemma sum_sizes_alter (f : gset string → gset string) (k : string)
    (d : Dict.t (gset string)) :
  (∀ s, size (f s) ≤ S (size s)) →
  sum_list (size <$> Dict.values (Dict.alter f k d))
  ≤ S (sum_list (size <$> Dict.values d)).
Proof.
  intros Hf. unfold Dict.values.
  induction d as [|[k' v'] d IH]; [cbn; lia|].
  cbn [Dict.alter]. destruct (decide (k = k')).
  - rewrite !fmap_cons. cbn [sum_list_with snd]. unfold id.
    specialize (Hf v'). lia.
  - rewrite !fmap_cons. cbn [sum_list_with snd]. unfold id in *. lia.
Qed.

Lemma sum_sizes_group_add (k p : string) (d : Dict.t (gset string)) :
  sum_list (size <$> Dict.values (group_add k p d))
  ≤ S (sum_list (size <$> Dict.values d)).
Proof.
  rewrite group_add_shape. destruct (Dict.mem k d).
  - apply sum_sizes_alter. intros s. apply size_add_le.
  - unfold Dict.values. rewrite !fmap_app, sum_list_with_app.
    cbn. rewrite size_singleton. lia.
Qed.

Lemma sum_sizes_group_fold (field : string) (data : list row) :
  ∀ acc : Dict.t (gset string),
    sum_list (size <$> Dict.values (fold_left (group_step field) data acc))
    ≤ sum_list (size <$> Dict.values acc) + length data.
Proof.
  induction data as [|r data IH]; intros acc; [cbn [fold_left length]; lia|].
  cbn [fold_left length]. etrans; [apply IH|].
  rewrite group_step_spec.
  destruct (normalize (Row.get r field)) as [k|]; [|lia].
  destruct (normalize (Row.get r "Patient")) as [p|]; [|lia].
  pose proof (sum_sizes_group_add k p acc). lia.
Qed.

Lemma group_step_wf (field : string) (acc : Dict.t (gset string)) (r : row) :
  Dict.wf acc → Dict.wf (group_step field acc r).
Proof.
  intros Hwf. rewrite group_step_spec.
  destruct (normalize (Row.get r field)) as [k|]; [|done].
  destruct (normalize (Row.get r "Patient")) as [p|]; [|done].
  by apply wf_group_add.
Qed.

Lemma group_patients_wf (field : string) (data : list row) :
  Dict.wf (group_patients field data).
Proof.
  unfold group_patients. generalize (DictFacts.wf_nil (V := gset string)).
  generalize ([] : Dict.t (gset string)).
  induction data as [|r data IH]; intros acc Hwf; [done|].
  cbn [fold_left]. by apply IH, group_step_wf.
Qed.

End GroupingResult.

(** X5. The result of [process_client_by_location] and
    [process_client_by_payor]: the keys are distinct; a key is present
    exactly when some row carries it, trimmed, together with a patient; every
    key is trimmed and not empty; every count is at least one and at most the
    number of rows; the counts add up to at most the number of rows. *)
Theorem grouping_result_keys_and_counts (field : string) (data : list row) :
  let result := process_client_by field data in
  Dict.wf result
  ∧ (∀ k, is_Some (Dict.get k result)
          ↔ ∃ r, r ∈ data ∧ normalize (Row.get r field) = Some k
                 ∧ is_Some (normalize (Row.get r "Patient")))
  ∧ (∀ k n, Dict.get k result = Some n →
       Py.strip k = k ∧ k ≠ "" ∧ 1 ≤ n ∧ n ≤ length data)
  ∧ sum_list (Dict.values result) ≤ length data.
Proof.
  intros result. subst result.
  assert (Hkey : ∀ k, is_Some (Dict.get k (process_client_by field data))
            ↔ ∃ r, r ∈ data ∧ normalize (Row.get r field) = Some k
                   ∧ is_Some (normalize (Row.get r "Patient"))).
  { intros k. rewrite process_client_by_get. unfold count_distinct. split.
    - destruct (observed field k data) as [|p l] eqn:Hobs; [by intros [? ?]|].
      intros _. assert (Hp : p ∈ observed field k data) by (rewrite Hobs; left).
      apply elem_of_observed in Hp as (r & Hr & Hk & Hp). eauto.
    - intros (r & Hr & Hk & [p Hp]).
      assert (Hin : p ∈ observed field k data)
        by (apply elem_of_observed; eauto).
      destruct (observed field k data); [by apply elem_of_nil in Hin|done]. }
  split; [|split; [done|split]].
  - unfold process_client_by, Dict.wf. rewrite DictFacts.keys_map_values.
    apply group_patients_wf.
  - intros k n Hn.
    destruct (proj1 (Hkey k) (mk_is_Some _ _ Hn)) as (r & Hr & Hk & _).
    destruct (normalize_trimmed _ _ Hk) as [Hs Hne].
    split; [done|]. split; [done|].
    rewrite process_client_by_get in Hn. unfold count_distinct in Hn.
    destruct (observed field k data) as [|p l] eqn:Hobs; [done|].
    assert (Hpos : 1 ≤ length (remove_dups (p :: l))).
    { assert (Hp : p ∈ remove_dups (p :: l))
        by (apply elem_of_remove_dups; left).
      destruct (remove_dups (p :: l)); [by apply elem_of_nil in Hp|cbn; lia]. }
    pose proof (length_remove_dups_le (p :: l)) as Hle.
    injection Hn as <-. split; [exact Hpos|]. etrans; [exact Hle|].
    rewrite <- Hobs. apply length_omap_le.
  - unfold process_client_by. rewrite values_map_values.
    etrans; [apply sum_sizes_group_fold|]. cbn. lia.
Qed.

(** ** What the two-dimension aggregator returns *)

Section NestedResult.

Lemma elem_of_observed2 (location payor p : string) (data : list row) :
  p ∈ observed2 location payor data
  ↔ ∃ r, r ∈ data ∧ normalize (Row.get r "Location") = Some location
         ∧ normalize (Row.get r "Payor") = Some payor
         ∧ normalize (Row.get r "Patient") = Some p.
Proof.
  unfold observed2. rewrite list_elem_of_omap. split.
  - intros (r & Hr & Hm). exists r. split; [done|]. cbv beta in Hm. revert Hm.
    destruct (normalize (Row.get r "Location")) as [l|]; [|done].
    destruct (normalize (Row.get r "Payor")) as [y|]; [|done].
    destruct (normalize (Row.get r "Patient")) as [q|]; [|done].
    destruct (decide _) as [[-> ->]|]; [|done]. by intros [= ->].
  - intros (r & Hr & Hl & Hy & Hp). exists r. split; [done|]. cbv beta.
    rewrite Hl, Hy, Hp. by rewrite decide_True.
Qed.

Lemma Forall_alter {V : Type} (P : string * V → Prop) (f : V → V) (k : string)
    (d : Dict.t V) :
  (∀ v, P (k, v) → P (k, f v)) → Forall P d → Forall P (Dict.alter f k d).
Proof.
  intros Hf. induction 1 as [|[k' v'] d Hx Hd IH]; [constructor|].
  cbn [Dict.alter]. destruct (decide (k = k')) as [<-|]; constructor; auto.
Qed.

Lemma Forall_alter_setdefault {V : Type} (P : string * V → Prop) (f : V → V)
    (k : string) (v0 : V) (d : Dict.t V) :
  P (k, f v0) → (∀ v, P (k, v) → P (k, f v)) → Forall P d →
  Forall P (Dict.alter f k (Dict.setdefault k v0 d)).
Proof.
  intros H0 Hf Hd. unfold Dict.setdefault.
  destruct (Dict.mem k d) eqn:Hm; [by apply Forall_alter|].
  rewrite set_new, alter_new by done. apply Forall_app. split; [done|].
  by constructor.
Qed.

Lemma sum_measure_alter {V : Type} (m : V → nat) (f : V → V) (k : string)
    (d : Dict.t V) :
  (∀ v, m (f v) ≤ S (m v)) →
  sum_list (m <$> Dict.values (Dict.alter f k d))
  ≤ S (sum_list (m <$> Dict.values d)).
Proof.
  intros Hf. unfold Dict.values.
  induction d as [|[k' v'] d IH]; [cbn; lia|].
  cbn [Dict.alter]. destruct (decide (k = k')).
  - rewrite !fmap_cons. cbn [sum_list_with snd]. unfold id.
    specialize (Hf v'). lia.
  - rewrite !fmap_cons. cbn [sum_list_with snd]. unfold id in *. lia.
Qed.

Lemma sum_measure_alter_setdefault {V : Type} (m : V → nat) (f : V → V)
    (k : string) (v0 : V) (d : Dict.t V) :
  m v0 = 0 → (∀ v, m (f v) ≤ S (m v)) →
  sum_list (m <$> Dict.values (Dict.alter f k (Dict.setdefault k v0 d)))
  ≤ S (sum_list (m <$> Dict.values d)).
Proof.
  intros H0 Hf. unfold Dict.setdefault.
  destruct (Dict.mem k d) eqn:Hm; [by apply sum_measure_alter|].
  rewrite set_new, alter_new by done.
  unfold Dict.values. rewrite !fmap_app, sum_list_with_app.
  cbn. specialize (Hf v0). lia.
Qed.

Lemma group_add_nonempty (k p : string) (d : Dict.t (gset string)) :
  group_add k p d ≠ [].
Proof.
  rewrite group_add_shape. destruct (Dict.mem k d) eqn:Hm.
  - destruct d as [|[k' v'] d]; [done|]. cbn [Dict.alter].
    by destruct (decide (k = k')).
  - by destruct d.
Qed.

(** The invariant of the loop of the two-dimension aggregator. *)
Lemma group2_step_inv (acc : Dict.t (Dict.t (gset string))) (r : row) :
  Dict.wf acc
  ∧ Forall (λ x, Dict.wf x.2 ∧ x.2 ≠ [] ∧ Py.strip x.1 = x.1 ∧ x.1 ≠ "") acc →
  Dict.wf (group2_step acc r)
  ∧ Forall (λ x, Dict.wf x.2 ∧ x.2 ≠ [] ∧ Py.strip x.1 = x.1 ∧ x.1 ≠ "")
      (group2_step acc r).
Proof.
  intros [Hwf Hall]. rewrite group2_step_spec.
  destruct (normalize (Row.get r "Location")) as [l|] eqn:Hl; [|done].
  destruct (normalize (Row.get r "Payor")) as [y|]; [|done].
  destruct (normalize (Row.get r "Patient")) as [p|]; [|done].
  destruct (normalize_trimmed _ _ Hl) as [Hs Hne].
  split; [by apply DictFacts.wf_alter, DictFacts.wf_setdefault|].
  apply Forall_alter_setdefault; [| |done]; cbn [fst snd].
  - split; [apply wf_group_add, DictFacts.wf_nil|].
    split; [apply group_add_nonempty|done].
  - intros v (Hv & _ & _). split; [by apply wf_group_add|].
    split; [apply group_add_nonempty|done].
Qed.

Lemma process2_inv (data : list row) :
  Dict.wf (process_client_by_location_and_payer data)
  ∧ Forall (λ x, Dict.wf x.2 ∧ x.2 ≠ [] ∧ Py.strip x.1 = x.1 ∧ x.1 ≠ "")
      (process_client_by_location_and_payer data).
Proof.
  unfold process_client_by_location_and_payer.
  assert (H0 : Dict.wf ([] : Dict.t (Dict.t (gset string)))
               ∧ Forall (λ x : string * Dict.t (gset string),
                           Dict.wf x.2 ∧ x.2 ≠ [] ∧ Py.strip x.1 = x.1 ∧ x.1 ≠ "")
                   []) by (split; [apply DictFacts.wf_nil|constructor]).
  revert H0. generalize ([] : Dict.t (Dict.t (gset string))).
  induction data as [|r data IH]; intros acc Hacc; [done|].
  cbn [fold_left]. by apply IH, group2_step_inv.
Qed.

Lemma sum_cells_fold (data : list row) :
  ∀ acc : Dict.t (Dict.t (gset string)),
    sum_list (Hierarchical.payors_total <$> Dict.values (fold_left group2_step data acc))
    ≤ sum_list (Hierarchical.payors_total <$> Dict.values acc) + length data.
Proof.
  induction data as [|r data IH]; intros acc; [cbn [fold_left length]; lia|].
  cbn [fold_left length]. etrans; [apply IH|].
  rewrite group2_step_spec.
  destruct (normalize (Row.get r "Location")) as [l|]; [|lia].
  destruct (normalize (Row.get r "Payor")) as [y|]; [|lia].
  destruct (normalize (Row.get r "Patient")) as [p|]; [|lia].
  pose proof (sum_measure_alter_setdefault Hierarchical.payors_total
                (group_add y p) l [] acc eq_refl) as H.
  unfold Hierarchical.payors_total at 1 2 in H.
  specialize (H (sum_sizes_group_add y p)).
  etrans; [apply Nat.add_le_mono_r; exact H|lia].
Qed.

End NestedResult.

(** X6. The result of [process_client_by_location_and_payer]: the
    locations are distinct, and so are the payors under one location; every
    location has at least one payor, every payor at least one patient; the
    names of locations, payors and patients are trimmed and not empty; a
    patient is filed under a location and payor exactly when some row carries
    the three values; the sizes of all the sets add up to at most the number
    of rows. *)
Theorem nested_grouping_result (data : list row) :
  let d := process_client_by_location_and_payer data in
  Dict.wf d
  ∧ (∀ location payors, Dict.get location d = Some payors →
       Dict.wf payors ∧ payors ≠ []
       ∧ Py.strip location = location ∧ location ≠ "")
  ∧ (∀ location payor patients, lookup2 d location payor = Some patients →
       Py.strip payor = payor ∧ payor ≠ "" ∧ patients ≠ ∅)
  ∧ (∀ location payor p,
       p ∈ default ∅ (lookup2 d location payor)
       ↔ ∃ r, r ∈ data ∧ normalize (Row.get r "Location") = Some location
              ∧ normalize (Row.get r "Payor") = Some payor
              ∧ normalize (Row.get r "Patient") = Some p)
  ∧ (∀ location payor p,
       p ∈ default ∅ (lookup2 d location payor) → Py.strip p = p ∧ p ≠ "")
  ∧ sum_list (Hierarchical.payors_total <$> Dict.values d) ≤ length data.
Proof.
  intros d. subst d. destruct (process2_inv data) as [Hwf Hall].
  assert (Hmem : ∀ location payor p,
            p ∈ default ∅ (lookup2 (process_client_by_location_and_payer data)
                             location payor)
            ↔ p ∈ observed2 location payor data).
  { intros location payor p. unfold process_client_by_location_and_payer.
    rewrite lookup2_fold. change (lookup2 [] location payor) with (@None (gset string)).
    rewrite merged_None. destruct (observed2 location payor data) as [|q l].
    - cbn. split; [by intros ?%elem_of_empty|by intros ?%elem_of_nil].
    - cbn [default]. apply elem_of_list_to_set. }
  split; [done|]. split; [|split; [|split; [|split]]].
  - intros location payors Hget. apply DictFacts.get_items in Hget.
    by apply (proj1 (Forall_forall _ _) Hall) in Hget.
  - intros location payor patients Hlk.
    unfold process_client_by_location_and_payer in Hlk.
    rewrite lookup2_fold in Hlk.
    change (lookup2 [] location payor) with (@None (gset string)) in Hlk.
    rewrite merged_None in Hlk.
    destruct (observed2 location payor data) as [|q l] eqn:Hobs; [done|].
    injection Hlk as <-.
    assert (Hq : q ∈ observed2 location payor data) by (rewrite Hobs; left).
    apply elem_of_observed2 in Hq as (r & _ & _ & Hy & _).
    destruct (normalize_trimmed _ _ Hy) as [Hs Hne].
    split; [done|]. split; [done|].
    intros Hempty. apply (not_elem_of_empty (C := gset string) q).
    rewrite <- Hempty. apply elem_of_union. left. by apply elem_of_singleton.
  - intros location payor p. rewrite Hmem. apply elem_of_observed2.
  - intros location payor p Hp. apply Hmem, elem_of_observed2 in Hp
      as (r & _ & _ & _ & Hp). by apply normalize_trimmed in Hp.
  - etrans; [apply sum_cells_fold|]. cbn. lia.
Qed.

(** ** Totals of the hierarchical report and of the summary matrix *)

Section HierarchicalFacts.

Lemma location_totals_fold (l : Dict.t (Dict.t (gset string))) :
  ∀ acc : Dict.t nat,
    NoDup (Dict.keys acc ++ Dict.keys l) →
    fold_left (λ totals '(location, payors),
                 Dict.set location (Hierarchical.payors_total payors) totals)
      l acc
    = acc ++ Dict.map_values Hierarchical.payors_total l.
Proof.
  induction l as [|[k pd] l IH]; intros acc Hnd.
  - cbn. by rewrite app_nil_r.
  - cbn [fold_left]. unfold Dict.keys in Hnd. rewrite fmap_cons in Hnd.
    cbn [fst] in Hnd.
    assert (Hk : Dict.mem k acc = false).
    { destruct (Dict.mem k acc) eqn:Hm; [|done].
      apply DictFacts.mem_keys in Hm. apply NoDup_app in Hnd as (_ & Hd & _).
      destruct (Hd k Hm). left. }
    rewrite set_new by done. rewrite IH.
    + rewrite <- app_assoc. done.
    + unfold Dict.keys. rewrite fmap_app, <- app_assoc. exact Hnd.
Qed.

Lemma location_totals_wf (d : Dict.t (Dict.t (gset string))) :
  Dict.wf d →
  Hierarchical.location_totals d = Dict.map_values Hierarchical.payors_total d.
Proof.
  intros Hwf. unfold Hierarchical.location_totals, Dict.items.
  by rewrite location_totals_fold.
Qed.

Lemma hierarchical_grand_total_sum (d : Dict.t (Dict.t (gset string)))
    (sort_by : string) :
  Dict.wf d →
  Hierarchical.grand_total d sort_by
  = sum_list (Hierarchical.payors_total <$> Dict.values d).
Proof.
  intros Hwf. unfold Hierarchical.grand_total, Hierarchical.sorted_locations.
  rewrite (fold_left_add (λ entry : string * nat, entry.2)).
  rewrite sorted_items_perm, location_totals_wf by done.
  unfold Dict.items, Dict.map_values, Dict.values.
  by rewrite <- !list_fmap_compose.
Qed.

(** Summing a lookup over a duplicate-free list that holds every key of a
    dictionary visits every entry once. *)
Lemma sum_over_superset (pd : Dict.t (gset string)) :
  ∀ L : list string,
    Dict.wf pd → NoDup L → (∀ k, k ∈ Dict.keys pd → k ∈ L) →
    sum_list ((λ p, size (default ∅ (Dict.get p pd))) <$> L)
    = sum_list (size <$> Dict.values pd).
Proof.
  induction pd as [|[k v] pd IH]; intros L Hwf HL Hsub.
  - cbn [Dict.get default Dict.values fmap list_fmap].
    rewrite size_empty. apply sum_list_zero.
  - unfold Dict.wf, Dict.keys in Hwf. rewrite fmap_cons in Hwf.
    apply NoDup_cons in Hwf as [Hk Hwf].
    assert (HkL : k ∈ L) by (apply Hsub; left).
    apply elem_of_Permutation in HkL as [L' HL'].
    rewrite HL' in HL. apply NoDup_cons in HL as [HkL' HL].
    rewrite HL'. rewrite fmap_cons. cbn [sum_list_with]. unfold id.
    cbn [Dict.get]. rewrite decide_True by done. cbn [default].
    unfold Dict.values. rewrite !fmap_cons. cbn [sum_list_with snd]. unfold id.
    f_equal.
    transitivity (sum_list ((λ p, size (default ∅ (Dict.get p pd))) <$> L')).
    + f_equal. apply Forall_fmap_ext, Forall_forall. intros p Hp.
      cbn [Dict.get]. rewrite decide_False; [done|]. by intros ->.
    + apply IH; [done|done|]. intros p Hp.
      assert (HpL : p ∈ L) by (apply Hsub; right; exact Hp).
      rewrite HL' in HpL. apply elem_of_cons in HpL as [->|HpL]; [|done].
      by destruct Hk.
Qed.

Lemma elem_of_all_payors_fold (l : list (Dict.t (gset string))) :
  ∀ (acc : gset string) (p : string),
    p ∈ fold_left (λ acc payors, acc ∪ list_to_set (Dict.keys payors)) l acc
    ↔ p ∈ acc ∨ ∃ pd, pd ∈ l ∧ p ∈ Dict.keys pd.
Proof.
  induction l as [|pd l IH]; intros acc p.
  - cbn. split; [by left|]. intros [?|(pd & Hpd & _)]; [done|].
    by apply elem_of_nil in Hpd.
  - cbn [fold_left]. rewrite IH, elem_of_union, elem_of_list_to_set. split.
    + intros [[?|?]|(pd' & Hpd' & ?)]; [by left| |].
      * right. exists pd. split; [left|done].
      * right. exists pd'. split; [by right|done].
    + intros [?|(pd' & Hpd' & ?)]; [by left; left|].
      apply elem_of_cons in Hpd' as [->|Hpd']; [by left; right|].
      right. by exists pd'.
Qed.

Lemma elem_of_all_payors (d : Dict.t (Dict.t (gset string))) (p : string) :
  p ∈ ClientByLocationAndPayer.all_payors d
  ↔ ∃ pd, pd ∈ Dict.values d ∧ p ∈ Dict.keys pd.
Proof.
  unfold ClientByLocationAndPayer.all_payors. rewrite elem_of_all_payors_fold.
  split; [intros [?%elem_of_empty|?]; done|by right].
Qed.

Lemma sorted_strings_perm (s : gset string) : sorted_strings s ≡ₚ elements s.
Proof. apply py_sorted_perm. Qed.

Lemma elem_of_sorted_strings (s : gset string) (x : string) :
  x ∈ sorted_strings s ↔ x ∈ s.
Proof. by rewrite sorted_strings_perm, elem_of_elements. Qed.

Lemma NoDup_sorted_strings (s : gset string) : NoDup (sorted_strings s).
Proof. rewrite sorted_strings_perm. apply NoDup_elements. Qed.

Lemma sorted_strings_ascending (s : gset string) :
  StronglySorted str_lt (sorted_strings s).
Proof.
  pose proof (py_sorted_sorted String.ltb String.le id (elements s)) as Hs.
  fold (sorted_strings s) in Hs.
  apply (sorted_distinct _ str_lt id) in Hs; [done| |].
  - intros x y Hle Hne. apply str_lt_le_ne. by split.
  - rewrite list_fmap_id. apply NoDup_sorted_strings.
Qed.

Lemma matrix_grand_total_sum (d : Dict.t (Dict.t (gset string))) :
  Dict.wf d → Forall (λ x, Dict.wf x.2) d →
  ClientByLocationAndPayer.grand_total d
  = sum_list (Hierarchical.payors_total <$> Dict.values d).
Proof.
  intros Hwf Hall. rewrite grand_total_rows.
  unfold ClientByLocationAndPayer.sorted_locations.
  rewrite py_sorted_perm. unfold Dict.keys, Dict.values.
  rewrite <- !list_fmap_compose.
  f_equal. apply Forall_fmap_ext, Forall_forall. intros [l pd] Hin.
  cbn [compose fst snd]. rewrite location_total_sum.
  unfold ClientByLocationAndPayer.cell_count.
  rewrite (DictFacts.items_get l pd d Hwf Hin). cbn [default].
  unfold Hierarchical.payors_total.
  apply sum_over_superset.
  - by apply (proj1 (Forall_forall _ _) Hall) in Hin.
  - apply NoDup_sorted_strings.
  - intros k Hk. apply elem_of_sorted_strings, elem_of_all_payors.
    exists pd. split; [|done].
    apply list_elem_of_fmap. by exists (l, pd).
Qed.

End HierarchicalFacts.

(** X7. [generate_hierarchical_report] on a dictionary with
    distinct keys: every location is listed once, with the sum of the sizes
    of its payor sets as its total; under a location every payor is listed
    once; the grand total is the sum of the sizes of all the sets in either
    sort mode, and it is the grand total of the summary matrix of
    [generate_summary_report]. On the result of the aggregator this holds
    without a condition, and the grand total is at most the number of
    rows. *)
Theorem hierarchical_totals_agree :
  (∀ (d : Dict.t (Dict.t (gset string))) (sort_by : string),
     Dict.wf d →
     Hierarchical.sorted_locations d sort_by
     ≡ₚ Dict.items (Dict.map_values Hierarchical.payors_total d)
     ∧ (∀ payors, Hierarchical.sorted_payors payors ≡ₚ Dict.items payors)
     ∧ Hierarchical.grand_total d sort_by
       = sum_list (Hierarchical.payors_total <$> Dict.values d)
     ∧ (Forall (λ x, Dict.wf x.2) d →
        Hierarchical.grand_total d sort_by
        = ClientByLocationAndPayer.grand_total d))
  ∧ (∀ (data : list row) (sort_by : string),
       let d := process_client_by_location_and_payer data in
       Hierarchical.grand_total d sort_by
       = ClientByLocationAndPayer.grand_total d
       ∧ Hierarchical.grand_total d sort_by ≤ length data).
Proof.
  split.
  - intros d sort_by Hwf. split; [|split; [|split]].
    + unfold Hierarchical.sorted_locations.
      by rewrite sorted_items_perm, location_totals_wf.
    + intros payors. apply py_sorted_perm.
    + by apply hierarchical_grand_total_sum.
    + intros Hall.
      by rewrite hierarchical_grand_total_sum, matrix_grand_total_sum.
  - intros data sort_by d. subst d.
    destruct (process2_inv data) as [Hwf Hall].
    assert (Hall' : Forall (λ x : string * Dict.t (gset string), Dict.wf x.2)
                      (process_client_by_location_and_payer data)).
    { eapply Forall_impl; [exact Hall|]. by intros x (? & _). }
    rewrite hierarchical_grand_total_sum, matrix_grand_total_sum by done.
    split; [done|].
    etrans; [apply sum_cells_fold|]. cbn. lia.
Qed.

Lemma hierarchical_totals_agree_witness :
  Hierarchical.grand_total
    (process_client_by_location_and_payer Samples.duplicates) "count"
  = ClientByLocationAndPayer.grand_total
      (process_client_by_location_and_payer Samples.duplicates)
  ∧ Hierarchical.grand_total
      (process_client_by_location_and_payer Samples.duplicates) "count" = 1.
Proof.
  split; [|vm_compute; reflexivity].
  apply (proj2 hierarchical_totals_agree Samples.duplicates "count").
Defined.

(** ** Shape of the summary matrix *)

(** X8. [generate_summary_report]: the payor columns are the
    payors occurring under some location, each once, in ascending order; the
    location rows are the keys of the dictionary in ascending order; the csv
    file is a rectangle, one row per location between the header and the
    totals row, every row with one cell per payor and two more; the text file
    has eight lines around the location rows; the string returned for the
    console ends with the last location row and has no totals row. *)
Theorem summary_matrix_shape (generated : string)
    (d : Dict.t (Dict.t (gset string))) :
  let payors := ClientByLocationAndPayer.sorted_payors d in
  let locations := ClientByLocationAndPayer.sorted_locations d in
  let r := ClientByLocationAndPayer.generate_summary_report generated d in
  StronglySorted str_lt payors
  ∧ (∀ p, p ∈ payors ↔ ∃ pd, pd ∈ Dict.values d ∧ p ∈ Dict.keys pd)
  ∧ locations ≡ₚ Dict.keys d
  ∧ StronglySorted String.le locations
  ∧ (Dict.wf d → StronglySorted str_lt locations)
  ∧ length (csv_file r) = length d + 2
  ∧ Forall (λ row, length row = length payors + 2) (csv_file r)
  ∧ length (txt_file r) = length d + 8
  ∧ ∃ header,
      returned r
      = Py.join nl
          ([nl +:+ nl +:+ Py.repeat_char "=" 70;
            "SUMMARY MATRIX: Unique Patients by Location and Payor";
            Py.repeat_char "=" 70; header; Py.repeat_char "-" 70]
           ++ (ClientByLocationAndPayer.console_row d <$> locations)).
Proof.
  intros payors locations r.
  assert (Hperm : locations ≡ₚ Dict.keys d) by apply py_sorted_perm.
  assert (Hlen : length locations = length d).
  { rewrite Hperm. unfold Dict.keys. by rewrite length_fmap. }
  assert (Hsorted : StronglySorted String.le locations).
  { pose proof (py_sorted_sorted String.ltb String.le id (Dict.keys d)) as Hs.
    exact Hs. }
  split; [apply sorted_strings_ascending|].
  split.
  { intros p. subst payors. unfold ClientByLocationAndPayer.sorted_payors.
    by rewrite elem_of_sorted_strings, elem_of_all_payors. }
  split; [done|]. split; [done|].
  split.
  { intros Hwf. apply (sorted_distinct _ str_lt id) in Hsorted; [done| |].
    - intros x y Hle Hne. apply str_lt_le_ne. by split.
    - rewrite list_fmap_id, Hperm. exact Hwf. }
  subst r. unfold ClientByLocationAndPayer.generate_summary_report.
  rewrite add_location_fold. cbn [csv_file txt_file returned].
  fold payors locations.
  split.
  { rewrite !length_app, length_fmap, Hlen. cbn. lia. }
  split.
  { rewrite !Forall_app. split; [split|].
    - constructor; [|constructor]. rewrite !length_app, length_fmap. cbn. lia.
    - apply Forall_fmap, Forall_forall. intros location _.
      unfold compose, ClientByLocationAndPayer.csv_row. fold payors.
      rewrite !length_app, length_fmap. cbn. lia.
    - constructor; [|constructor].
      unfold ClientByLocationAndPayer.csv_totals. fold payors.
      rewrite !length_app, length_fmap. cbn. lia. }
  split.
  { rewrite !length_app, length_fmap, Hlen. cbn. lia. }
  eexists. rewrite <- !app_assoc. reflexivity.
Qed.

(** ** What the ratio classifier counts *)

Section RatioCounts.
Import DictFacts TelemedPercentage.

Lemma truthy_ne (s : string) : Py.truthy s = true ↔ s ≠ "".
Proof. by destruct s. Qed.

Lemma truthy_false (s : string) : Py.truthy s = false ↔ s = "".
Proof. by destruct s. Qed.

(** The dictionary after one turn of the loop. *)
Lemma okc_step_shape (d d' : Dict.t stats) (r : row) :
  okc_step d r = Some d' →
  d' = if okc_scope_row r
       then Dict.alter
              (visit_update (cell_text r "Service") (cell_text r "Payor"))
              (cell_text r "Patient")
              (Dict.setdefault (cell_text r "Patient") (Stats 0 0 0%Q ∅ ∅) d)
       else d.
Proof.
  unfold okc_step, okc_scope_row, cell_text.
  destruct (Row.get_strip r "Location") as [location|] eqn:Hl; [|done].
  destruct (Row.get_strip r "Patient") as [patient|] eqn:Hp; [|done].
  destruct (Row.get_strip r "Service") as [service|] eqn:Hs; [|done].
  cbn [mbind option_bind from_option]. unfold id.
  destruct (in_scope location patient) eqn:Hscope; [|by intros [= <-]].
  destruct (Row.get_strip r "Payor") as [payor|] eqn:Hy; [|done].
  cbn [mbind option_bind from_option]. unfold id. intros [= <-].
  unfold visit_update. by rewrite !alter_if, !alter_alter.
Qed.

Lemma okc_step_get (d d' : Dict.t stats) (r : row) (p : string) :
  okc_step d r = Some d' →
  Dict.get p d'
  = if okc_row p r
    then Some (visit_update (cell_text r "Service") (cell_text r "Payor")
                 (default (Stats 0 0 0%Q ∅ ∅) (Dict.get p d)))
    else Dict.get p d.
Proof.
  intros ->%okc_step_shape. unfold okc_row.
  destruct (okc_scope_row r); [|done]. cbn [andb].
  rewrite get_alter, get_setdefault.
  destruct (String.eqb_spec (cell_text r "Patient") p) as [->|Hne].
  - rewrite decide_True by done. by destruct (decide (p = p)).
  - rewrite decide_False by done. destruct (decide (p = cell_text r "Patient")); [by subst|done].
Qed.

Lemma visit_update_fields (service payor : string) (s : stats) :
  total_visits (visit_update service payor s) = S (total_visits s)
  ∧ telemed_visits (visit_update service payor s)
    = telemed_visits s + Nat.b2n (is_telemed service)
  ∧ percentage (visit_update service payor s) = percentage s
  ∧ (∀ y, y ∈ payors (visit_update service payor s)
          ↔ y ∈ payors s ∨ (payor = y ∧ y ≠ ""))
  ∧ (∀ v, v ∈ services (visit_update service payor s)
          ↔ v ∈ services s ∨ (service = v ∧ v ≠ "")).
Proof.
  unfold visit_update.
  split; [by destruct (Py.truthy service), (Py.truthy payor), (is_telemed service)|].
  split.
  { destruct (Py.truthy service), (Py.truthy payor), (is_telemed service);
      cbn; lia. }
  split; [by destruct (Py.truthy service), (Py.truthy payor), (is_telemed service)|].
  split.
  - intros y. destruct (Py.truthy payor) eqn:Hy.
    + apply truthy_ne in Hy.
      destruct (Py.truthy service), (is_telemed service); cbn;
        rewrite elem_of_union, elem_of_singleton;
        (split; (intros [?|?]; [by left|right])); destruct_and?; subst; done.
    + apply truthy_false in Hy.
      destruct (Py.truthy service), (is_telemed service); cbn;
        (split; [by left|]); (intros [?|[? ?]]; [done|]); congruence.
  - intros v. destruct (Py.truthy service) eqn:Hv.
    + apply truthy_ne in Hv.
      destruct (Py.truthy payor), (is_telemed service); cbn;
        rewrite elem_of_union, elem_of_singleton;
        (split; (intros [?|?]; [by left|right])); destruct_and?; subst; done.
    + apply truthy_false in Hv.
      destruct (Py.truthy payor), (is_telemed service); cbn;
        (split; [by left|]); (intros [?|[? ?]]; [done|]); congruence.
Qed.

Lemma okc_loop_get (data : list row) (p : string) :
  ∀ d d', okc_loop data d = Some d' →
    let s0 := default (Stats 0 0 0%Q ∅ ∅) (Dict.get p d) in
    let s' := default (Stats 0 0 0%Q ∅ ∅) (Dict.get p d') in
    (is_Some (Dict.get p d')
     ↔ is_Some (Dict.get p d) ∨ ∃ r, r ∈ data ∧ okc_row p r)
    ∧ total_visits s'
      = total_visits s0 + length (filter (λ r, okc_row p r) data)
    ∧ telemed_visits s'
      = telemed_visits s0
        + length (filter (λ r, okc_row p r && telemed_row r) data)
    ∧ percentage s' = percentage s0
    ∧ (∀ y, y ∈ payors s'
            ↔ y ∈ payors s0
              ∨ ∃ r, r ∈ data ∧ okc_row p r ∧ cell_text r "Payor" = y ∧ y ≠ "")
    ∧ (∀ v, v ∈ services s'
            ↔ v ∈ services s0
              ∨ ∃ r, r ∈ data ∧ okc_row p r ∧ cell_text r "Service" = v ∧ v ≠ "").
Proof.
  induction data as [|r data IH]; intros d d'; cbn [okc_loop].
  - intros [= <-]. cbn zeta. rewrite !filter_nil. cbn [length].
    split; [|split; [lia|split; [lia|split; [done|split]]]].
    + split; [by left|]. intros [?|(r & Hr & _)]; [done|].
      by apply elem_of_nil in Hr.
    + intros y. split; [by left|]. intros [?|(r & Hr & _)]; [done|].
      by apply elem_of_nil in Hr.
    + intros v. split; [by left|]. intros [?|(r & Hr & _)]; [done|].
      by apply elem_of_nil in Hr.
  - destruct (okc_step d r) as [d1|] eqn:Hstep; [|done].
    cbn [mbind option_bind]. intros Hloop.
    specialize (IH d1 d' Hloop). cbn zeta in IH.
    destruct IH as (Hsome & Htot & Htel & Hpct & Hpay & Hsvc).
    pose proof (okc_step_get d d1 r p Hstep) as Hget.
    cbn zeta. set (s0 := default (Stats 0 0 0%Q ∅ ∅) (Dict.get p d)) in *.
    set (s' := default (Stats 0 0 0%Q ∅ ∅) (Dict.get p d')) in *.
    destruct (okc_row p r) eqn:Hrow.
    + rewrite Hget in Hsome, Htot, Htel, Hpct, Hpay, Hsvc.
      cbn [from_option] in Htot, Htel, Hpct, Hpay, Hsvc.
      unfold id in Htot, Htel, Hpct, Hpay, Hsvc.
      destruct (visit_update_fields (cell_text r "Service")
                  (cell_text r "Payor") s0)
        as (Ht & Hm & Hp & Hy & Hv).
      rewrite Ht in Htot. rewrite Hm in Htel. rewrite Hp in Hpct.
      rewrite (filter_cons_True (λ r, okc_row p r)) by (by rewrite Hrow).
      split; [|split; [|split; [|split; [|split]]]].
      * split; [intros _; right; exists r; split; [left|by rewrite Hrow]|].
        intros _. apply Hsome. by left.
      * cbn [length]. lia.
      * rewrite filter_cons. rewrite Hrow. cbn [andb].
        fold (telemed_row r) in Htel.
        destruct (decide (telemed_row r)) as [Ht'|Ht'].
        -- apply Is_true_true in Ht'. rewrite Ht' in Htel.
           cbn [length Nat.b2n] in *. lia.
        -- apply Is_true_false in Ht'. rewrite Ht' in Htel.
           cbn [length Nat.b2n] in *. lia.
      * done.
      * intros y. rewrite Hpay, Hy. split.
        -- intros [[?|[? ?]]|(r' & Hr' & ?)]; [by left| |].
           ++ right. exists r. split; [left|]. by rewrite Hrow.
           ++ right. exists r'. split; [by right|done].
        -- intros [?|(r' & Hr' & Hrow' & Hc & Hne)]; [by left; left|].
           apply elem_of_cons in Hr' as [->|Hr'].
           ++ left. right. done.
           ++ right. by exists r'.
      * intros v. rewrite Hsvc, Hv. split.
        -- intros [[?|[? ?]]|(r' & Hr' & ?)]; [by left| |].
           ++ right. exists r. split; [left|]. by rewrite Hrow.
           ++ right. exists r'. split; [by right|done].
        -- intros [?|(r' & Hr' & Hrow' & Hc & Hne)]; [by left; left|].
           apply elem_of_cons in Hr' as [->|Hr'].
           ++ left. right. done.
           ++ right. by exists r'.
    + rewrite Hget in Hsome, Htot, Htel, Hpct, Hpay, Hsvc.
      rewrite (filter_cons_False (λ r, okc_row p r))
        by (rewrite Hrow; exact id).
      rewrite (filter_cons_False (λ r, okc_row p r && telemed_row r))
        by (rewrite Hrow; exact id).
      split; [|split; [done|split; [done|split; [done|split]]]].
      * rewrite Hsome. split.
        -- intros [?|(r' & Hr' & ?)]; [by left|].
           right. exists r'. split; [by right|done].
        -- intros [?|(r' & Hr' & Hrow')]; [by left|].
           apply elem_of_cons in Hr' as [->|Hr'];
             [by rewrite Hrow in Hrow'|].
           right. by exists r'.
      * intros y. rewrite Hpay. split.
        -- intros [?|(r' & Hr' & ?)]; [by left|].
           right. exists r'. split; [by right|done].
        -- intros [?|(r' & Hr' & Hrow' & ?)]; [by left|].
           apply elem_of_cons in Hr' as [->|Hr'];
             [by rewrite Hrow in Hrow'|].
           right. by exists r'.
      * intros v. rewrite Hsvc. split.
        -- intros [?|(r' & Hr' & ?)]; [by left|].
           right. exists r'. split; [by right|done].
        -- intros [?|(r' & Hr' & Hrow' & ?)]; [by left|].
           apply elem_of_cons in Hr' as [->|Hr'];
             [by rewrite Hrow in Hrow'|].
           right. by exists r'.
Qed.

Lemma sum_measure_alter_eq {V : Type} (m : V → nat) (f : V → V) (n : nat)
    (k : string) (d : Dict.t V) :
  Dict.mem k d = true → (∀ v, m (f v) = m v + n) →
  sum_list (m <$> Dict.values (Dict.alter f k d))
  = sum_list (m <$> Dict.values d) + n.
Proof.
  intros Hm Hf. unfold Dict.values, Dict.mem in *.
  induction d as [|[k' v'] d IH]; [done|].
  cbn [Dict.alter Dict.get] in *. destruct (decide (k = k')).
  - rewrite !fmap_cons. cbn [sum_list_with snd]. unfold id.
    rewrite Hf. lia.
  - rewrite !fmap_cons. cbn [sum_list_with snd]. unfold id in *.
    rewrite (IH Hm). lia.
Qed.

Lemma sum_measure_alter_setdefault_eq {V : Type} (m : V → nat) (f : V → V)
    (n : nat) (k : string) (v0 : V) (d : Dict.t V) :
  m v0 = 0 → (∀ v, m (f v) = m v + n) →
  sum_list (m <$> Dict.values (Dict.alter f k (Dict.setdefault k v0 d)))
  = sum_list (m <$> Dict.values d) + n.
Proof.
  intros H0 Hf. unfold Dict.setdefault.
  destruct (Dict.mem k d) eqn:Hm; [by apply sum_measure_alter_eq|].
  rewrite set_new, alter_new by done.
  unfold Dict.values. rewrite !fmap_app, sum_list_with_app.
  cbn. rewrite Hf, H0. lia.
Qed.

Lemma okc_loop_sums (data : list row) :
  ∀ d d', okc_loop data d = Some d' →
    sum_list (total_visits <$> Dict.values d')
    = sum_list (total_visits <$> Dict.values d)
      + length (filter (λ r, okc_scope_row r) data)
    ∧ sum_list (telemed_visits <$> Dict.values d')
      = sum_list (telemed_visits <$> Dict.values d)
        + length (filter (λ r, okc_scope_row r && telemed_row r) data).
Proof.
  induction data as [|r data IH]; intros d d'; cbn [okc_loop].
  - intros [= <-]. rewrite !filter_nil. cbn [length]. lia.
  - destruct (okc_step d r) as [d1|] eqn:Hstep; [|done].
    cbn [mbind option_bind]. intros Hloop.
    destruct (IH d1 d' Hloop) as [-> ->].
    apply okc_step_shape in Hstep. rewrite !filter_cons.
    destruct (okc_scope_row r) eqn:Hscope.
    + subst d1. cbn [andb].
      rewrite (sum_measure_alter_setdefault_eq total_visits _ 1)
        by (done || (intros v; destruct (visit_update_fields
               (cell_text r "Service") (cell_text r "Payor") v) as (-> & _);
             lia)).
      rewrite (sum_measure_alter_setdefault_eq telemed_visits _
                 (Nat.b2n (telemed_row r)))
        by (done || (intros v; by destruct (visit_update_fields
               (cell_text r "Service") (cell_text r "Payor") v)
               as (_ & -> & _))).
      rewrite decide_True by done.
      destruct (decide (telemed_row r)) as [Ht|Ht].
      * apply Is_true_true in Ht. rewrite Ht. cbn [length Nat.b2n]. lia.
      * apply Is_true_false in Ht. rewrite Ht. cbn [length Nat.b2n]. lia.
    + subst d1. cbn [andb]. rewrite !decide_False by exact id. lia.
Qed.

End RatioCounts.

(** X9. What [process_okc_telemedicine_percentage] counts, when
    it returns: a patient has an entry exactly when some row names the
    patient in scope; the entry counts every such row as a visit and every
    such row whose service names telemedicine as a telemedicine visit; its
    payors and services are the non-empty trimmed payor and service cells of
    these rows; over all patients the visits add up to the number of rows in
    scope and the telemedicine visits to the number of telemedicine rows in
    scope. *)
Theorem ratio_counts_exact (data : list row)
    (patient_stats : Dict.t TelemedPercentage.stats) :
  TelemedPercentage.process_okc_telemedicine_percentage data
  = Some patient_stats →
  (∀ p, is_Some (Dict.get p patient_stats) ↔ ∃ r, r ∈ data ∧ okc_row p r)
  ∧ (∀ p s, Dict.get p patient_stats = Some s →
       TelemedPercentage.total_visits s
       = length (filter (λ r, okc_row p r) data)
       ∧ TelemedPercentage.telemed_visits s
         = length (filter (λ r, okc_row p r && telemed_row r) data)
       ∧ (∀ y, y ∈ TelemedPercentage.payors s
               ↔ ∃ r, r ∈ data ∧ okc_row p r
                      ∧ cell_text r "Payor" = y ∧ y ≠ "")
       ∧ (∀ v, v ∈ TelemedPercentage.services s
               ↔ ∃ r, r ∈ data ∧ okc_row p r
                      ∧ cell_text r "Service" = v ∧ v ≠ ""))
  ∧ sum_list (TelemedPercentage.total_visits <$> Dict.values patient_stats)
    = length (filter (λ r, okc_scope_row r) data)
  ∧ sum_list (TelemedPercentage.telemed_visits <$> Dict.values patient_stats)
    = length (filter (λ r, okc_scope_row r && telemed_row r) data).
Proof.
  unfold TelemedPercentage.process_okc_telemedicine_percentage.
  destruct (TelemedPercentage.okc_loop data []) as [d|] eqn:Hloop; [|done].
  cbn [mbind option_bind]. intros [= <-].
  assert (Hfield : ∀ s,
            TelemedPercentage.total_visits (TelemedPercentage.set_percentage s)
            = TelemedPercentage.total_visits s
            ∧ TelemedPercentage.telemed_visits (TelemedPercentage.set_percentage s)
              = TelemedPercentage.telemed_visits s
            ∧ TelemedPercentage.payors (TelemedPercentage.set_percentage s)
              = TelemedPercentage.payors s
            ∧ TelemedPercentage.services (TelemedPercentage.set_percentage s)
              = TelemedPercentage.services s).
  { intros s. unfold TelemedPercentage.set_percentage.
    by destruct (0 <? TelemedPercentage.total_visits s). }
  split; [|split; [|split]].
  - intros p. rewrite DictFacts.get_map_values, fmap_is_Some.
    destruct (okc_loop_get data p [] d Hloop) as (-> & _).
    split; [intros [[? [=]]|?]; done|by right].
  - intros p s. rewrite DictFacts.get_map_values.
    destruct (okc_loop_get data p [] d Hloop)
      as (_ & Htot & Htel & _ & Hpay & Hsvc).
    destruct (Dict.get p d) as [s0|]; [|done].
    cbn [fmap option_fmap option_map]. intros [= <-].
    destruct (Hfield s0) as (-> & -> & -> & ->).
    cbn in Htot, Htel, Hpay, Hsvc.
    split; [done|]. split; [done|]. split.
    + intros y. rewrite Hpay. split; [intros [?%elem_of_empty|?]; done|by right].
    + intros v. rewrite Hsvc. split; [intros [?%elem_of_empty|?]; done|by right].
  - rewrite values_map_values, <- list_fmap_compose.
    destruct (okc_loop_sums data [] d Hloop) as [Hs _].
    transitivity (sum_list (TelemedPercentage.total_visits <$> Dict.values d));
      [|by rewrite Hs].
    f_equal. apply list_fmap_ext. intros i s _. apply Hfield.
  - rewrite values_map_values, <- list_fmap_compose.
    destruct (okc_loop_sums data [] d Hloop) as [_ Hs].
    transitivity (sum_list (TelemedPercentage.telemed_visits <$> Dict.values d));
      [|by rewrite Hs].
    f_equal. apply list_fmap_ext. intros i s _. apply Hfield.
Qed.

Lemma ratio_counts_exact_witness :
  match TelemedPercentage.process_okc_telemedicine_percentage Samples.visits with
  | Some patient_stats =>
      match Dict.get "Smith, A" patient_stats with
      | Some s =>
          TelemedPercentage.total_visits s
          = length (filter (λ r, okc_row "Smith, A" r) Samples.visits)
          ∧ TelemedPercentage.total_visits s = 3
          ∧ TelemedPercentage.telemed_visits s = 2
      | None => False
      end
  | None => False
  end.
Proof.
  destruct (TelemedPercentage.process_okc_telemedicine_percentage Samples.visits)
    as [patient_stats|] eqn:Hrun; [|vm_compute in Hrun; discriminate].
  destruct (Dict.get "Smith, A" patient_stats) as [s|] eqn:Hget.
  - destruct (ratio_counts_exact _ _ Hrun) as (_ & Hcount & _).
    destruct (Hcount _ _ Hget) as (Htot & Htel & _).
    split; [exact Htot|].
    vm_compute in Hrun. injection Hrun as <-.
    vm_compute in Hget. injection Hget as <-. split; reflexivity.
  - vm_compute in Hrun. injection Hrun as <-. vm_compute in Hget. discriminate.
Defined.

(** ** Which tables make a function raise *)

Section Raises.

Lemma get_strip_None (r : row) (k : string) :
  Row.get_strip r k = None ↔ r !! k = Some None.
Proof.
  unfold Row.get_strip, Row.get_or_empty.
  destruct (r !! k) as [[s|]|]; cbn; split; done.
Qed.

Lemma get_or_empty_None (r : row) (k : string) :
  Row.get_or_empty r k = None ↔ r !! k = Some None.
Proof.
  unfold Row.get_or_empty. destruct (r !! k) as [[s|]|]; cbn; split; done.
Qed.

Lemma three_cells_None (r : row) (a b c : string) :
  (Row.get_strip r a = None ∨ Row.get_strip r b = None
   ∨ Row.get_strip r c = None)
  ↔ ∃ k, k ∈ [a; b; c] ∧ r !! k = Some None.
Proof.
  rewrite !get_strip_None. split.
  - intros [H|[H|H]]; [exists a|exists b|exists c]; split; try done.
    + left.
    + right; left.
    + right; right; left.
  - intros (k & Hk & H).
    apply elem_of_cons in Hk as [->|Hk]; [by left|].
    apply elem_of_cons in Hk as [->|Hk]; [by right; left|].
    apply elem_of_cons in Hk as [->|Hk]; [by right; right|].
    by apply elem_of_nil in Hk.
Qed.

Lemma gaps_step_None (st : ClientByLocation.gaps_state) (r : row) :
  ClientByLocation.gaps_step st r = None
  ↔ ∃ k, k ∈ ["Location"; "Payor"; "Patient"] ∧ r !! k = Some None.
Proof.
  rewrite <- three_cells_None. unfold ClientByLocation.gaps_step.
  destruct (Row.get_strip r "Location"); cbn [mbind option_bind];
    [|split; [by left|done]].
  destruct (Row.get_strip r "Payor"); cbn [mbind option_bind];
    [|split; [by right; left|done]].
  destruct (Row.get_strip r "Patient"); cbn [mbind option_bind];
    [|split; [by right; right|done]].
  split; [done|]. by intros [?|[?|?]].
Qed.

Lemma gaps_loop_None (data : list row) :
  ∀ st, ClientByLocation.gaps_loop data st = None
        ↔ ∃ r k, r ∈ data ∧ k ∈ ["Location"; "Payor"; "Patient"]
                 ∧ r !! k = Some None.
Proof.
  induction data as [|r data IH]; intros st; cbn [ClientByLocation.gaps_loop].
  - split; [done|]. intros (r & k & Hr & _). by apply elem_of_nil in Hr.
  - destruct (ClientByLocation.gaps_step st r) as [st'|] eqn:Hstep;
      cbn [mbind option_bind].
    + rewrite IH. split.
      * intros (r' & k & Hr' & H). exists r', k. split; [by right|done].
      * intros (r' & k & Hr' & Hk & H).
        apply elem_of_cons in Hr' as [->|Hr']; [|by exists r', k].
        assert (Hnone : ClientByLocation.gaps_step st r = None)
          by (apply gaps_step_None; eauto).
        by rewrite Hstep in Hnone.
    + split; [|done]. intros _.
      apply gaps_step_None in Hstep as (k & Hk & H).
      exists r, k. split; [left|done].
Qed.

Lemma gaps2_step_None (st : ClientByLocationAndPayer.gaps_state) (r : row) :
  ClientByLocationAndPayer.gaps_step st r = None
  ↔ ∃ k, k ∈ ["Location"; "Payor"; "Patient"] ∧ r !! k = Some None.
Proof.
  rewrite <- three_cells_None. unfold ClientByLocationAndPayer.gaps_step.
  destruct (Row.get_strip r "Location"); cbn [mbind option_bind];
    [|split; [by left|done]].
  destruct (Row.get_strip r "Payor"); cbn [mbind option_bind];
    [|split; [by right; left|done]].
  destruct (Row.get_strip r "Patient"); cbn [mbind option_bind];
    [|split; [by right; right|done]].
  split; [done|]. by intros [?|[?|?]].
Qed.

Lemma gaps2_loop_None (data : list row) :
  ∀ st, ClientByLocationAndPayer.gaps_loop data st = None
        ↔ ∃ r k, r ∈ data ∧ k ∈ ["Location"; "Payor"; "Patient"]
                 ∧ r !! k = Some None.
Proof.
  induction data as [|r data IH]; intros st;
    cbn [ClientByLocationAndPayer.gaps_loop].
  - split; [done|]. intros (r & k & Hr & _). by apply elem_of_nil in Hr.
  - destruct (ClientByLocationAndPayer.gaps_step st r) as [st'|] eqn:Hstep;
      cbn [mbind option_bind].
    + rewrite IH. split.
      * intros (r' & k & Hr' & H). exists r', k. split; [by right|done].
      * intros (r' & k & Hr' & Hk & H).
        apply elem_of_cons in Hr' as [->|Hr']; [|by exists r', k].
        assert (Hnone : ClientByLocationAndPayer.gaps_step st r = None)
          by (apply gaps2_step_None; eauto).
        by rewrite Hstep in Hnone.
    + split; [|done]. intros _.
      apply gaps2_step_None in Hstep as (k & Hk & H).
      exists r, k. split; [left|done].
Qed.

Lemma okc_step_None (d : Dict.t TelemedPercentage.stats) (r : row) :
  TelemedPercentage.okc_step d r = None
  ↔ (∃ k, k ∈ ["Location"; "Patient"; "Service"] ∧ r !! k = Some None)
    ∨ (okc_scope_row r ∧ r !! "Payor" = Some None).
Proof.
  rewrite <- three_cells_None, <- get_strip_None.
  unfold TelemedPercentage.okc_step, okc_scope_row, cell_text.
  destruct (Row.get_strip r "Location"); cbn [mbind option_bind];
    [|split; [by left; left|done]].
  destruct (Row.get_strip r "Patient"); cbn [mbind option_bind];
    [|split; [by left; right; left|done]].
  destruct (Row.get_strip r "Service"); cbn [mbind option_bind];
    [|split; [by left; right; right|done]].
  cbn [from_option]. unfold id.
  destruct (TelemedPercentage.in_scope s s0).
  - destruct (Row.get_strip r "Payor"); cbn [mbind option_bind].
    + split; [done|]. intros [[?|[?|?]]|[_ ?]]; done.
    + split; [|done]. intros _. by right.
  - split; [done|]. intros [[?|[?|?]]|[[] _]]; done.
Qed.

Lemma okc_loop_None (data : list row) :
  ∀ d, TelemedPercentage.okc_loop data d = None
       ↔ ∃ r, r ∈ data
              ∧ ((∃ k, k ∈ ["Location"; "Patient"; "Service"]
                       ∧ r !! k = Some None)
                 ∨ (okc_scope_row r ∧ r !! "Payor" = Some None)).
Proof.
  induction data as [|r data IH]; intros d; cbn [TelemedPercentage.okc_loop].
  - split; [done|]. intros (r & Hr & _). by apply elem_of_nil in Hr.
  - destruct (TelemedPercentage.okc_step d r) as [d'|] eqn:Hstep;
      cbn [mbind option_bind].
    + rewrite IH. split.
      * intros (r' & Hr' & H). exists r'. split; [by right|done].
      * intros (r' & Hr' & H).
        apply elem_of_cons in Hr' as [->|Hr']; [|by exists r'].
        apply (okc_step_None d) in H. by rewrite Hstep in H.
    + split; [|done]. intros _. exists r. split; [left|].
      by apply okc_step_None in Hstep.
Qed.

Lemma telemed_step_None (st : TelemedSort.telemed_state) (r : row) :
  TelemedSort.telemed_step st r = None ↔ r !! "Service" = Some None.
Proof.
  rewrite <- get_or_empty_None. unfold TelemedSort.telemed_step.
  by destruct (Row.get_or_empty r "Service").
Qed.

Lemma telemed_loop_None (data : list row) :
  ∀ st, TelemedSort.telemed_loop data st = None
        ↔ ∃ r, r ∈ data ∧ r !! "Service" = Some None.
Proof.
  induction data as [|r data IH]; intros st; cbn [TelemedSort.telemed_loop].
  - split; [done|]. intros (r & Hr & _). by apply elem_of_nil in Hr.
  - destruct (TelemedSort.telemed_step st r) as [st'|] eqn:Hstep;
      cbn [mbind option_bind].
    + rewrite IH. split.
      * intros (r' & Hr' & H). exists r'. split; [by right|done].
      * intros (r' & Hr' & H).
        apply elem_of_cons in Hr' as [->|Hr']; [|by exists r'].
        apply (telemed_step_None st) in H. by rewrite Hstep in H.
    + split; [|done]. intros _. exists r. split; [left|].
      by apply telemed_step_None in Hstep.
Qed.

End Raises.

(** X10. The tables on which a function raises. Both
    [analyze_data_gaps] raise on the [None.strip()] exactly when some row
    holds [None] in the Location, Payor or Patient cell (a line of the file
    shorter than the header); the one of clientByLocationAndPayer.py never
    returns a summary. [process_okc_telemedicine_percentage] raises exactly
    when some row holds [None] in the Location, Patient or Service cell, or
    is in scope and holds [None] in the Payor cell: a missing payor outside
    the scope is not read. [process_telemedicine_data] raises exactly when
    some row holds [None] in the Service cell. *)
Theorem raises_exactly_on_none_cells :
  (∀ data : list row,
     ClientByLocation.analyze_data_gaps data = None
     ↔ ∃ r k, r ∈ data ∧ k ∈ ["Location"; "Payor"; "Patient"]
              ∧ r !! k = Some None)
  ∧ (∀ (fmt1 : Q → string) (data : list row),
       (ClientByLocationAndPayer.analyze_data_gaps fmt1 data
        = ClientByLocationAndPayer.AttributeError
        ↔ ∃ r k, r ∈ data ∧ k ∈ ["Location"; "Payor"; "Patient"]
                 ∧ r !! k = Some None)
       ∧ (ClientByLocationAndPayer.analyze_data_gaps fmt1 data
          = ClientByLocationAndPayer.AttributeError
          ∨ ∃ st console,
              ClientByLocationAndPayer.analyze_data_gaps fmt1 data
              = ClientByLocationAndPayer.NameError st console))
  ∧ (∀ data : list row,
       TelemedPercentage.process_okc_telemedicine_percentage data = None
       ↔ ∃ r, r ∈ data
              ∧ ((∃ k, k ∈ ["Location"; "Patient"; "Service"]
                       ∧ r !! k = Some None)
                 ∨ (okc_scope_row r ∧ r !! "Payor" = Some None)))
  ∧ (∀ data : list row,
       TelemedSort.process_telemedicine_data data = None
       ↔ ∃ r, r ∈ data ∧ r !! "Service" = Some None).
Proof.
  split; [|split; [|split]].
  - intros data. unfold ClientByLocation.analyze_data_gaps.
    rewrite <- (gaps_loop_None data ClientByLocation.gaps_init).
    by destruct (ClientByLocation.gaps_loop data ClientByLocation.gaps_init).
  - intros fmt1 data. unfold ClientByLocationAndPayer.analyze_data_gaps.
    rewrite <- (gaps2_loop_None data ClientByLocationAndPayer.gaps_init).
    destruct (ClientByLocationAndPayer.gaps_loop data
                ClientByLocationAndPayer.gaps_init) as [st|].
    + split; [done|]. right. by eexists _, _.
    + split; [done|]. by left.
  - intros data.
    unfold TelemedPercentage.process_okc_telemedicine_percentage.
    rewrite <- (okc_loop_None data []).
    by destruct (TelemedPercentage.okc_loop data []).
  - intros data. unfold TelemedSort.process_telemedicine_data.
    apply telemed_loop_None.
Qed.

(** ** What the percentage report shows on the console *)

Section PercentageReport.
Import TelemedPercentage.
Variables (fmt1 : Q → string) (generated : string).

Lemma detail_fold (l : list (string * stats)) :
  ∀ (report_lines : list string) (csv_rows : list (list cell)),
    fold_left
      (λ '(report_lines, csv_rows) '(patient, s),
         (report_lines ++ [detail_line fmt1 patient s],
          csv_rows ++ [csv_row fmt1 patient s]))
      l (report_lines, csv_rows)
    = (report_lines ++ ((λ x, detail_line fmt1 x.1 x.2) <$> l),
       csv_rows ++ ((λ x, csv_row fmt1 x.1 x.2) <$> l)).
Proof.
  induction l as [|[patient s] l IH]; intros report_lines csv_rows.
  - cbn. by rewrite !app_nil_r.
  - cbn [fold_left]. rewrite IH, fmap_cons, <- !app_assoc. done.
Qed.

Lemma last_n_three {A : Type} (pre l : list A) (a b c0 : A) :
  last_n 3 ((pre ++ [c0]) ++ l ++ [a; b]) = [default c0 (last l); a; b].
Proof.
  unfold last_n. destruct l as [|x l _] using rev_ind.
  - cbn [app last default from_option]. rewrite <- app_assoc. cbn [app].
    rewrite length_app. cbn [length].
    replace (length pre + 3 - 3) with (length pre + 0) by lia.
    by rewrite drop_app_add.
  - rewrite last_snoc. cbn [default from_option]. unfold id.
    rewrite <- (app_assoc l [x] [a; b]). cbn [app].
    rewrite (app_assoc (pre ++ [c0]) l [x; a; b]).
    rewrite (length_app (_ ++ l)). cbn [length].
    replace (length ((pre ++ [c0]) ++ l) + 3 - 3)
      with (length ((pre ++ [c0]) ++ l) + 0) by lia.
    by rewrite drop_app_add.
Qed.

Lemma heading_lines_snoc (patient_stats : Dict.t stats) :
  ∃ pre, heading_lines fmt1 generated patient_stats
         = pre ++ [Py.repeat_char "-" 80]
         ∧ length pre = 17.
Proof.
  unfold heading_lines. cbv zeta.
  eexists [_; _; _; _; _; _; _; _; _; _; _; _; _; _; _; _; _].
  split; reflexivity.
Qed.

End PercentageReport.

(** X11. [generate_telemedicine_percentage_report]: the text file
    is the eighteen heading lines, one line per patient of the listing and
    two rules; the csv file is the header and one row per patient; the
    listing holds every entry of the dictionary once. The list compared with
    forty on line 169 has the eighteen heading lines only, so the string
    returned for the console never has the line that points to the file: it
    is the heading followed by the last three lines of the file, which show
    the last patient of the listing and no other. *)
Theorem percentage_report_console_shows_last_patient (fmt1 : Q → string)
    (generated : string) (patient_stats : Dict.t TelemedPercentage.stats) :
  let r := TelemedPercentage.generate_telemedicine_percentage_report
             fmt1 generated patient_stats in
  let listing := TelemedPercentage.sorted_patients patient_stats in
  let heading := TelemedPercentage.heading_lines fmt1 generated patient_stats in
  let line := λ x : string * TelemedPercentage.stats,
                TelemedPercentage.detail_line fmt1 x.1 x.2 in
  length heading = 18
  ∧ listing ≡ₚ Dict.items patient_stats
  ∧ txt_file r
    = heading ++ (line <$> listing)
      ++ [Py.repeat_char "-" 80; Py.repeat_char "=" 80]
  ∧ csv_file r
    = [CStr "Patient"; CStr "Total_Visits"; CStr "Telemed_Visits";
       CStr "Percentage"; CStr "Payors"]
      :: ((λ x, TelemedPercentage.csv_row fmt1 x.1 x.2) <$> listing)
  ∧ returned r
    = Py.join nl
        (heading
         ++ [default (Py.repeat_char "-" 80) (line <$> last listing);
             Py.repeat_char "-" 80; Py.repeat_char "=" 80]).
Proof.
  intros r listing heading line.
  split; [done|]. split; [apply py_sorted_perm|].
  subst r. unfold TelemedPercentage.generate_telemedicine_percentage_report.
  fold listing heading. rewrite detail_fold. fold line.
  cbn [txt_file csv_file returned].
  split; [by rewrite <- app_assoc|]. split; [done|].
  change (40 <? length heading) with false. cbv iota.
  destruct (heading_lines_snoc fmt1 generated patient_stats) as (pre & Hpre & _).
  fold heading in Hpre. rewrite <- app_assoc.
  rewrite Hpre at 2. rewrite last_n_three.
  do 3 f_equal. rewrite <- fmap_last. by destruct (last listing).
Qed.

(** ** Order of the percentage listing *)

Section PercentageOrder.
Import TelemedPercentage.

#[global] Instance pct_key_order :
  KeyOrder (tuple_lt Qeq_bool Q_ltb (tuple_lt Z.eqb Z.ltb String.ltb))
    pct_key_le.
Proof.
  pose proof (tuple_key_order Z.eqb Z.ltb Z.le String.ltb String.le
                Z.eqb_eq Z_le_antisym _ _) as Hord.
  split.
  - intros [a1 b1] [a2 b2]. unfold tuple_lt at 1, pct_key_le. cbn [fst snd].
    destruct (Qeq_bool_reflect a1 a2) as [Heq|Hne].
    + rewrite (ltb_false_le (KeyOrder := Hord)). split.
      * intros H. right. split; [by symmetry|done].
      * intros [Hlt|[_ H]]; [|done]. rewrite Heq in Hlt.
        by apply Qlt_irrefl in Hlt.
    + destruct (Q_ltb_reflect a1 a2) as [Hlt|Hnlt].
      * split; [done|]. intros [Hlt'|[Heq _]].
        -- destruct (Qlt_irrefl a1). by apply Qlt_trans with a2.
        -- destruct Hne. by symmetry.
      * split; [|done]. intros _. left.
        apply Qnot_lt_le in Hnlt. apply Qle_lt_or_eq in Hnlt as [?|Heq]; [done|].
        destruct Hne. by symmetry.
  - intros [a1 b1] [a2 b2] [a3 b3]. unfold pct_key_le. cbn [fst snd].
    intros [H1|[E1 H1]] [H2|[E2 H2]].
    + left. by apply Qlt_trans with a2.
    + left. by rewrite <- E2.
    + left. by rewrite E1.
    + right. split; [by rewrite E1|].
      by apply (key_le_trans (KeyOrder := Hord)) with b2.
  - intros [a1 b1] [a2 b2]. unfold pct_key_le. cbn [fst snd].
    destruct (Q_dec a1 a2) as [[Hlt|Hgt]|Heq].
    + left. by left.
    + right. by left.
    + destruct (key_le_total (KeyOrder := Hord) b1 b2).
      * left. right. done.
      * right. right. split; [by symmetry|done].
Qed.

Lemma sorted_patients_order (patient_stats : Dict.t stats) :
  Dict.wf patient_stats →
  StronglySorted pct_desc_visits_desc_name_asc (sorted_patients patient_stats).
Proof.
  intros Hwf.
  apply (sorted_distinct (λ x y, pct_key_le (sort_key x) (sort_key y)) _ fst).
  - intros [n1 s1] [n2 s2]. unfold pct_key_le, sort_key,
      pct_desc_visits_desc_name_asc, lex_le. cbn [fst snd].
    intros [Hlt|[Heq [[Hne Hle]|[Hc Hle]]]] Hn.
    + left. by apply Qopp_lt_compat in Hlt; rewrite !Qopp_involutive in Hlt.
    + right. split; [|left; lia].
      rewrite <- (Qopp_involutive (percentage s1)), Heq.
      apply Qopp_involutive.
    + right. split; [|right; split; [lia|by apply str_lt_le_ne]].
      rewrite <- (Qopp_involutive (percentage s1)), Heq.
      apply Qopp_involutive.
  - unfold sorted_patients. rewrite py_sorted_perm. exact Hwf.
  - apply (py_sorted_sorted _ pct_key_le sort_key).
Qed.

End PercentageOrder.

(** X12. The listing of the percentage report, on a result of
    the classifier: it holds every patient once; a patient with a greater
    percentage comes first; among patients with the same percentage the one
    with more telemedicine visits comes first; among patients who agree on
    both the names ascend. *)
Theorem percentage_listing_order_as_built (data : list row)
    (patient_stats : Dict.t TelemedPercentage.stats) :
  TelemedPercentage.process_okc_telemedicine_percentage data
  = Some patient_stats →
  TelemedPercentage.sorted_patients patient_stats ≡ₚ Dict.items patient_stats
  ∧ StronglySorted pct_desc_visits_desc_name_asc
      (TelemedPercentage.sorted_patients patient_stats).
Proof.
  intros Hrun. split; [apply py_sorted_perm|].
  apply sorted_patients_order. by apply process_okc_inv in Hrun as [Hwf _].
Qed.

Lemma percentage_listing_order_as_built_witness :
  match TelemedPercentage.process_okc_telemedicine_percentage
          Samples.tied_visits with
  | Some patient_stats =>
      StronglySorted pct_desc_visits_desc_name_asc
        (TelemedPercentage.sorted_patients patient_stats)
      ∧ Dict.keys (TelemedPercentage.sorted_patients patient_stats)
        = ["Baker, B"; "Adams, A"]
  | None => False
  end.
Proof.
  destruct (TelemedPercentage.process_okc_telemedicine_percentage
              Samples.tied_visits) as [patient_stats|] eqn:Hrun;
    [|vm_compute in Hrun; discriminate].
  split; [apply (percentage_listing_order_as_built _ _ Hrun)|].
  vm_compute in Hrun. injection Hrun as <-. vm_compute. reflexivity.
Defined.

(** ** What the service report counts *)

Section ServiceCounts.
Import DictFacts TelemedSort.

Lemma get_bump (k k' : string) (d : Dict.t nat) :
  Dict.get k (bump k' d)
  = if String.eqb k' k then Some (default 0 (Dict.get k d) + 1)
    else Dict.get k d.
Proof.
  unfold bump. rewrite get_set.
  destruct (String.eqb_spec k' k) as [->|Hne].
  - by rewrite decide_True.
  - rewrite decide_False; [done|]. by intros ->.
Qed.

Lemma count_alter_setdefault (f : details → details) (k p : string)
    (d : Dict.t details) :
  (∀ x, count (f x) = S (count x)) →
  count <$> Dict.get k (Dict.alter f p (Dict.setdefault p (Details 0 ∅ ∅) d))
  = if String.eqb p k then Some (default 0 (count <$> Dict.get k d) + 1)
    else count <$> Dict.get k d.
Proof.
  intros Hf. rewrite get_alter, get_setdefault.
  destruct (String.eqb_spec p k) as [->|Hne].
  - rewrite decide_True by done. destruct (decide (k = k)); [|done].
    cbn [fmap option_fmap option_map]. rewrite Hf.
    destruct (Dict.get k d); cbn; f_equal; lia.
  - rewrite decide_False by (by intros ->).
    destruct (decide (k = p)); [by subst|done].
Qed.

Lemma telemed_step_views (st st' : telemed_state) (r : row) :
  telemed_step st r = Some st' →
  total_count st' = total_count st + Nat.b2n (service_row r)
  ∧ (∀ k, Dict.get k (location_summary st')
          = if service_row r && filed_under "Location" k r
            then Some (default 0 (Dict.get k (location_summary st)) + 1)
            else Dict.get k (location_summary st))
  ∧ (∀ k, Dict.get k (payor_summary st')
          = if service_row r && filed_under "Payor" k r
            then Some (default 0 (Dict.get k (payor_summary st)) + 1)
            else Dict.get k (payor_summary st))
  ∧ (∀ k, count <$> Dict.get k (patient_details st')
          = if service_row r && filed_under "Patient" k r
            then Some (default 0 (count <$> Dict.get k (patient_details st)) + 1)
            else count <$> Dict.get k (patient_details st)).
Proof.
  unfold telemed_step, service_row, filed_under.
  destruct (Row.get_or_empty r "Service") as [service|]; [|done].
  cbn [mbind option_bind from_option]. intros [= <-].
  destruct (Py.contains "telemedicine" (Py.lower service)); cbn [andb];
    [|split; [cbn [Nat.b2n]; lia|done]].
  cbn [total_count location_summary payor_summary patient_details Nat.b2n].
  split; [lia|]. split; [|split].
  - intros k. destruct (py_present (Row.get_or_empty r "Location"));
      cbn [andb]; [apply get_bump|done].
  - intros k. destruct (py_present (Row.get_or_empty r "Payor"));
      cbn [andb]; [apply get_bump|done].
  - intros k. destruct (py_present (Row.get_or_empty r "Patient"));
      cbn [andb]; [|done].
    rewrite !alter_if, !alter_alter. apply count_alter_setdefault.
    intros x. by destruct (py_present (Row.get_or_empty r "Location")),
      (py_present (Row.get_or_empty r "Payor")).
Qed.

(** A counter after [n] more hits. *)
Lemma counter_step (c : bool) (o : option nat) (n : nat) :
  match n with
  | 0 => if c then Some (default 0 o + 1) else o
  | S m =>
      Some (default 0 (if c then Some (default 0 o + 1) else o) + S m)
  end
  = match Nat.b2n c + n with
    | 0 => o
    | S m => Some (default 0 o + S m)
    end.
Proof. destruct c, n; cbn; try done; f_equal; lia. Qed.

Lemma length_filter_cons_b2n (c : row → bool) (r : row) (data : list row) :
  length (filter (λ r, c r) (r :: data))
  = Nat.b2n (c r) + length (filter (λ r, c r) data).
Proof.
  rewrite filter_cons. destruct (decide (c r)) as [H|H].
  - apply Is_true_true in H. by rewrite H.
  - apply Is_true_false in H. by rewrite H.
Qed.

Lemma telemed_loop_views (data : list row) :
  ∀ st st', telemed_loop data st = Some st' →
    total_count st'
    = total_count st + length (filter (λ r, service_row r) data)
    ∧ (∀ k, Dict.get k (location_summary st')
            = match length (filter (λ r, service_row r
                                         && filed_under "Location" k r) data) with
              | 0 => Dict.get k (location_summary st)
              | S _ as n => Some (default 0 (Dict.get k (location_summary st)) + n)
              end)
    ∧ (∀ k, Dict.get k (payor_summary st')
            = match length (filter (λ r, service_row r
                                         && filed_under "Payor" k r) data) with
              | 0 => Dict.get k (payor_summary st)
              | S _ as n => Some (default 0 (Dict.get k (payor_summary st)) + n)
              end)
    ∧ (∀ k, count <$> Dict.get k (patient_details st')
            = match length (filter (λ r, service_row r
                                         && filed_under "Patient" k r) data) with
              | 0 => count <$> Dict.get k (patient_details st)
              | S _ as n =>
                  Some (default 0 (count <$> Dict.get k (patient_details st)) + n)
              end).
Proof.
  induction data as [|r data IH]; intros st st'; cbn [telemed_loop].
  - intros [= <-]. rewrite !filter_nil. cbn [length]. split; [lia|done].
  - destruct (telemed_step st r) as [st1|] eqn:Hstep; [|done].
    cbn [mbind option_bind]. intros Hloop.
    destruct (IH st1 st' Hloop) as (Ht & Hl & Hy & Hp).
    destruct (telemed_step_views st st1 r Hstep) as (Ht1 & Hl1 & Hy1 & Hp1).
    split; [|split; [|split]].
    + rewrite (length_filter_cons_b2n service_row). lia.
    + intros k. rewrite Hl, Hl1.
      rewrite (length_filter_cons_b2n
                 (λ r, service_row r && filed_under "Location" k r)).
      apply counter_step.
    + intros k. rewrite Hy, Hy1.
      rewrite (length_filter_cons_b2n
                 (λ r, service_row r && filed_under "Payor" k r)).
      apply counter_step.
    + intros k. rewrite Hp, Hp1.
      rewrite (length_filter_cons_b2n
                 (λ r, service_row r && filed_under "Patient" k r)).
      apply counter_step.
Qed.

End ServiceCounts.

(** X13. What [process_telemedicine_data] counts, when it
    returns: the total is the number of rows whose service names
    telemedicine; a location, a payor and a patient have an entry exactly
    when at least one such row is filed under them, and the entry counts
    these rows; so no count is zero and none exceeds the total. *)
Theorem service_counts_exact (data : list row) (st : TelemedSort.telemed_state) :
  TelemedSort.process_telemedicine_data data = Some st →
  TelemedSort.total_count st = length (filter (λ r, service_row r) data)
  ∧ (∀ k, Dict.get k (TelemedSort.location_summary st)
          = positive_count
              (length (filter (λ r, service_row r
                                    && filed_under "Location" k r) data)))
  ∧ (∀ k, Dict.get k (TelemedSort.payor_summary st)
          = positive_count
              (length (filter (λ r, service_row r
                                    && filed_under "Payor" k r) data)))
  ∧ (∀ k, TelemedSort.count <$> Dict.get k (TelemedSort.patient_details st)
          = positive_count
              (length (filter (λ r, service_row r
                                    && filed_under "Patient" k r) data)))
  ∧ (∀ k n, Dict.get k (TelemedSort.location_summary st) = Some n
            ∨ Dict.get k (TelemedSort.payor_summary st) = Some n
            ∨ TelemedSort.count <$> Dict.get k (TelemedSort.patient_details st)
              = Some n →
            1 ≤ n ≤ TelemedSort.total_count st).
Proof.
  unfold TelemedSort.process_telemedicine_data. intros Hloop.
  destruct (telemed_loop_views data _ st Hloop) as (Ht & Hl & Hy & Hp).
  cbn [TelemedSort.total_count TelemedSort.location_summary
       TelemedSort.payor_summary TelemedSort.patient_details Dict.get
       fmap option_fmap option_map default from_option] in Ht, Hl, Hy, Hp.
  assert (Hl' : ∀ k, Dict.get k (TelemedSort.location_summary st)
            = positive_count
                (length (filter (λ r, service_row r
                                      && filed_under "Location" k r) data))).
  { intros k. rewrite Hl.
    by destruct (length (filter (λ r, service_row r
                                      && filed_under "Location" k r) data)). }
  assert (Hy' : ∀ k, Dict.get k (TelemedSort.payor_summary st)
            = positive_count
                (length (filter (λ r, service_row r
                                      && filed_under "Payor" k r) data))).
  { intros k. rewrite Hy.
    by destruct (length (filter (λ r, service_row r
                                      && filed_under "Payor" k r) data)). }
  assert (Hp' : ∀ k, TelemedSort.count
                       <$> Dict.get k (TelemedSort.patient_details st)
            = positive_count
                (length (filter (λ r, service_row r
                                      && filed_under "Patient" k r) data))).
  { intros k. rewrite Hp.
    by destruct (length (filter (λ r, service_row r
                                      && filed_under "Patient" k r) data)). }
  assert (Hbound : ∀ (c : row → bool) n,
            positive_count (length (filter (λ r, service_row r && c r) data))
            = Some n →
            1 ≤ n ≤ length (filter (λ r, service_row r) data)).
  { intros c n Hn.
    assert (Hle : length (filter (λ r, service_row r && c r) data)
                  ≤ length (filter (λ r, service_row r) data)).
    { clear. induction data as [|r data IH]; [done|].
      rewrite (length_filter_cons_b2n (λ r, service_row r && c r)),
        (length_filter_cons_b2n service_row).
      destruct (service_row r), (c r); cbn; lia. }
    destruct (length (filter (λ r, service_row r && c r) data)); [done|].
    injection Hn as <-. lia. }
  split; [lia|]. split; [done|]. split; [done|]. split; [done|].
  intros k n. rewrite Hl', Hy', Hp', Ht, Nat.add_0_l.
  intros [H|[H|H]]; by apply Hbound in H.
Qed.

Lemma service_counts_exact_witness :
  match TelemedSort.process_telemedicine_data Samples.visits with
  | Some st =>
      TelemedSort.total_count st
      = length (filter (λ r, service_row r) Samples.visits)
      ∧ TelemedSort.total_count st = 4
      ∧ Dict.get "OKC" (TelemedSort.location_summary st) = Some 3
  | None => False
  end.
Proof.
  destruct (TelemedSort.process_telemedicine_data Samples.visits)
    as [st|] eqn:Hrun; [|vm_compute in Hrun; discriminate].
  destruct (service_counts_exact _ _ Hrun) as (Htot & _).
  split; [exact Htot|].
  vm_compute in Hrun. injection Hrun as <-. split; reflexivity.
Defined.

(** ** Client lists *)

Section ClientLists.

Lemma present_normalize (v : option string) (p : string) :
  py_present v = true ∧ py_stripped v = p ↔ normalize v = Some p.
Proof.
  unfold py_present, py_stripped, normalize.
  destruct v as [s|]; [|cbn; split; [by intros [? _]|done]].
  cbn [py_not fmap option_fmap option_map from_option]. unfold id.
  rewrite !negb_involutive.
  destruct (Py.truthy (Py.strip s)) eqn:Hs.
  - assert (Py.truthy s = true) as -> by (by destruct s).
    split; [by intros [_ ->]|]. by intros [= ->].
  - rewrite andb_false_r. split; [by intros [? _]|done].
Qed.

Lemma py_matches_upper (v : option string) (target target' : string) :
  Py.upper target' = Py.upper target →
  py_matches v target' = py_matches v target.
Proof. unfold py_matches. by intros ->. Qed.

Lemma unique_step_spec (field target : string) (acc : gset string) (r : row) :
  ClientList.unique_step field target acc r
  = match normalize (Row.get r "Patient") with
    | Some p => if py_matches (Row.get r field) target then acc ∪ {[p]} else acc
    | None => acc
    end.
Proof.
  unfold ClientList.unique_step.
  destruct (normalize (Row.get r "Patient")) as [p|] eqn:Hp.
  - apply present_normalize in Hp as [-> ->].
    by rewrite andb_true_r.
  - destruct (py_present (Row.get r "Patient")) eqn:Hpres;
      [|by rewrite andb_false_r].
    assert (Hn : normalize (Row.get r "Patient")
                 = Some (py_stripped (Row.get r "Patient")))
      by (by apply present_normalize).
    by rewrite Hp in Hn.
Qed.

Lemma unique_step2_spec (target_location : string) (target_payor : option string)
    (acc : gset string) (r : row) :
  ClientList2.unique_step target_location target_payor acc r
  = match normalize (Row.get r "Patient") with
    | Some p =>
        if py_matches (Row.get r "Location") target_location
           && (py_not target_payor
               || py_matches (Row.get r "Payor") (default "" target_payor))
        then acc ∪ {[p]} else acc
    | None => acc
    end.
Proof.
  unfold ClientList2.unique_step. rewrite py_skip_normalize.
  destruct (normalize (Row.get r "Patient")) as [p|] eqn:Hp.
  - rewrite bool_decide_eq_false_2 by done.
    apply present_normalize in Hp as [_ ->].
    destruct (py_not target_payor); cbn [negb orb].
    + by rewrite andb_true_r.
    + done.
  - by rewrite bool_decide_eq_true_2.
Qed.

(** Membership in a set built by a loop that adds [name r] for the rows
    that pass [keep]. *)
Lemma elem_of_fold_add (step : gset string → row → gset string)
    (pick : row → option string) (data : list row) :
  (∀ acc r, step acc r = match pick r with
                         | Some p => acc ∪ {[p]}
                         | None => acc
                         end) →
  ∀ (acc : gset string) (p : string),
    p ∈ fold_left step data acc ↔ p ∈ acc ∨ ∃ r, r ∈ data ∧ pick r = Some p.
Proof.
  intros Hstep. induction data as [|r data IH]; intros acc p.
  - cbn. split; [by left|]. intros [?|(r & Hr & _)]; [done|].
    by apply elem_of_nil in Hr.
  - cbn [fold_left]. rewrite IH, Hstep. split.
    + intros [Hin|(r' & Hr' & ?)].
      * destruct (pick r) as [q|] eqn:Hq; [|by left].
        apply elem_of_union in Hin as [?|Hin]; [by left|].
        apply elem_of_singleton in Hin as ->.
        right. exists r. split; [left|done].
      * right. exists r'. split; [by right|done].
    + intros [?|(r' & Hr' & Hp)].
      * left. destruct (pick r); [|done]. apply elem_of_union. by left.
      * apply elem_of_cons in Hr' as [->|Hr'].
        -- left. rewrite Hp. apply elem_of_union. right.
           by apply elem_of_singleton.
        -- right. by exists r'.
Qed.

Lemma size_fold_add (step : gset string → row → gset string)
    (pick : row → option string) (data : list row) :
  (∀ acc r, step acc r = match pick r with
                         | Some p => acc ∪ {[p]}
                         | None => acc
                         end) →
  ∀ acc : gset string, size (fold_left step data acc) ≤ size acc + length data.
Proof.
  intros Hstep. induction data as [|r data IH]; intros acc; [cbn; lia|].
  cbn [fold_left length]. etrans; [apply IH|]. rewrite Hstep.
  destruct (pick r) as [p|]; [|lia].
  pose proof (size_add_le acc p). lia.
Qed.

Lemma length_sorted_strings (s : gset string) :
  length (sorted_strings s) = size s.
Proof. by rewrite sorted_strings_perm. Qed.

Lemma numbered_lines_lookup (l : list string) (i : nat) (p : string) :
  l !! i = Some p →
  numbered_lines l !! i
  = Some (Py.rjust 4 (str_of_nat (S i)) +:+ ". " +:+ p).
Proof.
  intros Hi. unfold numbered_lines. by rewrite list_lookup_imap, Hi.
Qed.

Lemma elem_of_client_list (field : string) (data : list row)
    (target p : string) :
  p ∈ ClientList.sorted_patients field data target
  ↔ ∃ r, r ∈ data ∧ py_matches (Row.get r field) target
         ∧ normalize (Row.get r "Patient") = Some p.
Proof.
  set (pick := λ r : row,
         match normalize (Row.get r "Patient") with
         | Some p => if py_matches (Row.get r field) target then Some p else None
         | None => None
         end).
  assert (Hstep : ∀ acc r,
            ClientList.unique_step field target acc r
            = match pick r with Some p => acc ∪ {[p]} | None => acc end).
  { intros acc r. rewrite unique_step_spec. unfold pick.
    destruct (normalize (Row.get r "Patient")); [|done].
    by destruct (py_matches (Row.get r field) target). }
  unfold ClientList.sorted_patients, ClientList.unique_patients.
  rewrite elem_of_sorted_strings, (elem_of_fold_add _ pick data Hstep).
  split.
  - intros [?%elem_of_empty|(r & Hr & Hp)]; [done|].
    exists r. split; [done|]. unfold pick in Hp.
    destruct (normalize (Row.get r "Patient")) as [q|]; [|done].
    destruct (py_matches (Row.get r field) target) eqn:Hm; [|done].
    by injection Hp as ->.
  - intros (r & Hr & Hm & Hp). right. exists r. split; [done|].
    unfold pick. rewrite Hp. apply Is_true_true in Hm. by rewrite Hm.
Qed.

Lemma length_client_list (field : string) (data : list row) (target : string) :
  length (ClientList.sorted_patients field data target) ≤ length data.
Proof.
  set (pick := λ r : row,
         match normalize (Row.get r "Patient") with
         | Some p => if py_matches (Row.get r field) target then Some p else None
         | None => None
         end).
  assert (Hstep : ∀ acc r,
            ClientList.unique_step field target acc r
            = match pick r with Some p => acc ∪ {[p]} | None => acc end).
  { intros acc r. rewrite unique_step_spec. unfold pick.
    destruct (normalize (Row.get r "Patient")); [|done].
    by destruct (py_matches (Row.get r field) target). }
  unfold ClientList.sorted_patients, ClientList.unique_patients.
  rewrite length_sorted_strings.
  etrans; [apply (size_fold_add _ pick data Hstep)|].
  rewrite size_empty. lia.
Qed.

Lemma client_list_upper (field : string) (data : list row)
    (target target' : string) :
  Py.upper target' = Py.upper target →
  ClientList.sorted_patients field data target'
  = ClientList.sorted_patients field data target.
Proof.
  intros Hup.
  unfold ClientList.sorted_patients, ClientList.unique_patients. f_equal.
  generalize (∅ : gset string).
  induction data as [|r data IH]; intros acc; [done|].
  cbn [fold_left]. rewrite IH.
  assert (ClientList.unique_step field target' acc r
          = ClientList.unique_step field target acc r) as ->; [|done].
  unfold ClientList.unique_step. by rewrite (py_matches_upper _ _ _ Hup).
Qed.

Lemma client_list2_no_payor (data : list row) (target_location : string)
    (target_payor : option string) :
  py_not target_payor = true →
  ClientList2.sorted_patients data target_location target_payor
  = ClientList.sorted_patients "Location" data target_location.
Proof.
  intros Hnone.
  unfold ClientList2.sorted_patients, ClientList.sorted_patients,
    ClientList2.unique_patients, ClientList.unique_patients. f_equal.
  generalize (∅ : gset string).
  induction data as [|r data IH]; intros acc; [done|].
  cbn [fold_left]. rewrite IH.
  assert (ClientList2.unique_step target_location target_payor acc r
          = ClientList.unique_step "Location" target_location acc r)
    as ->; [|done].
  rewrite unique_step2_spec, unique_step_spec, Hnone.
  cbn [orb]. by rewrite andb_true_r.
Qed.

End ClientLists.

(** X14. [print_unique_client_list] of clientByLocation.py and
    clientByPayerType.py: a name is listed exactly when some row matches the
    target in the dimension field and carries the name, trimmed, as its
    patient; the names are trimmed, not empty, each listed once in ascending
    order, and at most as many as there are rows; two targets that differ
    in case only give the same list; the entry at place [i] of the list is
    printed on line [3 + i] with the number [i + 1], and the total printed is
    the length of the list. *)
Theorem client_list_members (field : string)
    (none_found total_label : string → string) (data : list row)
    (target : string) :
  let listing := ClientList.sorted_patients field data target in
  let printed := ClientList.print_unique_client_list field none_found
                   total_label data target in
  (∀ p, p ∈ listing
        ↔ ∃ r, r ∈ data ∧ py_matches (Row.get r field) target
               ∧ normalize (Row.get r "Patient") = Some p)
  ∧ StronglySorted str_lt listing
  ∧ (∀ p, p ∈ listing → Py.strip p = p ∧ p ≠ "")
  ∧ length listing ≤ length data
  ∧ (∀ target', Py.upper target' = Py.upper target →
       ClientList.sorted_patients field data target' = listing)
  ∧ (∀ i p, listing !! i = Some p →
       printed !! (3 + i)
       = Some (Py.rjust 4 (str_of_nat (S i)) +:+ ". " +:+ p))
  ∧ last printed = Some (Py.repeat_char "=" 50)
  ∧ printed !! (length printed - 2)
    = Some (total_label target +:+ str_of_nat (length listing)).
Proof.
  intros listing printed.
  assert (Hmem := elem_of_client_list field data target).
  fold listing in Hmem.
  split; [done|]. split; [apply sorted_strings_ascending|].
  split.
  { intros p (r & _ & _ & Hp)%Hmem. by apply normalize_trimmed in Hp. }
  split.
  { apply length_client_list. }
  split.
  { intros target' Hup. by apply client_list_upper. }
  subst printed. unfold ClientList.print_unique_client_list. fold listing.
  split.
  { intros i p Hi.
    rewrite lookup_app_r by (cbn; lia). cbn [length].
    replace (3 + i - 3) with i by lia.
    destruct listing as [|q l] eqn:Hl; [done|].
    rewrite lookup_app_l
      by (unfold numbered_lines; rewrite length_imap;
          by apply lookup_lt_Some in Hi).
    by apply numbered_lines_lookup. }
  split.
  { rewrite !last_app. by cbn. }
  rewrite !length_app. cbn [length].
  rewrite lookup_app_r by (cbn [length]; lia).
  rewrite lookup_app_r by (cbn [length]; lia).
  match goal with
  | |- _ !! ?n = _ => replace n with 1 by (cbn [length]; lia)
  end.
  done.
Qed.

(** X15. [print_unique_client_list] of
    clientByLocationAndPayer.py: a name is listed exactly when some row
    matches the target location, matches the target payor if one is given,
    and carries the name, trimmed, as its patient; without a target payor,
    or with an empty one, the list is the list of the location script for
    the same target; with a target payor it is a part of that list; the
    names ascend, each listed once. *)
Theorem combined_client_list_refines (data : list row)
    (target_location : string) (target_payor : option string) :
  let listing :=
    ClientList2.sorted_patients data target_location target_payor in
  (∀ p, p ∈ listing
        ↔ ∃ r, r ∈ data ∧ py_matches (Row.get r "Location") target_location
               ∧ (py_not target_payor
                  ∨ py_matches (Row.get r "Payor") (default "" target_payor))
               ∧ normalize (Row.get r "Patient") = Some p)
  ∧ StronglySorted str_lt listing
  ∧ (py_not target_payor →
     listing = ClientList.sorted_patients "Location" data target_location)
  ∧ (∀ p, p ∈ listing →
       p ∈ ClientList.sorted_patients "Location" data target_location).
Proof.
  intros listing.
  set (pick := λ r : row,
         match normalize (Row.get r "Patient") with
         | Some p =>
             if py_matches (Row.get r "Location") target_location
                && (py_not target_payor
                    || py_matches (Row.get r "Payor") (default "" target_payor))
             then Some p else None
         | None => None
         end).
  assert (Hstep : ∀ acc r,
            ClientList2.unique_step target_location target_payor acc r
            = match pick r with Some p => acc ∪ {[p]} | None => acc end).
  { intros acc r. rewrite unique_step2_spec. unfold pick.
    destruct (normalize (Row.get r "Patient")); [|done].
    by destruct (_ && _). }
  assert (Hmem : ∀ p, p ∈ listing
            ↔ ∃ r, r ∈ data
                   ∧ py_matches (Row.get r "Location") target_location
                   ∧ (py_not target_payor
                      ∨ py_matches (Row.get r "Payor") (default "" target_payor))
                   ∧ normalize (Row.get r "Patient") = Some p).
  { intros p. subst listing. unfold ClientList2.sorted_patients,
      ClientList2.unique_patients.
    rewrite elem_of_sorted_strings, (elem_of_fold_add _ pick data Hstep).
    split.
    - intros [?%elem_of_empty|(r & Hr & Hp)]; [done|].
      exists r. split; [done|]. unfold pick in Hp.
      destruct (normalize (Row.get r "Patient")) as [q|]; [|done].
      destruct (py_matches (Row.get r "Location") target_location) eqn:Hm;
        [|done].
      cbn [andb] in Hp.
      destruct (py_not target_payor
                || py_matches (Row.get r "Payor") (default "" target_payor))
        eqn:Hy; [|done].
      injection Hp as ->. split; [done|]. split; [|done].
      apply orb_true_iff in Hy as [Hy|Hy]; [left|right]; by rewrite Hy.
    - intros (r & Hr & Hm & Hy & Hp). right. exists r. split; [done|].
      unfold pick. rewrite Hp. apply Is_true_true in Hm. rewrite Hm.
      cbn [andb].
      assert (py_not target_payor
              || py_matches (Row.get r "Payor") (default "" target_payor)
              = true) as ->; [|done].
      apply orb_true_iff.
      destruct Hy as [Hy|Hy]; [left|right]; by apply Is_true_true. }
  split; [done|]. split; [apply sorted_strings_ascending|].
  split.
  { intros Hnone. apply Is_true_true in Hnone.
    by apply client_list2_no_payor. }
  intros p (r & Hr & Hm & _ & Hp)%Hmem.
  apply elem_of_client_list. eauto.
Qed.

(** ** The two completeness analyzers *)

Section GapsAgree.

(** The part of the state of the analyzer of clientByLocationAndPayer.py
    that the analyzer of clientByLocation.py has too. *)
Lemma gaps_step_simulation (st st' : ClientByLocationAndPayer.gaps_state)
    (r : row) :
  ClientByLocationAndPayer.gaps_step st r = Some st' →
  ClientByLocation.gaps_step
    (ClientByLocation.GapsState
       (ClientByLocationAndPayer.has_payor_no_location st)
       (ClientByLocationAndPayer.has_location_no_payor st)
       (ClientByLocationAndPayer.has_both st)
       (ClientByLocationAndPayer.has_neither st)) r
  = Some (ClientByLocation.GapsState
            (ClientByLocationAndPayer.has_payor_no_location st')
            (ClientByLocationAndPayer.has_location_no_payor st')
            (ClientByLocationAndPayer.has_both st')
            (ClientByLocationAndPayer.has_neither st')).
Proof.
  unfold ClientByLocationAndPayer.gaps_step, ClientByLocation.gaps_step.
  destruct (Row.get_strip r "Location") as [location|]; [|done].
  destruct (Row.get_strip r "Payor") as [payor|]; [|done].
  destruct (Row.get_strip r "Patient") as [patient|]; [|done].
  cbn [mbind option_bind]. intros [= <-]. f_equal.
  by destruct (Py.truthy payor), (Py.truthy location), (Py.truthy patient).
Qed.

Lemma gaps_loop_simulation (data : list row) :
  ∀ st st' : ClientByLocationAndPayer.gaps_state,
    ClientByLocationAndPayer.gaps_loop data st = Some st' →
    ClientByLocation.gaps_loop data
      (ClientByLocation.GapsState
         (ClientByLocationAndPayer.has_payor_no_location st)
         (ClientByLocationAndPayer.has_location_no_payor st)
         (ClientByLocationAndPayer.has_both st)
         (ClientByLocationAndPayer.has_neither st))
    = Some (ClientByLocation.GapsState
              (ClientByLocationAndPayer.has_payor_no_location st')
              (ClientByLocationAndPayer.has_location_no_payor st')
              (ClientByLocationAndPayer.has_both st')
              (ClientByLocationAndPayer.has_neither st')).
Proof.
  induction data as [|r data IH]; intros st st';
    cbn [ClientByLocationAndPayer.gaps_loop ClientByLocation.gaps_loop].
  - by intros [= <-].
  - destruct (ClientByLocationAndPayer.gaps_step st r) as [st1|] eqn:Hstep;
      [|done].
    cbn [mbind option_bind]. intros Hloop.
    rewrite (gaps_step_simulation _ _ _ Hstep). cbn [mbind option_bind].
    by apply IH.
Qed.

Lemma group_add_union (k p : string) (d : Dict.t (gset string))
    (members : gset string) :
  (∀ q, q ∈ members ↔ ∃ key g, Dict.get key d = Some g ∧ q ∈ g) →
  ∀ q, q ∈ members ∪ {[p]}
       ↔ ∃ key g, Dict.get key (group_add k p d) = Some g ∧ q ∈ g.
Proof.
  intros HS q. rewrite elem_of_union, elem_of_singleton. split.
  - intros [Hq| ->].
    + apply HS in Hq as (key & g & Hget & Hq).
      destruct (decide (key = k)) as [->|Hne].
      * exists k, (g ∪ {[p]}). rewrite get_group_add, decide_True by done.
        rewrite Hget. split; [done|]. apply elem_of_union. by left.
      * exists key, g. by rewrite get_group_add, decide_False.
    + exists k, (default ∅ (Dict.get k d) ∪ {[p]}).
      rewrite get_group_add, decide_True by done. split; [done|].
      apply elem_of_union. right. by apply elem_of_singleton.
  - intros (key & g & Hget & Hq). rewrite get_group_add in Hget.
    destruct (decide (key = k)) as [->|Hne].
    + injection Hget as <-.
      apply elem_of_union in Hq as [Hq|Hq];
        [|right; by apply elem_of_singleton in Hq].
      left. apply HS. destruct (Dict.get k d) as [g|] eqn:Hg.
      * by exists k, g.
      * by apply elem_of_empty in Hq.
    + left. apply HS. by exists key, g.
Qed.

Lemma group_add_groups (P : string → Prop) (k p : string)
    (d : Dict.t (gset string)) :
  P k →
  (∀ key g, Dict.get key d = Some g → g ≠ ∅ ∧ P key) →
  ∀ key g, Dict.get key (group_add k p d) = Some g → g ≠ ∅ ∧ P key.
Proof.
  intros Hk Hd key g. rewrite get_group_add.
  destruct (decide (key = k)) as [->|Hne]; [|apply Hd].
  intros [= <-]. split; [|done]. intros Hempty.
  apply (not_elem_of_empty (C := gset string) p). rewrite <- Hempty.
  apply elem_of_union. right. by apply elem_of_singleton.
Qed.

Lemma get_strip_trimmed (r : row) (k s : string) :
  Row.get_strip r k = Some s → Py.strip s = s.
Proof.
  unfold Row.get_strip. destruct (Row.get_or_empty r k) as [raw|]; [|done].
  cbn. intros [= <-]. apply strip_idempotent.
Qed.

Lemma gaps2_step_groups (st st' : ClientByLocationAndPayer.gaps_state) (r : row) :
  ClientByLocationAndPayer.gaps_step st r = Some st' →
  ((∀ q, q ∈ ClientByLocationAndPayer.has_payor_no_location st
         ↔ ∃ key g, Dict.get key (ClientByLocationAndPayer.payor_only_by_payor st)
                    = Some g ∧ q ∈ g)
   ∧ (∀ q, q ∈ ClientByLocationAndPayer.has_location_no_payor st
           ↔ ∃ key g,
               Dict.get key (ClientByLocationAndPayer.location_only_by_location st)
               = Some g ∧ q ∈ g)
   ∧ (∀ key g,
        Dict.get key (ClientByLocationAndPayer.payor_only_by_payor st) = Some g →
        g ≠ ∅ ∧ Py.strip key = key ∧ key ≠ "")
   ∧ (∀ key g,
        Dict.get key (ClientByLocationAndPayer.location_only_by_location st)
        = Some g →
        g ≠ ∅ ∧ Py.strip key = key ∧ key ≠ "")) →
  (∀ q, q ∈ ClientByLocationAndPayer.has_payor_no_location st'
        ↔ ∃ key g, Dict.get key (ClientByLocationAndPayer.payor_only_by_payor st')
                   = Some g ∧ q ∈ g)
  ∧ (∀ q, q ∈ ClientByLocationAndPayer.has_location_no_payor st'
          ↔ ∃ key g,
              Dict.get key (ClientByLocationAndPayer.location_only_by_location st')
              = Some g ∧ q ∈ g)
  ∧ (∀ key g,
       Dict.get key (ClientByLocationAndPayer.payor_only_by_payor st') = Some g →
       g ≠ ∅ ∧ Py.strip key = key ∧ key ≠ "")
  ∧ (∀ key g,
       Dict.get key (ClientByLocationAndPayer.location_only_by_location st')
       = Some g →
       g ≠ ∅ ∧ Py.strip key = key ∧ key ≠ "").
Proof.
  unfold ClientByLocationAndPayer.gaps_step.
  destruct (Row.get_strip r "Location") as [location|] eqn:Hl; [|done].
  destruct (Row.get_strip r "Payor") as [payor|] eqn:Hy; [|done].
  destruct (Row.get_strip r "Patient") as [patient|]; [|done].
  cbn [mbind option_bind]. intros [= <-] (H1 & H2 & H3 & H4).
  apply get_strip_trimmed in Hl, Hy.
  destruct (Py.truthy payor) eqn:Hty, (Py.truthy location) eqn:Htl,
    (Py.truthy patient); cbn [andb negb]; try done;
    cbn [ClientByLocationAndPayer.has_payor_no_location
         ClientByLocationAndPayer.has_location_no_payor
         ClientByLocationAndPayer.payor_only_by_payor
         ClientByLocationAndPayer.location_only_by_location].
  - split; [by apply group_add_union|]. split; [done|]. split; [|done].
    apply (group_add_groups (λ key, Py.strip key = key ∧ key ≠ "")); [|done].
    split; [done|]. by apply truthy_ne.
  - split; [done|]. split; [by apply group_add_union|]. split; [done|].
    apply (group_add_groups (λ key, Py.strip key = key ∧ key ≠ "")); [|done].
    split; [done|]. by apply truthy_ne.
Qed.

Lemma gaps2_loop_groups (data : list row) :
  ∀ st st' : ClientByLocationAndPayer.gaps_state,
    ClientByLocationAndPayer.gaps_loop data st = Some st' →
    ((∀ q, q ∈ ClientByLocationAndPayer.has_payor_no_location st
           ↔ ∃ key g,
               Dict.get key (ClientByLocationAndPayer.payor_only_by_payor st)
               = Some g ∧ q ∈ g)
     ∧ (∀ q, q ∈ ClientByLocationAndPayer.has_location_no_payor st
             ↔ ∃ key g,
                 Dict.get key
                   (ClientByLocationAndPayer.location_only_by_location st)
                 = Some g ∧ q ∈ g)
     ∧ (∀ key g,
          Dict.get key (ClientByLocationAndPayer.payor_only_by_payor st)
          = Some g →
          g ≠ ∅ ∧ Py.strip key = key ∧ key ≠ "")
     ∧ (∀ key g,
          Dict.get key (ClientByLocationAndPayer.location_only_by_location st)
          = Some g →
          g ≠ ∅ ∧ Py.strip key = key ∧ key ≠ "")) →
    (∀ q, q ∈ ClientByLocationAndPayer.has_payor_no_location st'
          ↔ ∃ key g,
              Dict.get key (ClientByLocationAndPayer.payor_only_by_payor st')
              = Some g ∧ q ∈ g)
    ∧ (∀ q, q ∈ ClientByLocationAndPayer.has_location_no_payor st'
            ↔ ∃ key g,
                Dict.get key
                  (ClientByLocationAndPayer.location_only_by_location st')
                = Some g ∧ q ∈ g)
    ∧ (∀ key g,
         Dict.get key (ClientByLocationAndPayer.payor_only_by_payor st')
         = Some g →
         g ≠ ∅ ∧ Py.strip key = key ∧ key ≠ "")
    ∧ (∀ key g,
         Dict.get key (ClientByLocationAndPayer.location_only_by_location st')
         = Some g →
         g ≠ ∅ ∧ Py.strip key = key ∧ key ≠ "").
Proof.
  induction data as [|r data IH]; intros st st';
    cbn [ClientByLocationAndPayer.gaps_loop].
  - by intros [= <-].
  - destruct (ClientByLocationAndPayer.gaps_step st r) as [st1|] eqn:Hstep;
      [|done].
    cbn [mbind option_bind]. intros Hloop Hinv.
    apply (IH st1 st' Hloop). by apply (gaps2_step_groups st st1 r).
Qed.

End GapsAgree.

(** X16. [analyze_data_gaps] of clientByLocationAndPayer.py, when
    its loop goes through: the four tallies are those of [analyze_data_gaps]
    of clientByLocation.py on the same table, which returns them; the groups
    by payor hold, together, exactly the patients counted as having a payor
    and no location, and the groups by location exactly those with a
    location and no payor; no group is empty, and the name of a group is
    trimmed and not empty. *)
Theorem combined_gaps_agree (fmt1 : Q → string) (data : list row)
    (st : ClientByLocationAndPayer.gaps_state) (console : list string) :
  ClientByLocationAndPayer.analyze_data_gaps fmt1 data
  = ClientByLocationAndPayer.NameError st console →
  (∃ summary,
     ClientByLocation.analyze_data_gaps data = Some summary
     ∧ ClientByLocation.total_records summary = length data
     ∧ ClientByLocation.has_both_count summary
       = ClientByLocationAndPayer.has_both st
     ∧ ClientByLocation.has_neither_count summary
       = ClientByLocationAndPayer.has_neither st
     ∧ ClientByLocation.payor_no_location summary
       = size (ClientByLocationAndPayer.has_payor_no_location st)
     ∧ ClientByLocation.location_no_payor summary
       = size (ClientByLocationAndPayer.has_location_no_payor st)
     ∧ ClientByLocation.patients_payor_no_location summary
       = sorted_strings (ClientByLocationAndPayer.has_payor_no_location st)
     ∧ ClientByLocation.patients_location_no_payor summary
       = sorted_strings (ClientByLocationAndPayer.has_location_no_payor st))
  ∧ (∀ q, q ∈ ClientByLocationAndPayer.has_payor_no_location st
          ↔ ∃ payor group,
              Dict.get payor (ClientByLocationAndPayer.payor_only_by_payor st)
              = Some group ∧ q ∈ group)
  ∧ (∀ q, q ∈ ClientByLocationAndPayer.has_location_no_payor st
          ↔ ∃ location group,
              Dict.get location
                (ClientByLocationAndPayer.location_only_by_location st)
              = Some group ∧ q ∈ group)
  ∧ (∀ key group,
       Dict.get key (ClientByLocationAndPayer.payor_only_by_payor st)
       = Some group
       ∨ Dict.get key (ClientByLocationAndPayer.location_only_by_location st)
         = Some group →
       group ≠ ∅ ∧ Py.strip key = key ∧ key ≠ "").
Proof.
  intros Hrun. apply analyze_data_gaps_output in Hrun as [Hloop _].
  split.
  - apply gaps_loop_simulation in Hloop.
    eexists. unfold ClientByLocation.analyze_data_gaps.
    change (ClientByLocation.GapsState _ _ _ _) with ClientByLocation.gaps_init
      in Hloop at 1.
    rewrite Hloop. cbn [mbind option_bind]. split; [reflexivity|].
    by cbn.
  - destruct (gaps2_loop_groups data _ st Hloop) as (H1 & H2 & H3 & H4).
    + cbn. split_and!; try done.
      * intros q. split; [by intros ?%elem_of_empty|by intros (? & ? & ? & _)].
      * intros q. split; [by intros ?%elem_of_empty|by intros (? & ? & ? & _)].
    + split; [done|]. split; [done|].
      intros key group [H|H]; [by apply H3 in H|by apply H4 in H].
Qed.

Lemma combined_gaps_agree_witness :
  match ClientByLocationAndPayer.analyze_data_gaps (λ _, "0.0")
          Samples.gap_groups with
  | ClientByLocationAndPayer.NameError st console =>
      ∃ summary,
        ClientByLocation.analyze_data_gaps Samples.gap_groups = Some summary
        ∧ ClientByLocation.payor_no_location summary
          = size (ClientByLocationAndPayer.has_payor_no_location st)
  | ClientByLocationAndPayer.AttributeError => False
  end.
Proof.
  destruct (ClientByLocationAndPayer.analyze_data_gaps (λ _, "0.0")
              Samples.gap_groups) as [|st console] eqn:Hrun;
    [vm_compute in Hrun; discriminate|].
  destruct (combined_gaps_agree _ _ _ _ Hrun)
    as ((summary & Hs & _ & _ & _ & Hp & _) & _).
  by exists summary.
Defined.

(** ** The names script *)

Section NamesFacts.

Lemma elem_of_names (names_text name : string) :
  name ∈ Names.names names_text →
  Py.strip name = name ∧ name ≠ "".
Proof.
  unfold Names.names. rewrite list_elem_of_omap.
  intros (line & _ & Hline).
  destruct (Py.truthy (Py.strip line)) eqn:Ht; [|done].
  injection Hline as <-. split; [apply strip_idempotent|by apply truthy_ne].
Qed.

Lemma size_list_to_set_le (l : list string) :
  size (list_to_set l : gset string) ≤ length l.
Proof.
  rewrite size_list_to_set_distinct. apply length_remove_dups_le.
Qed.

Lemma enumerated_lookup (start : Z) (l : list string) (i : nat) (name : string) :
  l !! i = Some name →
  Names.enumerated start l !! i
  = Some (str_of_Z (start + Z.of_nat i) +:+ ". " +:+ name).
Proof.
  intros Hi. unfold Names.enumerated. by rewrite list_lookup_imap, Hi.
Qed.

Lemma length_enumerated (start : Z) (l : list string) :
  length (Names.enumerated start l) = length l.
Proof. apply length_imap. Qed.

Lemma last_n_lookup {A : Type} (n : nat) (l : list A) (j : nat) :
  last_n n l !! j = l !! (length l - n + j).
Proof. unfold last_n. apply lookup_drop. Qed.

Lemma last_n_short {A : Type} (n : nat) (l : list A) :
  length l ≤ n → last_n n l = l.
Proof.
  intros Hle. unfold last_n. by replace (length l - n) with 0 by lia.
Qed.

End NamesFacts.

(** X17. names_deduplication_script.py. [process_names] returns
    a set of trimmed, non-empty names and its size, which is at most the
    number of lines of the trimmed text. [analyze_names] returns the names
    of the set, each once, in ascending order. It prints the first ten with
    their ranks. In the block of the last ten, the line at place [j] carries
    the number [len - 9 + j]: the rank of its name when there are ten names
    or more; with fewer names the whole list is printed again and the numbers
    start at [len - 9], which is zero or negative. *)
Theorem names_listing_and_numbering (names_text : string) :
  let unique_names := (Names.process_names names_text).1 in
  let total_unique := (Names.process_names names_text).2 in
  let printed := (Names.analyze_names names_text).1 in
  let sorted_names := (Names.analyze_names names_text).2 in
  total_unique = size unique_names
  ∧ total_unique ≤ length (Names.split_lines (Py.strip names_text))
  ∧ (∀ name, name ∈ unique_names → Py.strip name = name ∧ name ≠ "")
  ∧ (∀ name, name ∈ sorted_names ↔ name ∈ unique_names)
  ∧ StronglySorted str_lt sorted_names
  ∧ length sorted_names = total_unique
  ∧ printed !! 0
    = Some ("Total number of unique names: " +:+ str_of_nat total_unique)
  ∧ (∀ i name, i < 10 → sorted_names !! i = Some name →
       printed !! (3 + i)
       = Some (str_of_Z (Z.of_nat (i + 1)) +:+ ". " +:+ name))
  ∧ (∀ j name, last_n 10 sorted_names !! j = Some name →
       printed !! (4 + (10 `min` total_unique) + j)
       = Some (str_of_Z (Z.of_nat total_unique - 9 + Z.of_nat j)
               +:+ ". " +:+ name))
  ∧ (10 ≤ total_unique →
     ∀ j, last_n 10 sorted_names !! j
          = sorted_names !! (total_unique - 10 + j))
  ∧ (total_unique < 10 → last_n 10 sorted_names = sorted_names).
Proof.
  intros unique_names total_unique printed sorted_names.
  subst unique_names total_unique printed sorted_names.
  unfold Names.analyze_names, Names.process_names. cbn [fst snd].
  set (u := list_to_set (Names.names names_text) : gset string).
  set (sorted := sorted_strings u).
  assert (Hlen : length sorted = size u) by apply length_sorted_strings.
  split; [done|]. split.
  { etrans; [apply size_list_to_set_le|]. apply length_omap_le. }
  split.
  { intros name Hin. apply elem_of_list_to_set in Hin.
    by apply elem_of_names in Hin. }
  split; [intros name; apply elem_of_sorted_strings|].
  split; [apply sorted_strings_ascending|].
  split; [done|]. split; [done|].
  assert (Hfirst : length (Names.enumerated 1 (take 10 sorted))
                   = 10 `min` size u).
  { by rewrite length_enumerated, length_take, Hlen. }
  split.
  { intros i name Hi Hname.
    rewrite lookup_app_r by (cbn [length]; lia). cbn [length].
    replace (3 + i - 3) with i by lia.
    assert (Hlt : i < length sorted) by (by apply lookup_lt_Some in Hname).
    rewrite lookup_app_l by (rewrite Hfirst; lia).
    rewrite (enumerated_lookup _ _ _ name) by (by rewrite lookup_take_lt).
    do 3 f_equal. lia. }
  split.
  { intros j name Hname.
    rewrite lookup_app_r by (cbn [length]; lia). cbn [length].
    rewrite lookup_app_r by (rewrite Hfirst; lia). rewrite Hfirst.
    rewrite lookup_app_r by (cbn [length]; lia). cbn [length].
    replace (4 + 10 `min` size u + j - 3 - 10 `min` size u - 1) with j by lia.
    rewrite (enumerated_lookup _ _ _ name) by done.
    by rewrite Hlen. }
  split.
  { intros Hten j. by rewrite last_n_lookup, Hlen. }
  intros Hfew. apply last_n_short. lia.
Qed.

Lemma names_listing_and_numbering_witness :
  (Names.analyze_names ("Reed, Bobby" +:+ nl +:+ "    Example, Example")).1
  !! (4 + 2 + 0)
  = Some "-7. Example, Example"
  ∧ (Names.analyze_names ("Reed, Bobby" +:+ nl +:+ "    Example, Example")).2
    = ["Example, Example"; "Reed, Bobby"].
Proof.
  assert (Hs : (Names.analyze_names
                  ("Reed, Bobby" +:+ nl +:+ "    Example, Example")).2
               = ["Example, Example"; "Reed, Bobby"])
    by (vm_compute; reflexivity).
  split; [|exact Hs].
  destruct (names_listing_and_numbering
              ("Reed, Bobby" +:+ nl +:+ "    Example, Example"))
    as (_ & _ & _ & _ & _ & _ & _ & _ & Hlast & _ & Hfew).
  assert (Hn : (Names.process_names
                  ("Reed, Bobby" +:+ nl +:+ "    Example, Example")).2 = 2)
    by (vm_compute; reflexivity).
  specialize (Hlast 0 "Example, Example").
  rewrite Hn in Hlast, Hfew. rewrite (Hfew ltac:(lia)), Hs in Hlast.
  exact (Hlast eq_refl).
Defined.

(** ** Console summaries of the telemedicine scripts *)

Section ConsoleFacts.

#[global] Instance nat_desc_key_order :
  KeyOrder (λ a b : nat, Nat.ltb b a) (λ a b : nat, b ≤ a).
Proof.
  split.
  - intros a b. rewrite Nat.ltb_ge. done.
  - intros a b c. lia.
  - intros a b. lia.
Qed.

Lemma py_sorted_reverse_spec {A : Type} (key : A → nat) (l : list A) :
  py_sorted_reverse key l ≡ₚ l
  ∧ StronglySorted (λ x y, key y ≤ key x) (py_sorted_reverse key l)
  ∧ ∀ n, filter (λ x, key x = n) (py_sorted_reverse key l)
         = filter (λ x, key x = n) l.
Proof.
  unfold py_sorted_reverse. split; [apply py_sorted_perm|]. split.
  - apply (py_sorted_sorted (λ a b : nat, Nat.ltb b a) (λ a b : nat, b ≤ a) key).
  - intros n. apply py_sorted_filter.
    intros x y Hx Hy. cbv beta in *. apply Nat.ltb_ge. lia.
Qed.

Lemma sorted_take_drop {A : Type} (R : A → A → Prop) (n : nat) (l : list A) :
  StronglySorted R l →
  ∀ x y, x ∈ take n l → y ∈ drop n l → R x y.
Proof.
  intros Hs x y Hx Hy. rewrite <- (take_drop n l) in Hs.
  by eapply (StronglySorted_app_1_elem_of R (take n l) (drop n l)).
Qed.


End ConsoleFacts.

(** X18. [print_telemedicine_summary] of telemedSort.py: the
    patients shown as top users are the first five of a listing of all
    patients in descending order of count in which patients with the same
    count keep the order of the dictionary; so there are five of them or as
    many as there are patients, and no patient left out has a greater count
    than one shown. The summary has five lines and a closing rule, and three
    more lines and the top users when there is a patient. *)
Theorem summary_shows_most_frequent_users (fmt1 : Q → string)
    (total_count : nat) (patient_details : Dict.t TelemedSort.details) :
  let shown := TelemedConsole.top_users patient_details in
  (∃ full,
     shown = take 5 full
     ∧ full ≡ₚ Dict.items patient_details
     ∧ StronglySorted (λ x y, TelemedSort.count y.2 ≤ TelemedSort.count x.2) full
     ∧ (∀ n, filter (λ x, TelemedSort.count x.2 = n) full
             = filter (λ x, TelemedSort.count x.2 = n)
                 (Dict.items patient_details))
     ∧ ∀ x y, x ∈ shown → y ∈ drop 5 full →
              TelemedSort.count y.2 ≤ TelemedSort.count x.2)
  ∧ length shown = 5 `min` length patient_details
  ∧ length (TelemedConsole.print_telemedicine_summary fmt1 total_count
              patient_details)
    = match patient_details with
      | [] => 6
      | _ => 9 + 5 `min` length patient_details
      end.
Proof.
  intros shown.
  destruct (py_sorted_reverse_spec (λ x : string * TelemedSort.details,
                                      TelemedSort.count x.2)
              (Dict.items patient_details)) as (Hperm & Hsorted & Hstable).
  assert (Hlen : length shown = 5 `min` length patient_details).
  { subst shown. unfold TelemedConsole.top_users.
    by rewrite length_take, Hperm. }
  split; [|split; [done|]].
  - eexists. split; [reflexivity|]. split; [done|]. split; [done|].
    split; [done|]. intros x y Hx Hy.
    by apply (sorted_take_drop _ 5 _ Hsorted).
  - unfold TelemedConsole.print_telemedicine_summary.
    destruct patient_details as [|e d] eqn:Hd; [done|].
    rewrite !length_app, length_fmap. fold shown. rewrite Hlen.
    cbn [length]. lia.
Qed.



(** ** The further properties on the sample tables *)

Lemma grouping_result_keys_and_counts_witness :
  Dict.get "OKC" (process_client_by "Location" Samples.duplicates) = Some 1
  ∧ Py.strip "OKC" = "OKC" ∧ "OKC" ≠ "" ∧ 1 ≤ 1 ∧ 1 ≤ length Samples.duplicates.
Proof.
  assert (Hget : Dict.get "OKC" (process_client_by "Location" Samples.duplicates)
                 = Some 1) by (vm_compute; reflexivity).
  split; [exact Hget|].
  destruct (grouping_result_keys_and_counts "Location" Samples.duplicates)
    as (_ & _ & Hkeys & _).
  exact (Hkeys "OKC" 1 Hget).
Defined.

Lemma nested_grouping_result_witness :
  "Smith, A"
  ∈ default ∅ (lookup2 (process_client_by_location_and_payer Samples.duplicates)
                 "OKC" "Medicare").
Proof.
  destruct (nested_grouping_result Samples.duplicates)
    as (_ & _ & _ & Hmem & _).
  apply Hmem.
  exists (mk_row [("Location", " OKC "); ("Payor", "Medicare");
                  ("Patient", "Smith, A ")]).
  split; [right; left|].
  split; [vm_compute; reflexivity|].
  split; vm_compute; reflexivity.
Defined.

Lemma summary_matrix_shape_witness :
  StronglySorted str_lt
    (ClientByLocationAndPayer.sorted_locations
       (process_client_by_location_and_payer Samples.one_gap)).
Proof.
  destruct (summary_matrix_shape "2025-01-01 00:00:00"
              (process_client_by_location_and_payer Samples.one_gap))
    as (_ & _ & _ & _ & Hsorted & _).
  apply Hsorted. unfold Dict.wf. apply (bool_decide_unpack _).
  vm_compute. exact I.
Defined.

Lemma client_list_members_witness :
  ClientList.by_location Samples.duplicates "okc" !! (3 + 0)
  = Some (Py.rjust 4 (str_of_nat 1) +:+ ". " +:+ "Smith, A").
Proof.
  destruct (client_list_members "Location"
              (λ t, "No patients found at " +:+ t +:+ " location.")
              (λ t, "Total unique clients at " +:+ t +:+ ": ")
              Samples.duplicates "okc")
    as (_ & _ & _ & _ & _ & Hline & _).
  apply Hline. vm_compute. reflexivity.
Defined.

Lemma combined_client_list_refines_witness :
  ClientList2.sorted_patients Samples.duplicates "okc" None
  = ClientList.sorted_patients "Location" Samples.duplicates "okc"
  ∧ ClientList2.sorted_patients Samples.duplicates "okc" None = ["Smith, A"].
Proof.
  destruct (combined_client_list_refines Samples.duplicates "okc" None)
    as (_ & _ & Hsame & _).
  split; [apply Hsame; exact I|vm_compute; reflexivity].
Defined.

(** ** Width of the display-limited cells *)

(** X20. The cell that the detail lines of both telemedicine
    reports give to a joined list of names is exactly twenty characters
    wide: a text of at most twenty characters is shown whole and padded, a
    longer one is cut to its first eighteen characters followed by two dots.
    So a detail line of the service report is as long as its patient cell
    and its count cell, which are never cut, and forty-three more. *)
Theorem display_cell_is_twenty_wide :
  (∀ body : string,
     Py.len (Py.ljust 20 (display_limited body)) = 20
     ∧ (Py.len body ≤ 20 → display_limited body = body)
     ∧ (20 < Py.len body →
        display_limited body = Py.take 18 body +:+ ".."
        ∧ Py.len (display_limited body) = 20))
  ∧ (∀ x : string * TelemedSort.details,
       Py.len (TelemedSort.detail_line x)
       = 25 `max` Py.len x.1
         + 8 `max` Py.len (str_of_nat (TelemedSort.count x.2)) + 43).
Proof.
  assert (Hlimited : ∀ body, Py.len (display_limited body) ≤ 20
                             ∧ (20 < Py.len body →
                                Py.len (display_limited body) = 20)).
  { intros body. unfold display_limited.
    destruct (Nat.ltb_spec 20 (Py.len body)) as [Hlong|Hshort].
    - unfold Py.len at 1 3. rewrite string_app_length.
      fold (Py.len (Py.take 18 body)). rewrite take_length.
      cbn [String.length]. unfold Py.len in *. lia.
    - lia. }
  assert (Hcell : ∀ body, Py.len (Py.ljust 20 (display_limited body)) = 20).
  { intros body. rewrite ljust_length. destruct (Hlimited body). lia. }
  split.
  - intros body. split; [apply Hcell|]. split.
    + intros Hshort. unfold display_limited.
      destruct (Nat.ltb_spec 20 (Py.len body)); [lia|done].
    + intros Hlong. split; [|by apply Hlimited].
      unfold display_limited.
      destruct (Nat.ltb_spec 20 (Py.len body)); [done|lia].
  - intros x. unfold TelemedSort.detail_line. cbv zeta.
    unfold Py.len. rewrite !string_app_length.
    fold (Py.len (Py.ljust 25 x.1)).
    fold (Py.len (Py.rjust 8 (str_of_nat (TelemedSort.count x.2)))).
    fold (Py.len (Py.ljust 20 (display_limited (TelemedSort.locations_str x.2)))).
    fold (Py.len (Py.ljust 20 (display_limited (TelemedSort.payors_str x.2)))).
    rewrite !Hcell, ljust_length, rjust_length. cbn [String.length].
    unfold Py.len. lia.
Qed.

Lemma display_cell_is_twenty_wide_witness :
  display_limited "Blue Cross Blue Shield, Medicare" = "Blue Cross Blue Sh.."
  ∧ Py.len (display_limited "Blue Cross Blue Shield, Medicare") = 20.
Proof.
  destruct (proj1 display_cell_is_twenty_wide "Blue Cross Blue Shield, Medicare")
    as (_ & _ & Hlong).
  destruct Hlong as [-> _]; [vm_compute; lia|]. split; reflexivity.
Defined.

(** ** Reading back the saved names *)

Section NamesRoundTrip.

Lemma rev_append (u v : string) :
  String.rev (u +:+ v) = String.rev v +:+ String.rev u.
Proof.
  induction u as [|c u IH].
  - cbn. by rewrite string_app_nil_r.
  - rewrite string_app_cons, !rev_cons, IH. by rewrite string_app_assoc.
Qed.

Lemma lstrip_app (u v : string) :
  Py.lstrip u ≠ "" → Py.lstrip (u +:+ v) = Py.lstrip u +:+ v.
Proof.
  induction u as [|c u IH]; [done|]. rewrite string_app_cons. cbn [Py.lstrip].
  destruct (Py.isspace c); [exact IH|]. intros _. by rewrite string_app_cons.
Qed.

Lemma rstrip_app (a b : string) :
  Py.rstrip b ≠ "" → Py.rstrip (a +:+ b) = a +:+ Py.rstrip b.
Proof.
  intros Hb. unfold Py.rstrip in *. rewrite rev_append, lstrip_app.
  - by rewrite rev_append, rev_involutive.
  - intros Hempty. apply Hb. by rewrite Hempty.
Qed.

Lemma trimmed_head (s : string) :
  Py.strip s = s →
  match s with String c _ => Py.isspace c = false | EmptyString => True end.
Proof.
  intros <-. unfold Py.strip. apply rstrip_head, lstrip_head.
Qed.

Lemma trimmed_last (s : string) :
  Py.strip s = s →
  match String.rev s with
  | String c _ => Py.isspace c = false
  | EmptyString => True
  end.
Proof.
  intros Hs.
  pose proof (lstrip_head (String.rev (Py.lstrip s))) as Hlast.
  rewrite <- (rev_involutive (Py.lstrip _)) in Hlast.
  fold (Py.rstrip (Py.lstrip s)) in Hlast. fold (Py.strip s) in Hlast.
  by rewrite Hs in Hlast.
Qed.

Lemma rstrip_line (name : string) :
  Py.strip name = name → Py.rstrip (name +:+ nl) = name.
Proof.
  intros Hs. unfold Py.rstrip, nl. rewrite rev_app_cons.
  cbn [Py.lstrip]. change (Py.isspace "010") with true. cbv iota.
  rewrite (lstrip_fixed _ (trimmed_last _ Hs)). apply rev_involutive.
Qed.

Lemma split_lines_not_nil (s : string) : Names.split_lines s ≠ [].
Proof.
  induction s as [|c s IH]; [done|]. cbn [Names.split_lines].
  destruct (Ascii.eqb c "010"); [done|].
  by destruct (Names.split_lines s).
Qed.

(** A string without line feed is its own single piece. *)
Lemma single_line_cons (c : ascii) (s : string) :
  Names.split_lines (String c s) = [String c s]
  ↔ Ascii.eqb c "010" = false ∧ Names.split_lines s = [s].
Proof.
  cbn [Names.split_lines].
  destruct (Ascii.eqb c "010"); [by split; [|intros [? _]]|].
  destruct (Names.split_lines s) as [|piece rest] eqn:Hs.
  - by destruct (split_lines_not_nil s).
  - split.
    + intros [= -> ->]. done.
    + intros [_ [= -> ->]]. done.
Qed.

Lemma single_line_app (a b : string) :
  Names.split_lines (a +:+ b) = [a +:+ b]
  ↔ Names.split_lines a = [a] ∧ Names.split_lines b = [b].
Proof.
  induction a as [|c a IH].
  - cbn. split; [by intros ?|by intros [_ ?]].
  - rewrite string_app_cons, !single_line_cons, IH. tauto.
Qed.

Lemma split_lines_pieces (s piece : string) :
  piece ∈ Names.split_lines s → Names.split_lines piece = [piece].
Proof.
  revert piece. induction s as [|c s IH]; intros piece.
  - cbn. by intros ->%list_elem_of_singleton.
  - cbn [Names.split_lines]. destruct (Ascii.eqb c "010") eqn:Hc.
    + intros [->|Hin]%elem_of_cons; [done|by apply IH].
    + destruct (Names.split_lines s) as [|p rest] eqn:Hs.
      * by destruct (split_lines_not_nil s).
      * intros [->|Hin]%elem_of_cons.
        -- apply single_line_cons. split; [done|]. apply IH. left.
        -- apply IH. by right.
Qed.

Lemma lstrip_suffix (s : string) : ∃ a, s = a +:+ Py.lstrip s.
Proof.
  induction s as [|c s [a IH]]; [by exists ""|]. cbn [Py.lstrip].
  destruct (Py.isspace c).
  - exists (String c a). by rewrite string_app_cons, <- IH.
  - by exists "".
Qed.

Lemma rstrip_prefix (s : string) : ∃ b, s = Py.rstrip s +:+ b.
Proof.
  destruct (lstrip_suffix (String.rev s)) as [a Ha].
  exists (String.rev a). unfold Py.rstrip. rewrite <- rev_append, <- Ha.
  by rewrite rev_involutive.
Qed.

Lemma single_line_strip (s : string) :
  Names.split_lines s = [s] → Names.split_lines (Py.strip s) = [Py.strip s].
Proof.
  intros Hs. unfold Py.strip.
  destruct (lstrip_suffix s) as [a Ha]. rewrite Ha in Hs.
  apply single_line_app in Hs as [_ Hl].
  destruct (rstrip_prefix (Py.lstrip s)) as [b Hb]. rewrite Hb in Hl.
  by apply single_line_app in Hl as [Hr _].
Qed.

Lemma names_single_line (names_text name : string) :
  name ∈ Names.names names_text → Names.split_lines name = [name].
Proof.
  unfold Names.names. rewrite list_elem_of_omap.
  intros (line & Hline & Hname).
  destruct (Py.truthy (Py.strip line)); [|done]. injection Hname as <-.
  by apply single_line_strip, (split_lines_pieces _ _ Hline).
Qed.

Lemma split_lines_line (name s : string) :
  Names.split_lines name = [name] →
  Names.split_lines (name +:+ (nl +:+ s)) = name :: Names.split_lines s.
Proof.
  induction name as [|c name IH].
  - done.
  - intros [Hc Hname]%single_line_cons. rewrite string_app_cons.
    cbn [Names.split_lines]. rewrite Hc. by rewrite (IH Hname).
Qed.

Lemma split_lines_join (l : list string) :
  l ≠ [] → Forall (λ name, Names.split_lines name = [name]) l →
  Names.split_lines (Py.join nl l) = l.
Proof.
  induction l as [|name l IH]; [done|]. intros _ [Hname Hl]%Forall_cons.
  destruct l as [|name' l]; [done|].
  change (Py.join nl (name :: name' :: l))
    with (name +:+ nl +:+ Py.join nl (name' :: l)).
  rewrite (split_lines_line _ _ Hname). by rewrite IH.
Qed.

Lemma join_not_empty (l : list string) :
  l ≠ [] → Forall (λ name, name ≠ "") l → Py.join nl l ≠ "".
Proof.
  destruct l as [|name l]; [done|]. intros _ [Hname _]%Forall_cons.
  destruct l as [|name' l]; [done|].
  change (Py.join nl (name :: name' :: l))
    with (name +:+ nl +:+ Py.join nl (name' :: l)).
  by destruct name.
Qed.

Lemma rstrip_file (l : list string) :
  l ≠ [] → Forall (λ name, Py.strip name = name ∧ name ≠ "") l →
  Py.rstrip (unique_names_file l) = Py.join nl l.
Proof.
  induction l as [|name l IH]; [done|]. intros _ [[Hs Hne] Hl]%Forall_cons.
  cbn [unique_names_file]. destruct l as [|name' l].
  - cbn [unique_names_file]. rewrite string_app_nil_r. by apply rstrip_line.
  - specialize (IH ltac:(done) Hl).
    assert (Hjoin : Py.join nl (name' :: l) ≠ "").
    { apply join_not_empty; [done|].
      eapply Forall_impl; [exact Hl|]. by intros ? [_ ?]. }
    rewrite string_app_assoc, rstrip_app.
    + rewrite rstrip_app; [by rewrite IH|]. by rewrite IH.
    + rewrite rstrip_app by (by rewrite IH).
      unfold nl. by rewrite string_app_cons.
Qed.

Lemma strip_file (l : list string) :
  l ≠ [] → Forall (λ name, Py.strip name = name ∧ name ≠ "") l →
  Py.strip (unique_names_file l) = Py.join nl l.
Proof.
  intros Hne Hl. unfold Py.strip. rewrite lstrip_fixed; [by apply rstrip_file|].
  destruct l as [|name l]; [done|]. apply Forall_cons in Hl as [[Hs Hn] _].
  cbn [unique_names_file]. pose proof (trimmed_head _ Hs) as Hhead.
  destruct name as [|c name]; [done|]. by rewrite !string_app_cons.
Qed.

Lemma names_of_file (l : list string) :
  Forall (λ name, Py.strip name = name ∧ name ≠ ""
                  ∧ Names.split_lines name = [name]) l →
  Names.names (unique_names_file l) = l.
Proof.
  intros Hl. unfold Names.names.
  destruct (decide (l = [])) as [->|Hne]; [done|].
  rewrite strip_file, split_lines_join; [|done| |done|].
  - clear Hne. induction Hl as [|name l (Hs & Hn & _) _ IH]; [done|].
    cbn [omap list_omap]. rewrite Hs.
    apply truthy_ne in Hn. rewrite Hn. by rewrite IH.
  - eapply Forall_impl; [exact Hl|]. by intros ? (_ & _ & ?).
  - eapply Forall_impl; [exact Hl|]. by intros ? (? & ? & _).
Qed.

End NamesRoundTrip.

(** X21. The names script reads back what it saves: the text
    written to unique_names.txt from the list that [analyze_names] returns
    splits into exactly the names of that list, and [process_names] and
    [analyze_names] on this text return the same set, the same count and the
    same list as on the original text. *)
Theorem saved_names_read_back (names_text : string) :
  let sorted_names := (Names.analyze_names names_text).2 in
  let saved := unique_names_file sorted_names in
  Names.names saved = sorted_names
  ∧ Names.process_names saved = Names.process_names names_text
  ∧ (Names.analyze_names saved).2 = sorted_names.
Proof.
  intros sorted_names saved.
  assert (Hsorted : sorted_names
                    = sorted_strings (list_to_set (Names.names names_text))).
  { done. }
  assert (Hnames : Names.names saved = sorted_names).
  { apply names_of_file, Forall_forall. intros name Hin.
    rewrite Hsorted in Hin.
    apply elem_of_sorted_strings, elem_of_list_to_set in Hin.
    destruct (elem_of_names _ _ Hin) as [Hs Hne].
    split; [done|]. split; [done|]. by apply names_single_line in Hin. }
  assert (Hset : (list_to_set (Names.names saved) : gset string)
                 = list_to_set (Names.names names_text)).
  { rewrite Hnames, Hsorted. apply set_eq. intros name.
    by rewrite elem_of_list_to_set, elem_of_sorted_strings. }
  split; [done|]. split.
  - unfold Names.process_names. by rewrite Hset.
  - unfold Names.analyze_names, Names.process_names. cbn [snd].
    by rewrite Hset.
Qed.

Lemma saved_names_read_back_witness :
  unique_names_file
    (Names.analyze_names ("Reed, Bobby" +:+ nl +:+ "    Example, Example")).2
  = "Example, Example" +:+ nl +:+ "Reed, Bobby" +:+ nl
  ∧ Names.names
      (unique_names_file
         (Names.analyze_names
            ("Reed, Bobby" +:+ nl +:+ "    Example, Example")).2)
    = ["Example, Example"; "Reed, Bobby"].
Proof.
  split; [vm_compute; reflexivity|].
  destruct (saved_names_read_back
              ("Reed, Bobby" +:+ nl +:+ "    Example, Example")) as (-> & _).
  vm_compute. reflexivity.
Defined.
